(** * VALVE VTT backend: the session synchronisation engine of
    [src/backend/server.js], embedded as pure state-passing functions.

    Conventions of the embedding.
    - A JavaScript object used as a dictionary ([db.rooms], [liveRooms],
      [room.players]) is a [gmap] keyed by strings.  The order in which
      [Object.values]/[Object.entries] enumerate a dictionary is the
      order of [map_to_list]; no statement below depends on it.
    - A WebSocket is a mutable object that several places refer to
      ([liveRooms[code].masterWs], [player.ws], the handler's [ws]).  The
      sockets live in a store indexed by a handle, and the registry holds
      handles, so that a change of [readyState] is seen through every
      reference.
    - A string holds the UTF-8 encoding of the JavaScript string, the
      form in which it arrives in a frame and is written to the file
      (a lone surrogate, which JSON can escape, as its three-byte
      encoding).  [trim] and [toUpperCase] work on the code points that
      the bytes encode: [trim] strips the WhiteSpace and LineTerminator
      code points of ECMAScript, [toUpperCase] maps each code point by
      the language-independent full case mapping of Unicode (the tables
      below are those of Unicode 14.0).  Bytes that encode no code point
      are left alone by both.
    - Message fields that the protocol types as strings are optional
      strings, [None] standing for an absent field.  The [fichaData]
      payload is an arbitrary JavaScript value.
    - [Date.now()] and [Math.random()] are inputs of a handler run
      (record [Env]).
    - [saveDB] overwrites the file image [disk] with the store; write
      failures (which the source only logs) are not modelled. *)

From Stdlib Require Import ZArith Ascii String List Lia.
From stdpp Require Import base option list gmap strings fin_maps.

Open Scope string_scope.
Open Scope list_scope.

(** ** JavaScript values (payloads) *)

#[local] Set Warnings "-register-all".

Inductive JValue : Type :=
  | JUndefined
  | JNull
  | JBool (b : bool)
  | JNum (n : Z)
  | JStr (s : string)
  | JArr (l : list JValue)
  | JObj (l : list (string * JValue)).

(** The literal [{}]. *)
Definition emptyObject : JValue := JObj [].

(** ToBoolean on a value: [undefined], [null], [false], [0] and [""] are
    falsy, everything else (every object and array) is truthy. *)
Definition truthy (v : JValue) : bool :=
  match v with
  | JUndefined | JNull => false
  | JBool b => b
  | JNum n => negb (n =? 0)%Z
  | JStr s => negb (bool_decide (s = ""))
  | JArr _ | JObj _ => true
  end.

(** [v || {}] *)
Definition orEmptyObject (v : JValue) : JValue :=
  if truthy v then v else emptyObject.

(** ToBoolean on an optional string field: absent and [""] are falsy. *)
Definition truthyStr (o : option string) : bool :=
  match o with
  | Some s => negb (bool_decide (s = ""))
  | None => false
  end.

(** ** Strings: code points in UTF-8 *)

Definition isAsciiChar (c : ascii) : bool := (N_of_ascii c <? 128)%N.

(** A continuation byte, [10xxxxxx]. *)
Definition isCont (c : ascii) : bool :=
  (128 <=? N_of_ascii c)%N && (N_of_ascii c <? 192)%N.

(** The code point of a two-, three- or four-byte sequence, if the bytes
    are such a sequence in its shortest form. *)
Definition decode2 (c0 c1 : ascii) : option N :=
  let n0 := N_of_ascii c0 in
  if (192 <=? n0)%N && (n0 <? 224)%N && isCont c1 then
    let cp := ((n0 - 192) * 64 + (N_of_ascii c1 - 128))%N in
    if (128 <=? cp)%N then Some cp else None
  else None.

Definition decode3 (c0 c1 c2 : ascii) : option N :=
  let n0 := N_of_ascii c0 in
  if (224 <=? n0)%N && (n0 <? 240)%N && isCont c1 && isCont c2 then
    let cp := ((n0 - 224) * 4096 + (N_of_ascii c1 - 128) * 64
               + (N_of_ascii c2 - 128))%N in
    if (2048 <=? cp)%N then Some cp else None
  else None.

Definition decode4 (c0 c1 c2 c3 : ascii) : option N :=
  let n0 := N_of_ascii c0 in
  if (240 <=? n0)%N && (n0 <? 248)%N && isCont c1 && isCont c2 && isCont c3 then
    let cp := ((n0 - 240) * 262144 + (N_of_ascii c1 - 128) * 4096
               + (N_of_ascii c2 - 128) * 64 + (N_of_ascii c3 - 128))%N in
    if (65536 <=? cp)%N && (cp <? 1114112)%N then Some cp else None
  else None.

(** The UTF-8 encoding of a code point. *)
Definition encodePoint (cp : N) : string :=
  if (cp <? 128)%N then String (ascii_of_N cp) EmptyString
  else if (cp <? 2048)%N then
    String (ascii_of_N (192 + cp / 64))
      (String (ascii_of_N (128 + cp mod 64)) EmptyString)
  else if (cp <? 65536)%N then
    String (ascii_of_N (224 + cp / 4096))
      (String (ascii_of_N (128 + (cp / 64) mod 64))
         (String (ascii_of_N (128 + cp mod 64)) EmptyString))
  else
    String (ascii_of_N (240 + cp / 262144))
      (String (ascii_of_N (128 + (cp / 4096) mod 64))
         (String (ascii_of_N (128 + (cp / 64) mod 64))
            (String (ascii_of_N (128 + cp mod 64)) EmptyString))).

Fixpoint encodePoints (l : list N) : string :=
  match l with
  | [] => EmptyString
  | cp :: l' => encodePoint cp +:+ encodePoints l'
  end.

(** ** [String.prototype.trim]
    The code points that [trim] strips: WhiteSpace (TAB, VT, FF, ZWNBSP
    and the category Zs) and LineTerminator (LF, CR, LS, PS). *)
Definition whiteSpacePoints : list N :=
  [9; 10; 11; 12; 13; 32; 160; 5760;
   8192; 8193; 8194; 8195; 8196; 8197; 8198; 8199; 8200; 8201; 8202;
   8232; 8233; 8239; 8287; 12288; 65279]%N.

Definition isWhitePoint (cp : N) : bool := bool_decide (cp ∈ whiteSpacePoints).

(** The same on a byte below 128. *)
Definition isWhite (c : ascii) : bool :=
  let n := nat_of_ascii c in
  ((9 <=? n)%nat && (n <=? 13)%nat) || (n =? 32)%nat.

Fixpoint trimStart (s : string) : string :=
  match s with
  | EmptyString => EmptyString
  | String c0 s1 =>
      if isAsciiChar c0 then (if isWhite c0 then trimStart s1 else s) else
      match s1 with
      | EmptyString => s
      | String c1 s2 =>
          match decode2 c0 c1 with
          | Some cp => if isWhitePoint cp then trimStart s2 else s
          | None =>
              match s2 with
              | EmptyString => s
              | String c2 s3 =>
                  match decode3 c0 c1 c2 with
                  | Some cp => if isWhitePoint cp then trimStart s3 else s
                  | None => s
                  end
              end
          end
      end
  end.

(** What is left of a string that is white space from some point on ends
    at that point. *)
Fixpoint trimEnd (s : string) : string :=
  match s with
  | EmptyString => EmptyString
  | String c r =>
      if bool_decide (trimStart s = EmptyString) then EmptyString
      else String c (trimEnd r)
  end.

Definition trim (s : string) : string := trimEnd (trimStart s).

(** ** [String.prototype.toUpperCase]
    The case mapping of the code points from U+0080 on.  A range
    [(lo, hi, step, target)] maps [lo], [lo + step], ... up to [hi] to
    [target], [target + step], ...; [caseSpecial] lists the code points
    whose upper case is more than one code point. *)
Definition caseRanges : list (N * N * N * N) :=
  [
   (181, 181, 1, 924); (224, 246, 1, 192); (248, 254, 1, 216); (255, 255, 1, 376);
   (257, 303, 2, 256); (305, 305, 1, 73); (307, 311, 2, 306); (314, 328, 2, 313);
   (331, 375, 2, 330); (378, 382, 2, 377); (383, 383, 1, 83); (384, 384, 1, 579);
   (387, 389, 2, 386); (392, 392, 1, 391); (396, 396, 1, 395); (402, 402, 1, 401);
   (405, 405, 1, 502); (409, 409, 1, 408); (410, 410, 1, 573); (414, 414, 1, 544);
   (417, 421, 2, 416); (424, 424, 1, 423); (429, 429, 1, 428); (432, 432, 1, 431);
   (436, 438, 2, 435); (441, 441, 1, 440); (445, 445, 1, 444); (447, 447, 1, 503);
   (453, 453, 1, 452); (454, 454, 1, 452); (456, 456, 1, 455); (457, 457, 1, 455);
   (459, 459, 1, 458); (460, 460, 1, 458); (462, 476, 2, 461); (477, 477, 1, 398);
   (479, 495, 2, 478); (498, 498, 1, 497); (499, 499, 1, 497); (501, 501, 1, 500);
   (505, 543, 2, 504); (547, 563, 2, 546); (572, 572, 1, 571); (575, 576, 1, 11390);
   (578, 578, 1, 577); (583, 591, 2, 582); (592, 592, 1, 11375); (593, 593, 1, 11373);
   (594, 594, 1, 11376); (595, 595, 1, 385); (596, 596, 1, 390); (598, 599, 1, 393);
   (601, 601, 1, 399); (603, 603, 1, 400); (604, 604, 1, 42923); (608, 608, 1, 403);
   (609, 609, 1, 42924); (611, 611, 1, 404); (613, 613, 1, 42893); (614, 614, 1, 42922);
   (616, 616, 1, 407); (617, 617, 1, 406); (618, 618, 1, 42926); (619, 619, 1, 11362);
   (620, 620, 1, 42925); (623, 623, 1, 412); (625, 625, 1, 11374); (626, 626, 1, 413);
   (629, 629, 1, 415); (637, 637, 1, 11364); (640, 640, 1, 422); (642, 642, 1, 42949);
   (643, 643, 1, 425); (647, 647, 1, 42929); (648, 648, 1, 430); (649, 649, 1, 580);
   (650, 651, 1, 433); (652, 652, 1, 581); (658, 658, 1, 439); (669, 669, 1, 42930);
   (670, 670, 1, 42928); (837, 837, 1, 921); (881, 883, 2, 880); (887, 887, 1, 886);
   (891, 893, 1, 1021); (940, 940, 1, 902); (941, 943, 1, 904); (945, 961, 1, 913);
   (962, 962, 1, 931); (963, 971, 1, 931); (972, 972, 1, 908); (973, 974, 1, 910);
   (976, 976, 1, 914); (977, 977, 1, 920); (981, 981, 1, 934); (982, 982, 1, 928);
   (983, 983, 1, 975); (985, 1007, 2, 984); (1008, 1008, 1, 922); (1009, 1009, 1, 929);
   (1010, 1010, 1, 1017); (1011, 1011, 1, 895); (1013, 1013, 1, 917); (1016, 1016, 1, 1015);
   (1019, 1019, 1, 1018); (1072, 1103, 1, 1040); (1104, 1119, 1, 1024); (1121, 1153, 2, 1120);
   (1163, 1215, 2, 1162); (1218, 1230, 2, 1217); (1231, 1231, 1, 1216); (1233, 1327, 2, 1232);
   (1377, 1414, 1, 1329); (4304, 4346, 1, 7312); (4349, 4351, 1, 7357); (5112, 5117, 1, 5104);
   (7296, 7296, 1, 1042); (7297, 7297, 1, 1044); (7298, 7298, 1, 1054); (7299, 7300, 1, 1057);
   (7301, 7301, 1, 1058); (7302, 7302, 1, 1066); (7303, 7303, 1, 1122); (7304, 7304, 1, 42570);
   (7545, 7545, 1, 42877); (7549, 7549, 1, 11363); (7566, 7566, 1, 42950); (7681, 7829, 2, 7680);
   (7835, 7835, 1, 7776); (7841, 7935, 2, 7840); (7936, 7943, 1, 7944); (7952, 7957, 1, 7960);
   (7968, 7975, 1, 7976); (7984, 7991, 1, 7992); (8000, 8005, 1, 8008); (8017, 8023, 2, 8025);
   (8032, 8039, 1, 8040); (8048, 8049, 1, 8122); (8050, 8053, 1, 8136); (8054, 8055, 1, 8154);
   (8056, 8057, 1, 8184); (8058, 8059, 1, 8170); (8060, 8061, 1, 8186); (8112, 8113, 1, 8120);
   (8126, 8126, 1, 921); (8144, 8145, 1, 8152); (8160, 8161, 1, 8168); (8165, 8165, 1, 8172);
   (8526, 8526, 1, 8498); (8560, 8575, 1, 8544); (8580, 8580, 1, 8579); (9424, 9449, 1, 9398);
   (11312, 11359, 1, 11264); (11361, 11361, 1, 11360); (11365, 11365, 1, 570); (11366, 11366, 1, 574);
   (11368, 11372, 2, 11367); (11379, 11379, 1, 11378); (11382, 11382, 1, 11381); (11393, 11491, 2, 11392);
   (11500, 11502, 2, 11499); (11507, 11507, 1, 11506); (11520, 11557, 1, 4256); (11559, 11559, 1, 4295);
   (11565, 11565, 1, 4301); (42561, 42605, 2, 42560); (42625, 42651, 2, 42624); (42787, 42799, 2, 42786);
   (42803, 42863, 2, 42802); (42874, 42876, 2, 42873); (42879, 42887, 2, 42878); (42892, 42892, 1, 42891);
   (42897, 42899, 2, 42896); (42900, 42900, 1, 42948); (42903, 42921, 2, 42902); (42933, 42947, 2, 42932);
   (42952, 42954, 2, 42951); (42961, 42961, 1, 42960); (42967, 42969, 2, 42966); (42998, 42998, 1, 42997);
   (43859, 43859, 1, 42931); (43888, 43967, 1, 5024); (65345, 65370, 1, 65313); (66600, 66639, 1, 66560);
   (66776, 66811, 1, 66736); (66967, 67003, 2, 66928); (66968, 66976, 2, 66929); (66980, 66992, 2, 66941);
   (66996, 67000, 2, 66957); (67004, 67004, 1, 66965); (68800, 68850, 1, 68736); (71872, 71903, 1, 71840);
   (93792, 93823, 1, 93760); (125218, 125251, 1, 125184)
  ]%N.

Definition caseSpecial : list (N * list N) :=
  [
   (223, [83; 83]); (329, [700; 78]); (496, [74; 780]); (912, [921; 776; 769]);
   (944, [933; 776; 769]); (1415, [1333; 1362]); (7830, [72; 817]); (7831, [84; 776]);
   (7832, [87; 778]); (7833, [89; 778]); (7834, [65; 702]); (8016, [933; 787]);
   (8018, [933; 787; 768]); (8020, [933; 787; 769]); (8022, [933; 787; 834]); (8064, [7944; 921]);
   (8065, [7945; 921]); (8066, [7946; 921]); (8067, [7947; 921]); (8068, [7948; 921]);
   (8069, [7949; 921]); (8070, [7950; 921]); (8071, [7951; 921]); (8072, [7944; 921]);
   (8073, [7945; 921]); (8074, [7946; 921]); (8075, [7947; 921]); (8076, [7948; 921]);
   (8077, [7949; 921]); (8078, [7950; 921]); (8079, [7951; 921]); (8080, [7976; 921]);
   (8081, [7977; 921]); (8082, [7978; 921]); (8083, [7979; 921]); (8084, [7980; 921]);
   (8085, [7981; 921]); (8086, [7982; 921]); (8087, [7983; 921]); (8088, [7976; 921]);
   (8089, [7977; 921]); (8090, [7978; 921]); (8091, [7979; 921]); (8092, [7980; 921]);
   (8093, [7981; 921]); (8094, [7982; 921]); (8095, [7983; 921]); (8096, [8040; 921]);
   (8097, [8041; 921]); (8098, [8042; 921]); (8099, [8043; 921]); (8100, [8044; 921]);
   (8101, [8045; 921]); (8102, [8046; 921]); (8103, [8047; 921]); (8104, [8040; 921]);
   (8105, [8041; 921]); (8106, [8042; 921]); (8107, [8043; 921]); (8108, [8044; 921]);
   (8109, [8045; 921]); (8110, [8046; 921]); (8111, [8047; 921]); (8114, [8122; 921]);
   (8115, [913; 921]); (8116, [902; 921]); (8118, [913; 834]); (8119, [913; 834; 921]);
   (8124, [913; 921]); (8130, [8138; 921]); (8131, [919; 921]); (8132, [905; 921]);
   (8134, [919; 834]); (8135, [919; 834; 921]); (8140, [919; 921]); (8146, [921; 776; 768]);
   (8147, [921; 776; 769]); (8150, [921; 834]); (8151, [921; 776; 834]); (8162, [933; 776; 768]);
   (8163, [933; 776; 769]); (8164, [929; 787]); (8166, [933; 834]); (8167, [933; 776; 834]);
   (8178, [8186; 921]); (8179, [937; 921]); (8180, [911; 921]); (8182, [937; 834]);
   (8183, [937; 834; 921]); (8188, [937; 921]); (64256, [70; 70]); (64257, [70; 73]);
   (64258, [70; 76]); (64259, [70; 70; 73]); (64260, [70; 70; 76]); (64261, [83; 84]);
   (64262, [83; 84]); (64275, [1348; 1350]); (64276, [1348; 1333]); (64277, [1348; 1339]);
   (64278, [1358; 1350]); (64279, [1348; 1341])
  ]%N.

Definition inRange (cp : N) (r : N * N * N * N) : bool :=
  let '(lo, hi, step, _) := r in
  (lo <=? cp)%N && (cp <=? hi)%N && ((cp - lo) mod step =? 0)%N.

Definition upperPoint (cp : N) : list N :=
  match find (fun e => (fst e =? cp)%N) caseSpecial with
  | Some e => snd e
  | None =>
      match find (inRange cp) caseRanges with
      | Some (lo, _, _, target) => [(target + (cp - lo))%N]
      | None => [cp]
      end
  end.

(** The same on a byte below 128: [a]..[z] to [A]..[Z]. *)
Definition isLower (c : ascii) : bool :=
  let n := nat_of_ascii c in (97 <=? n)%nat && (n <=? 122)%nat.

Definition upperChar (c : ascii) : ascii :=
  if isLower c then ascii_of_nat (nat_of_ascii c - 32) else c.

Fixpoint toUpperCase (s : string) : string :=
  match s with
  | EmptyString => EmptyString
  | String c0 s1 =>
      if isAsciiChar c0 then String (upperChar c0) (toUpperCase s1) else
      match s1 with
      | EmptyString => s
      | String c1 s2 =>
          match decode2 c0 c1 with
          | Some cp => encodePoints (upperPoint cp) +:+ toUpperCase s2
          | None =>
              match s2 with
              | EmptyString => String c0 (toUpperCase s1)
              | String c2 s3 =>
                  match decode3 c0 c1 c2 with
                  | Some cp => encodePoints (upperPoint cp) +:+ toUpperCase s3
                  | None =>
                      match s3 with
                      | EmptyString => String c0 (toUpperCase s1)
                      | String c3 s4 =>
                          match decode4 c0 c1 c2 c3 with
                          | Some cp =>
                              encodePoints (upperPoint cp) +:+ toUpperCase s4
                          | None => String c0 (toUpperCase s1)
                          end
                      end
                  end
              end
          end
      end
  end.

(** ** Inputs of one handler run *)

Record Env : Type := mkEnv {
  now : Z;                 (* Date.now() *)
  randomIndex : nat -> nat; (* k-th Math.floor(Math.random() * chars.length),
                               before reduction into range *)
  randomSuffix : string    (* Math.random().toString(36).substr(2, 5) *)
}.

(** ** Identifier generator *)

Definition chars : string := "ABCDEFGHJKLMNPQRSTUVWXYZ23456789".

(** [chars[Math.floor(Math.random() * chars.length)]] as appended to a
    string.  [Math.random()] lies in [0, 1), so the index lies below
    [chars.length]. *)
Definition pickChar (r : nat) : string :=
  match String.get (r mod String.length chars) chars with
  | Some ch => String ch EmptyString
  | None => "undefined"
  end.

Fixpoint genCodeLoop (rnd : nat -> nat) (n i : nat) (c : string) : string :=
  match n with
  | O => c
  | S n' => genCodeLoop rnd n' (S i) (c +:+ pickChar (rnd i))
  end.

(** [genCode()], reading the draws [k .. k+3]. *)
Definition genCode (rnd : nat -> nat) (k : nat) : string :=
  genCodeLoop rnd 4 k "VALVE-".

(** [Number.prototype.toString(36)] on an integer. *)
Definition digit36 (d : N) : ascii :=
  if (d <? 10)%N then ascii_of_N (48 + d) else ascii_of_N (87 + d).

Fixpoint natToString36 (fuel : nat) (n : N) (acc : string) : string :=
  match fuel with
  | O => acc
  | S fuel' =>
      let acc' := String (digit36 (n mod 36)) acc in
      if (n / 36 =? 0)%N then acc' else natToString36 fuel' (n / 36) acc'
  end.

Definition toString36 (z : Z) : string :=
  let n := Z.to_N (Z.abs z) in
  let digits := natToString36 (S (N.to_nat (N.log2 n))) n "" in
  if (z <? 0)%Z then "-" +:+ digits else digits.

(** [genId()] *)
Definition genId (env : Env) : string :=
  toString36 (now env) +:+ randomSuffix env.

(** ** Data model *)

(** [ws.readyState] *)
Inductive ReadyState : Type := CONNECTING | OPEN | CLOSING | CLOSED.

#[global] Instance ReadyState_eq_dec : EqDecision ReadyState.
Proof. solve_decision. Defined.

(** A WebSocket with the fields the server hangs on it.  [None] is
    [null] (or [undefined]) in the four underscore fields. *)
Record Conn : Type := mkConn {
  readyState : ReadyState;
  _alive : bool;
  _role : option string;
  _roomCode : option string;
  _name : option string;
  _playerId : option string
}.

(** Durable store: [{ name, fichaData }] *)
Record DbPlayer : Type := mkDbPlayer {
  dp_name : option string;
  dp_fichaData : JValue
}.

(** Durable store: [{ masterName, sessionName, createdAt, players }];
    a loaded file may lack [players]. *)
Record DbRoom : Type := mkDbRoom {
  masterName : string;
  sessionName : string;
  createdAt : Z;
  db_players : option (gmap string DbPlayer)
}.

(** Live registry: [{ ws, name, fichaData }] *)
Record LivePlayer : Type := mkLivePlayer {
  lp_ws : option nat;
  lp_name : option string;
  lp_fichaData : JValue
}.

(** Live registry: [{ masterWs, players }] *)
Record LiveRoom : Type := mkLiveRoom {
  masterWs : option nat;
  players : gmap string LivePlayer
}.

(** The process state: [db.rooms], the file image written by [saveDB],
    [liveRooms], and the sockets by handle. *)
Record State : Type := mkState {
  db_rooms : gmap string DbRoom;
  disk : gmap string DbRoom;
  liveRooms : gmap string LiveRoom;
  sockets : gmap nat Conn
}.

(** Inbound messages, by [msg.type]. *)
Inductive Msg : Type :=
  | create_room (masterName sessionName : option string)
  | join_room (playerName roomCode : option string)
  | reconnect (role name roomCode : option string)
  | ficha_data (fichaData : JValue)
  | request_ficha (playerId : option string)
  | pong
  | unrecognized (type : string).

(** One entry of a presence snapshot: [{ id, name, online }] *)
Record Presence : Type := mkPresence {
  pr_id : string;
  pr_name : option string;
  pr_online : bool
}.

(** Outbound messages. *)
Inductive OutMsg : Type :=
  | room_created (roomCode : string) (sessionName : string)
                 (masterName : option string)
  | room_joined (roomCode : string) (sessionName : string) (playerId : string)
  | room_error (message : string)
  | ficha_update (playerId : option string) (fichaData : JValue)
  | send_ficha
  | players_update (players : gmap string Presence)
  | master_left.

(** What a handler run sends: (socket handle, message), in order. *)
Definition Outbox : Type := list (nat * OutMsg).

(** ** Helpers *)

(** [ws && ws.readyState === WebSocket.OPEN] on a reference. *)
Definition isOpen (socks : gmap nat Conn) (w : option nat) : bool :=
  match w with
  | Some h =>
      match socks !! h with
      | Some c => bool_decide (readyState c = OPEN)
      | None => false
      end
  | None => false
  end.

(** [send(ws, data)] *)
Definition send (s : State) (w : option nat) (data : OutMsg) : Outbox :=
  match w with
  | Some h => if isOpen (sockets s) w then [(h, data)] else []
  | None => []
  end.

(** [p.ws && p.ws !== exclude && p.ws.readyState === WebSocket.OPEN] then
    [p.ws.send(msg)] *)
Definition sendUnlessExcluded (s : State) (w exclude : option nat)
    (data : OutMsg) : Outbox :=
  if bool_decide (w = exclude) then [] else send s w data.

(** [broadcastRoom(code, data, exclude)] *)
Definition broadcastRoom (s : State) (code : string) (data : OutMsg)
    (exclude : option nat) : Outbox :=
  match liveRooms s !! code with
  | None => []
  | Some room =>
      sendUnlessExcluded s (masterWs room) exclude data ++
      flat_map (fun '(_, p) => sendUnlessExcluded s (lp_ws p) exclude data)
               (map_to_list (players room))
  end.

(** [playersSnapshot(code)] *)
Definition playersSnapshot (s : State) (code : string) : gmap string Presence :=
  match liveRooms s !! code with
  | None => ∅
  | Some room =>
      map_imap (fun id p =>
                  Some (mkPresence id (lp_name p) (isOpen (sockets s) (lp_ws p))))
               (players room)
  end.

(** Property keys: [obj[null]] reads the key ["null"], [obj[undefined]]
    the key ["undefined"]. *)
Definition keyOfNullable (o : option string) : string := default "null" o.
Definition keyOfOptional (o : option string) : string := default "undefined" o.

(** Field updates on the store and on a socket of the store. *)
Definition setDb (s : State) (d : gmap string DbRoom) : State :=
  mkState d (disk s) (liveRooms s) (sockets s).
Definition setLive (s : State) (l : gmap string LiveRoom) : State :=
  mkState (db_rooms s) (disk s) l (sockets s).
Definition setSockets (s : State) (k : gmap nat Conn) : State :=
  mkState (db_rooms s) (disk s) (liveRooms s) k.

(** [saveDB(db)] *)
Definition saveDB (s : State) : State :=
  mkState (db_rooms s) (db_rooms s) (liveRooms s) (sockets s).

(** [ws._role = role; ws._roomCode = code; ws._name = name] *)
Definition bindConn (role roomCode name : option string) (c : Conn) : Conn :=
  mkConn (readyState c) (_alive c) role roomCode name (_playerId c).
(** [ws._playerId = playerId] *)
Definition setPlayerId (playerId : option string) (c : Conn) : Conn :=
  mkConn (readyState c) (_alive c) (_role c) (_roomCode c) (_name c) playerId.
(** [ws._alive = b] *)
Definition setAlive (b : bool) (c : Conn) : Conn :=
  mkConn (readyState c) b (_role c) (_roomCode c) (_name c) (_playerId c).
(** [ws.readyState = r] *)
Definition setReadyState (r : ReadyState) (c : Conn) : Conn :=
  mkConn r (_alive c) (_role c) (_roomCode c) (_name c) (_playerId c).

(** [room.masterWs = w] *)
Definition setMasterWs (w : option nat) (r : LiveRoom) : LiveRoom :=
  mkLiveRoom w (players r).
(** [room.players[id] = p] *)
Definition putLivePlayer (id : string) (p : LivePlayer) (r : LiveRoom) : LiveRoom :=
  mkLiveRoom (masterWs r) (<[id := p]> (players r)).
(** [if (room.players[id]) room.players[id].fichaData = v]: [alter] leaves
    a dictionary without the key as it is. *)
Definition setLiveFicha (id : string) (v : JValue) (r : LiveRoom) : LiveRoom :=
  mkLiveRoom (masterWs r)
    (alter (fun p => mkLivePlayer (lp_ws p) (lp_name p) v) id (players r)).
(** [if (room.players[id]) room.players[id].ws = null] *)
Definition clearLiveWs (id : string) (r : LiveRoom) : LiveRoom :=
  mkLiveRoom (masterWs r)
    (alter (fun p => mkLivePlayer None (lp_name p) (lp_fichaData p)) id (players r)).

(** [if (!room.players) room.players = {}; room.players[id] = p] *)
Definition putDbPlayer (id : string) (p : DbPlayer) (r : DbRoom) : DbRoom :=
  mkDbRoom (masterName r) (sessionName r) (createdAt r)
    (Some (<[id := p]> (default ∅ (db_players r)))).
(** [if (room?.players?.[id]) room.players[id].fichaData = v] *)
Definition setDbFicha (id : string) (v : JValue) (r : DbRoom) : DbRoom :=
  mkDbRoom (masterName r) (sessionName r) (createdAt r)
    (alter (fun p => mkDbPlayer (dp_name p) v) id <$> db_players r).

(** [{ ws: null, name: p.name, fichaData: p.fichaData || {} }] *)
Definition restorePlayer (p : DbPlayer) : LivePlayer :=
  mkLivePlayer None (dp_name p) (orEmptyObject (dp_fichaData p)).

(** [db.rooms[code]?.players?.[id]?.fichaData] *)
Definition durableFicha (s : State) (code id : string) : JValue :=
  match db_rooms s !! code with
  | Some room =>
      match db_players room with
      | Some ps =>
          match ps !! id with
          | Some p => dp_fichaData p
          | None => JUndefined
          end
      | None => JUndefined
      end
  | None => JUndefined
  end.

(** ** create_room: the collision loop
    [do { code = genCode(); attempts++; } while (db.rooms[code] && attempts < 20)].
    The result is the code and the number of attempts made. *)
Fixpoint codeLoop (fuel : nat) (rooms : gmap string DbRoom) (rnd : nat -> nat)
    (attempts : nat) : string * nat :=
  let code := genCode rnd (4 * attempts) in
  let attempts := S attempts in
  match fuel with
  | O => (code, attempts)
  | S fuel' =>
      if bool_decide (is_Some (rooms !! code)) && (attempts <? 20)%nat
      then codeLoop fuel' rooms rnd attempts
      else (code, attempts)
  end.

Definition pickCode (rooms : gmap string DbRoom) (rnd : nat -> nat) : string :=
  fst (codeLoop 20 rooms rnd 0).

(** ** The message handler *)

Definition roomNotFound : string := "Sala não encontrada. Verifique o código.".

Definition handleMsg (env : Env) (ws : nat) (msg : Msg) (s : State)
    : State * Outbox :=
  match msg with
  | create_room mn sn =>
      if negb (truthyStr mn) || negb (truthyStr sn) then (s, []) else
      let mName := default "" mn in
      let sName := default "" sn in
      let code := pickCode (db_rooms s) (randomIndex env) in
      let s := setDb s (<[code := mkDbRoom mName sName (now env) (Some ∅)]> (db_rooms s)) in
      let s := saveDB s in
      let s := setLive s (<[code := mkLiveRoom (Some ws) ∅]> (liveRooms s)) in
      let s := setSockets s
                 (alter (bindConn (Some "master") (Some code) (Some mName)) ws (sockets s)) in
      (s, send s (Some ws) (room_created code sName (Some mName)))
  | join_room pn rc =>
      if negb (truthyStr pn) || negb (truthyStr rc) then (s, []) else
      let pName := default "" pn in
      let code := toUpperCase (trim (default "" rc)) in
      match db_rooms s !! code with
      | None => (s, send s (Some ws) (room_error roomNotFound))
      | Some dbRoom =>
          let s :=
            match liveRooms s !! code with
            | Some _ => s
            | None =>
                setLive s (<[code := mkLiveRoom None
                                       (restorePlayer <$> default ∅ (db_players dbRoom))]>
                             (liveRooms s))
            end in
          let playerId := genId env in
          let s := setLive s
                     (alter (putLivePlayer playerId (mkLivePlayer (Some ws) (Some pName) emptyObject))
                            code (liveRooms s)) in
          let s := setSockets s
                     (alter (fun c => setPlayerId (Some playerId)
                                        (bindConn (Some "player") (Some code) (Some pName) c))
                            ws (sockets s)) in
          let s := setDb s
                     (alter (putDbPlayer playerId (mkDbPlayer (Some pName) emptyObject))
                            code (db_rooms s)) in
          let s := saveDB s in
          (s, send s (Some ws) (room_joined code (sessionName dbRoom) playerId) ++
              broadcastRoom s code (players_update (playersSnapshot s code)) None)
      end
  | reconnect role name rc =>
      match toUpperCase <$> rc with
      | None => (s, [])
      | Some code =>
          if bool_decide (code = "") then (s, []) else
          match db_rooms s !! code with
          | None => (s, [])
          | Some dbRoom =>
              let s :=
                match liveRooms s !! code with
                | Some _ => s
                | None => setLive s (<[code := mkLiveRoom None ∅]> (liveRooms s))
                end in
              let s := setSockets s (alter (bindConn role (Some code) name) ws (sockets s)) in
              if bool_decide (role = Some "master") then
                let s := setLive s (alter (setMasterWs (Some ws)) code (liveRooms s)) in
                (s, send s (Some ws) (room_created code (sessionName dbRoom) name) ++
                    send s (Some ws) (players_update (playersSnapshot s code)))
              else
                let playerId := genId env in
                let s := setSockets s (alter (setPlayerId (Some playerId)) ws (sockets s)) in
                let s := setLive s
                           (alter (putLivePlayer playerId (mkLivePlayer (Some ws) name emptyObject))
                                  code (liveRooms s)) in
                (s, send s (Some ws) (room_joined code (sessionName dbRoom) playerId) ++
                    broadcastRoom s code (players_update (playersSnapshot s code)) None)
          end
      end
  | ficha_data fd =>
      match sockets s !! ws with
      | None => (s, [])
      | Some c =>
          if negb (bool_decide (_role c = Some "player")) || negb (truthyStr (_roomCode c))
          then (s, []) else
          let code := default "" (_roomCode c) in
          match liveRooms s !! code with
          | None => (s, [])
          | Some room =>
              let id := keyOfNullable (_playerId c) in
              let s := setLive s (alter (setLiveFicha id fd) code (liveRooms s)) in
              let s := setDb s (alter (setDbFicha id fd) code (db_rooms s)) in
              (s, if isOpen (sockets s) (masterWs room)
                  then send s (masterWs room) (ficha_update (_playerId c) fd)
                  else [])
          end
      end
  | request_ficha playerId =>
      match sockets s !! ws with
      | None => (s, [])
      | Some c =>
          if negb (bool_decide (_role c = Some "master")) || negb (truthyStr (_roomCode c))
          then (s, []) else
          let code := default "" (_roomCode c) in
          match liveRooms s !! code with
          | None => (s, [])
          | Some room =>
              let player := players room !! keyOfOptional playerId in
              if isOpen (sockets s) (player ≫= lp_ws)
              then (s, send s (player ≫= lp_ws) send_ficha)
              else
                let cached := orEmptyObject (durableFicha s code (keyOfOptional playerId)) in
                (s, send s (Some ws) (ficha_update playerId cached))
          end
      end
  | pong => (setSockets s (alter (setAlive true) ws (sockets s)), [])
  | unrecognized _ => (s, [])
  end.

(** ** Connection close *)

Definition handleDisconnect (ws : nat) (s : State) : State * Outbox :=
  match sockets s !! ws with
  | None => (s, [])
  | Some c =>
      if negb (truthyStr (_roomCode c)) then (s, []) else
      let code := default "" (_roomCode c) in
      match liveRooms s !! code with
      | None => (s, [])
      | Some _ =>
          if bool_decide (_role c = Some "master") then
            let s := setLive s (alter (setMasterWs None) code (liveRooms s)) in
            (s, broadcastRoom s code master_left None)
          else if bool_decide (_role c = Some "player") && truthyStr (_playerId c) then
            let s := setLive s
                       (alter (clearLiveWs (default "" (_playerId c))) code (liveRooms s)) in
            (s, broadcastRoom s code (players_update (playersSnapshot s code)) None)
          else (s, [])
      end
  end.

(** ** Retention sweeper *)

Definition ttl : Z := 48 * 3600 * 1000.

(** One iteration of the [forEach] over [Object.entries(db.rooms)]; the
    accumulator is [db.rooms], [liveRooms] and [changed]. *)
Definition sweepEntry (cutoff : Z)
    (acc : gmap string DbRoom * gmap string LiveRoom * bool)
    (entry : string * DbRoom)
    : gmap string DbRoom * gmap string LiveRoom * bool :=
  let '(rooms, live, changed) := acc in
  let '(code, room) := entry in
  if (createdAt room <? cutoff)%Z
  then (delete code rooms, delete code live, true)
  else (rooms, live, changed).

Definition retentionSweep (t : Z) (s : State) : State :=
  let cutoff := (t - ttl)%Z in
  let '(rooms, live, changed) :=
    foldl (sweepEntry cutoff) (db_rooms s, liveRooms s, false)
          (map_to_list (db_rooms s)) in
  let s := mkState rooms (disk s) live (sockets s) in
  if changed then saveDB s else s.

(** ** The event loop *)

(** A socket as [wss.on('connection')] initialises it. *)
Definition newConn : Conn := mkConn OPEN true None None None None.

(** The process as it starts: [db = loadDB()], nothing live. *)
Definition boot (file : gmap string DbRoom) : State :=
  mkState file file ∅ ∅.

Inductive Event : Type :=
  | EvConnection (ws : nat)                 (* a client connects *)
  | EvMessage (env : Env) (ws : nat) (msg : Msg)
  | EvClose (ws : nat)                      (* 'close' on a socket *)
  | EvFlush                                 (* setInterval(saveDB, 10000) *)
  | EvSweep (t : Z)                         (* the hourly sweeper, at time t *)
  | EvRestart.                              (* the process stops and starts *)

(** One event, run to completion.  Messages and close events only
    arrive on sockets of the store; a message only on an open one. *)
Definition step (ev : Event) (s : State) : State * Outbox :=
  match ev with
  | EvConnection ws =>
      match sockets s !! ws with
      | Some _ => (s, [])
      | None => (setSockets s (<[ws := newConn]> (sockets s)), [])
      end
  | EvMessage env ws msg =>
      if isOpen (sockets s) (Some ws) then handleMsg env ws msg s else (s, [])
  | EvClose ws =>
      handleDisconnect ws (setSockets s (alter (setReadyState CLOSED) ws (sockets s)))
  | EvFlush => (saveDB s, [])
  | EvSweep t => (retentionSweep t s, [])
  | EvRestart => (boot (disk s), [])
  end.

(** A run: the state after the events, and everything sent. *)
Fixpoint run (evs : list Event) (s : State) : State * Outbox :=
  match evs with
  | [] => (s, [])
  | ev :: evs' =>
      let '(s1, out1) := step ev s in
      let '(s2, out2) := run evs' s1 in
      (s2, out1 ++ out2)
  end.

(** * Vocabulary of the statements *)

(** ** Room codes *)

Fixpoint allChars (P : ascii -> bool) (s : string) : bool :=
  match s with
  | EmptyString => true
  | String c r => P c && allChars P r
  end.

(** A character of the generator's alphabet. *)
Definition inAlphabet (ch : ascii) : bool :=
  bool_decide (ch ∈ list_ascii_of_string chars).

(** The format of a room code: the prefix, then four characters of the
    alphabet. *)
Definition isRoomCode (c : string) : bool :=
  match c with
  | String "V" (String "A" (String "L" (String "V" (String "E" (String "-"
      (String a (String b (String c (String d EmptyString))))))))) =>
      inAlphabet a && inAlphabet b && inAlphabet c && inAlphabet d
  | _ => false
  end.

(** A byte below 128 that is not white space: what [trim] leaves alone. *)
Definition nonWhite (c : ascii) : bool := isAsciiChar c && negb (isWhite c).

(** A byte below 128 that is neither white space nor a lower-case letter:
    what [trim] and [toUpperCase] leave alone. *)
Definition plainChar (c : ascii) : bool :=
  isAsciiChar c && negb (isWhite c) && negb (isLower c).

(** [s] is [t] but for the case of its letters: byte by byte the same, or
    the lower-case letter of a capital of [t]. *)
Definition isUpper (c : ascii) : bool :=
  let n := nat_of_ascii c in (65 <=? n)%nat && (n <=? 90)%nat.

Fixpoint sameUpToCase (s t : string) : bool :=
  match s, t with
  | EmptyString, EmptyString => true
  | String c s', String d t' =>
      (bool_decide (c = d)
       || (isUpper d && (nat_of_ascii c =? nat_of_ascii d + 32)%nat))
      && sameUpToCase s' t'
  | _, _ => false
  end.

(** A run of white space: code points that [trim] strips. *)
Definition whiteRun (l : list N) : Prop := Forall (fun cp => cp ∈ whiteSpacePoints) l.

(** ** The live entry that join_room works on
    [if (!liveRooms[code]) { ... restore players from the store ... }] *)
Definition ensureLiveSeeded (code : string) (dbRoom : DbRoom)
    (live : gmap string LiveRoom) : gmap string LiveRoom :=
  match live !! code with
  | Some _ => live
  | None =>
      <[code := mkLiveRoom None (restorePlayer <$> default ∅ (db_players dbRoom))]> live
  end.

(** The live entry that reconnect works on
    [if (!liveRooms[code]) liveRooms[code] = { masterWs: null, players: {} }] *)
Definition ensureLiveEmpty (code : string) (live : gmap string LiveRoom)
    : gmap string LiveRoom :=
  match live !! code with
  | Some _ => live
  | None => <[code := mkLiveRoom None ∅]> live
  end.

(** ** Reading the two stores *)

(** The durable record of participant [id] in room [code], if any. *)
Definition durablePlayer (s : State) (code id : string) : option DbPlayer :=
  match db_rooms s !! code with
  | Some room => default ∅ (db_players room) !! id
  | None => None
  end.

(** The same in the file image, which is what a restart loads. *)
Definition filePlayer (s : State) (code id : string) : option DbPlayer :=
  match disk s !! code with
  | Some room => default ∅ (db_players room) !! id
  | None => None
  end.

(** No record of participant [id] of room [code] in a store image. *)
Definition absentIn (code id : string) (rooms : gmap string DbRoom) : Prop :=
  match rooms !! code with
  | Some room => default ∅ (db_players room) !! id = None
  | None => True
  end.

(** An event that does not enter participant [id] in a durable room: all
    but a join_room whose generated id is [id]. *)
Definition notJoining (id : string) (ev : Event) : Prop :=
  match ev with
  | EvMessage env _ (join_room _ _) => genId env <> id
  | _ => True
  end.

(** The live record of participant [id] in room [code], if any. *)
Definition livePlayer (s : State) (code id : string) : option LivePlayer :=
  match liveRooms s !! code with
  | Some room => players room !! id
  | None => None
  end.

(** A socket sends a series of ficha_data messages. *)
Definition fichaEvents (ws : nat) (fds : list (Env * JValue)) : list Event :=
  map (fun p => EvMessage p.1 ws (ficha_data p.2)) fds.

(** ** Four statements in the specification's wording
    They are compared below with what the handlers do. *)

(** "For every join_room message whose (normalized) room code has no entry
    in the Durable Store, the sender receives a [room_error] and never a
    [room_joined], and no room or participant state is created." *)
Definition join_unknown_as_specified (env : Env) (ws : nat)
    (pn : option string) (rc : string) (s : State) : Prop :=
  db_rooms s !! toUpperCase (trim rc) = None ->
  isOpen (sockets s) (Some ws) = true ->
  let r := handleMsg env ws (join_room pn (Some rc)) s in
  (exists m, (ws, room_error m) ∈ snd r)
  /\ (forall h c sn id, (h, room_joined c sn id) ∉ snd r)
  /\ fst r = s.

(** "The sender's payload is replaced with the message's [fichaData] in
    both the Live Registry and the Durable Store, and a [ficha_update] is
    sent to the room's master connection whenever one is attached." *)
Definition ficha_data_as_specified (env : Env) (ws : nat) (fd : JValue)
    (s : State) : Prop :=
  forall c code room,
    sockets s !! ws = Some c ->
    _role c = Some "player" -> _roomCode c = Some code ->
    liveRooms s !! code = Some room ->
    let s' := fst (handleMsg env ws (ficha_data fd) s) in
    let id := keyOfNullable (_playerId c) in
    lp_fichaData <$> livePlayer s' code id = Some fd
    /\ dp_fichaData <$> durablePlayer s' code id = Some fd
    /\ (forall m, masterWs room = Some m -> isOpen (sockets s) (Some m) = true ->
          (m, ficha_update (_playerId c) fd)
            ∈ snd (handleMsg env ws (ficha_data fd) s)).

(** "If that participant has a live open connection, a [send_ficha] is sent
    to it and nothing to the master; otherwise the master immediately
    receives a [ficha_update] with the Durable Store's last known payload
    for that id, or an empty payload if none exists." *)
Definition request_ficha_as_specified (env : Env) (ws : nat)
    (pid : option string) (s : State) : Prop :=
  forall c code,
    sockets s !! ws = Some c -> readyState c = OPEN ->
    _role c = Some "master" -> _roomCode c = Some code -> code <> "" ->
    let out := snd (handleMsg env ws (request_ficha pid) s) in
    let target := livePlayer s code (keyOfOptional pid) ≫= lp_ws in
    if isOpen (sockets s) target
    then exists h, target = Some h /\ out = [(h, send_ficha)]
    else out = [(ws, ficha_update pid
                       match durableFicha s code (keyOfOptional pid) with
                       | JUndefined => emptyObject
                       | v => v
                       end)].

(** "Two successive join_room messages on the same existing room code with
    the same player name yield two distinct participant ids, and the
    presence snapshot afterwards lists both participants." *)
Definition two_joins_as_specified (e1 e2 : Env) (ws1 ws2 : nat)
    (pn rc : string) (s : State) : Prop :=
  let r1 := handleMsg e1 ws1 (join_room (Some pn) (Some rc)) s in
  let r2 := handleMsg e2 ws2 (join_room (Some pn) (Some rc)) (fst r1) in
  exists code sn id1 id2,
    (ws1, room_joined code sn id1) ∈ snd r1
    /\ (ws2, room_joined code sn id2) ∈ snd r2
    /\ id1 <> id2
    /\ is_Some (playersSnapshot (fst r2) code !! id1)
    /\ is_Some (playersSnapshot (fst r2) code !! id2).

(** ** Retention sweeper: the test of one entry *)
Definition expired (cutoff : Z) (e : string * DbRoom) : bool :=
  (createdAt e.2 <? cutoff)%Z.

(** What the sweeper does to one dictionary over the entries. *)
Definition dropExpired {A} (cutoff : Z) (m : gmap string A)
    (es : list (string * DbRoom)) : gmap string A :=
  foldl (fun m e => if expired cutoff e then delete e.1 m else m) m es.

(** ** Invariant of the stored codes *)

(** Every code stored, in memory or in the file image, has the
    generator's format. *)
Definition codesWellFormed (s : State) : Prop :=
  (forall c, is_Some (db_rooms s !! c) -> isRoomCode c = true)
  /\ (forall c, is_Some (disk s !! c) -> isRoomCode c = true).

(** ** Concrete inputs used in the examples *)

(** A clock reading, the draws that spell [VALVE-AAAA], and a suffix. *)
Definition env0 : Env := mkEnv 1700000000000 (fun _ => 0) "abcde".
(** The same instant with another random suffix. *)
Definition env1 : Env := mkEnv 1700000000000 (fun _ => 0) "zzzzz".

Definition codeA : string := "VALVE-AAAA".

(** A stored room with one participant, as a file written by an earlier
    process holds it. *)
Definition storedBo : DbPlayer := mkDbPlayer (Some "Bo") (JObj [("hp", JNum 10)]).
Definition storedRoom : DbRoom :=
  mkDbRoom "Ana" "Campaign 1" 1700000000000 (Some {[ "p1" := storedBo ]}).
Definition storedFile : gmap string DbRoom := {[ codeA := storedRoom ]}.

(** The process restarted on that file, with one client connected. *)
Definition afterRestart : State := fst (run [EvConnection 1] (boot storedFile)).

(** A process restarted on a file that holds a room under [VALVE-SSSS],
    with one client connected. *)
Definition afterRestartS : State :=
  fst (run [EvConnection 1] (boot {[ "VALVE-SSSS" := storedRoom ]})).

(** The restarted process after its client reconnected as a player. *)
Definition afterReconnect : State :=
  fst (run [EvConnection 1;
            EvMessage env0 1 (reconnect (Some "player") (Some "Cy") (Some codeA))]
           (boot storedFile)).

(** A fresh process in which a master created [VALVE-AAAA], which the
    sweeper removed 49 hours later while the master was connected. *)
Definition afterSweep : State :=
  fst (run [EvConnection 1;
            EvMessage env0 1 (create_room (Some "Ana") (Some "Campaign 1"));
            EvSweep (1700000000000 + 49 * 3600 * 1000)]
           (boot ∅)).

(** A fresh process: the master creates the room, a player joins, sends
    the payload [0] and disconnects. *)
Definition afterZeroPayload : State :=
  fst (run [EvConnection 1;
            EvMessage env0 1 (create_room (Some "Ana") (Some "Campaign 1"));
            EvConnection 2;
            EvMessage env0 2 (join_room (Some "Bo") (Some codeA));
            EvMessage env0 2 (ficha_data (JNum 0));
            EvClose 2]
           (boot ∅)).

(** The restarted process with two clients connected. *)
Definition twoClients : State :=
  fst (run [EvConnection 1; EvConnection 2] (boot storedFile)).

(** A restarted process in which socket 1 reconnected as master, socket 2
    then reconnected as master of the same room, and socket 3 joined it
    as a player. *)
Definition twoMasters : State :=
  fst (run [EvConnection 1;
            EvMessage env0 1 (reconnect (Some "master") (Some "Ana") (Some codeA));
            EvConnection 2;
            EvMessage env0 2 (reconnect (Some "master") (Some "Ana") (Some codeA));
            EvConnection 3;
            EvMessage env0 3 (join_room (Some "Bo") (Some codeA))]
           (boot storedFile)).

(** A restarted process in which socket 1 reconnected as master and
    socket 3 joined as a player, with socket 2 connected and anonymous. *)
Definition masterAndPlayer : State :=
  fst (run [EvConnection 1;
            EvMessage env0 1 (reconnect (Some "master") (Some "Ana") (Some codeA));
            EvConnection 2; EvConnection 3;
            EvMessage env0 3 (join_room (Some "Bo") (Some codeA))]
           (boot storedFile)).

(** A fresh process without a file, with two clients connected. *)
Definition twoAnonymous : State :=
  fst (run [EvConnection 1; EvConnection 2] (boot ∅)).

(** A fresh process in which socket 1 created [VALVE-AAAA] and socket 2
    joined it as player Bo. *)
Definition roomWithPlayer : State :=
  fst (run [EvConnection 1;
            EvMessage env0 1 (create_room (Some "Ana") (Some "Campaign 1"));
            EvConnection 2;
            EvMessage env0 2 (join_room (Some "Bo") (Some codeA))]
           (boot ∅)).

(** * Further vocabulary: heartbeat, invariants, ids *)

(** ** The heartbeat interval
    [wss.clients.forEach(ws => { if (!ws._alive) { ws.terminate(); return; }
    ws._alive = false; try { ws.ping(); } catch(e) {} })].
    [wss.clients] holds the sockets that have not closed; [terminate()]
    puts a socket in state [CLOSING] at once, its 'close' event follows
    later (event [EvClose]); [ping()] changes nothing in the process.
    The peer's answer, a pong frame ([ws.on('pong', ...)]) or a pong
    message ([case 'pong']), runs the same statement [ws._alive = true];
    both are the event [EvMessage _ ws pong]. *)
Definition keepAliveConn (c : Conn) : Conn :=
  if bool_decide (readyState c = CLOSED) then c
  else if negb (_alive c) then setReadyState CLOSING c
  else setAlive false c.

Definition keepAlive (s : State) : State :=
  setSockets s (keepAliveConn <$> sockets s).

(** An event that leaves the heartbeat flag of an existing socket [ws]
    alone: all but its own pong, and a restart of the process. *)
Definition quietFor (ws : nat) (ev : Event) : Prop :=
  match ev with
  | EvMessage _ ws' pong => ws' <> ws
  | EvRestart => False
  | _ => True
  end.

(** ** Invariants of the two stores *)

(** Every room of the live registry is a room of the durable store. *)
Definition liveWithinStore (s : State) : Prop :=
  forall c, is_Some (liveRooms s !! c) -> is_Some (db_rooms s !! c).

(** ** Reading a base-36 numeral back *)

Definition digitValue (c : ascii) : N :=
  let n := N_of_ascii c in
  if (n <? 58)%N then (n - 48)%N else (n - 87)%N.

Fixpoint decodeFrom (acc : N) (s : string) : N :=
  match s with
  | EmptyString => acc
  | String c r => decodeFrom (acc * 36 + digitValue c)%N r
  end.

(** ** What a message can do to a durable record *)

(** The message is a create_room that takes the code of the room. *)
Definition recreates (env : Env) (msg : Msg) (s : State) (code : string) : Prop :=
  exists mn sn, msg = create_room mn sn
                /\ pickCode (db_rooms s) (randomIndex env) = code.

(** The message is a join_room into the room that generates the id. *)
Definition joinsAs (env : Env) (msg : Msg) (code id : string) : Prop :=
  exists pn rc, msg = join_room pn (Some rc)
                /\ toUpperCase (trim rc) = code /\ genId env = id.

(** The message is a ficha_data from the socket of that participant. *)
Definition updatesOwn (ws : nat) (msg : Msg) (s : State) (code id : string) : Prop :=
  exists fd c, msg = ficha_data fd
               /\ sockets s !! ws = Some c /\ _role c = Some "player"
               /\ _roomCode c = Some code
               /\ keyOfNullable (_playerId c) = id.

(** An event after which an open socket [ws] is still connected: all but
    its own close and a restart of the process. *)
Definition staysConnected (ws : nat) (ev : Event) : Prop :=
  match ev with
  | EvClose ws' => ws' <> ws
  | EvRestart => False
  | _ => True
  end.

(** * Properties *)

(** ** Room codes and the generator *)

(** *** Bytes below 128 *)

Lemma toUpperCase_ascii c r :
  isAsciiChar c = true ->
  toUpperCase (String c r) = String (upperChar c) (toUpperCase r).
Proof. intros H. cbn [toUpperCase]. by rewrite H. Qed.

Lemma trimStart_ascii c r :
  isAsciiChar c = true ->
  trimStart (String c r) = if isWhite c then trimStart r else String c r.
Proof. intros H. cbn [trimStart]. by rewrite H. Qed.

Lemma allChars_impl (P Q : ascii -> bool) s :
  (forall c, P c = true -> Q c = true) -> allChars P s = true -> allChars Q s = true.
Proof.
  intros HPQ. induction s as [|c r IH]; simpl; [done|].
  intros [Hc Hr]%andb_prop. by rewrite (HPQ c Hc), (IH Hr).
Qed.

Lemma append_cons c r t : String c r +:+ t = String c (r +:+ t).
Proof. reflexivity. Qed.

Lemma append_nil t : "" +:+ t = t.
Proof. reflexivity. Qed.

Lemma allChars_app (P : ascii -> bool) s t :
  allChars P (s +:+ t) = allChars P s && allChars P t.
Proof.
  induction s as [|c r IH]; [done|].
  rewrite append_cons. cbn [allChars]. by rewrite IH, andb_assoc.
Qed.

Lemma append_empty_r s : s +:+ "" = s.
Proof. induction s as [|c r IH]; [done|]. by rewrite append_cons, IH. Qed.

Lemma plainChar_nonWhite c : plainChar c = true -> nonWhite c = true.
Proof. unfold plainChar. by intros [H _]%andb_prop. Qed.

Lemma plainChar_inv c :
  plainChar c = true ->
  isAsciiChar c = true /\ isWhite c = false /\ isLower c = false.
Proof.
  unfold plainChar. intros [[Ha Hw%negb_true_iff]%andb_prop Hl%negb_true_iff]%andb_prop.
  done.
Qed.

Lemma nonWhite_inv c :
  nonWhite c = true -> isAsciiChar c = true /\ isWhite c = false.
Proof. unfold nonWhite. by intros [Ha Hw%negb_true_iff]%andb_prop. Qed.

Lemma trimEnd_cons c r :
  trimEnd (String c r)
  = if bool_decide (trimStart (String c r) = "") then "" else String c (trimEnd r).
Proof. reflexivity. Qed.

Lemma trimStart_nonWhite_head c r :
  nonWhite c = true -> trimStart (String c r) = String c r.
Proof.
  intros [Ha Hw]%nonWhite_inv. by rewrite trimStart_ascii, Hw.
Qed.

Lemma trimStart_nonWhite s : allChars nonWhite s = true -> trimStart s = s.
Proof.
  destruct s as [|c r]; [done|]. cbn [allChars].
  intros [Hc _]%andb_prop. by apply trimStart_nonWhite_head.
Qed.

Lemma trimEnd_nonWhite s : allChars nonWhite s = true -> trimEnd s = s.
Proof.
  induction s as [|c r IH]; [done|]. cbn [allChars].
  intros [Hc Hr]%andb_prop. cbn [trimEnd].
  rewrite (trimStart_nonWhite_head c r Hc), bool_decide_eq_false_2 by done.
  by rewrite (IH Hr).
Qed.

Lemma trim_nonWhite s : allChars nonWhite s = true -> trim s = s.
Proof.
  intros H. unfold trim. by rewrite (trimStart_nonWhite _ H), (trimEnd_nonWhite _ H).
Qed.

Lemma toUpperCase_plain s : allChars plainChar s = true -> toUpperCase s = s.
Proof.
  induction s as [|c r IH]; [done|]. cbn [allChars].
  intros [(Ha & _ & Hl)%plainChar_inv Hr]%andb_prop.
  rewrite (toUpperCase_ascii c r Ha), (IH Hr). unfold upperChar. by rewrite Hl.
Qed.

Lemma normalize_plain s :
  allChars plainChar s = true -> toUpperCase (trim s) = s.
Proof.
  intros H. rewrite trim_nonWhite; [by apply toUpperCase_plain|].
  by apply (allChars_impl plainChar), H; apply plainChar_nonWhite.
Qed.

(** Upper-casing a byte below 128 neither makes nor removes white space,
    and stays below 128. *)
Lemma isWhite_upperChar c : isWhite (upperChar c) = isWhite c.
Proof. by destruct c as [[] [] [] [] [] [] [] []]. Qed.

Lemma isAsciiChar_upperChar c : isAsciiChar (upperChar c) = isAsciiChar c.
Proof. by destruct c as [[] [] [] [] [] [] [] []]. Qed.

(** *** Code points from U+0080 on *)

Lemma isCont_not_ascii c : isCont c = true -> isAsciiChar c = false.
Proof.
  unfold isCont, isAsciiChar. intros [H1%N.leb_le _]%andb_prop.
  apply N.ltb_ge. lia.
Qed.

Lemma decode2_cont c0 c1 cp : decode2 c0 c1 = Some cp -> isCont c1 = true.
Proof.
  unfold decode2. destruct (_ && isCont c1) eqn:H; [|done].
  by apply andb_prop in H as [_ H].
Qed.

Lemma decode3_cont c0 c1 c2 cp :
  decode3 c0 c1 c2 = Some cp -> isCont c1 = true /\ isCont c2 = true.
Proof.
  unfold decode3. destruct (_ && isCont c2) eqn:H; [|done].
  apply andb_prop in H as [H H2]. by apply andb_prop in H as [_ H1].
Qed.

Lemma decode4_cont c0 c1 c2 c3 cp :
  decode4 c0 c1 c2 c3 = Some cp ->
  isCont c1 = true /\ isCont c2 = true /\ isCont c3 = true.
Proof.
  unfold decode4. destruct (_ && isCont c3) eqn:H; [|done].
  apply andb_prop in H as [H H3]. apply andb_prop in H as [H H2].
  by apply andb_prop in H as [_ H1].
Qed.

Lemma decode2_of_cont c0 c1 : isCont c0 = true -> decode2 c0 c1 = None.
Proof.
  unfold isCont, decode2. intros [_ H%N.ltb_lt]%andb_prop.
  by rewrite (proj2 (N.leb_gt _ _)) by lia.
Qed.

Lemma decode3_of_cont c0 c1 c2 : isCont c0 = true -> decode3 c0 c1 c2 = None.
Proof.
  unfold isCont, decode3. intros [_ H%N.ltb_lt]%andb_prop.
  by rewrite (proj2 (N.leb_gt _ _)) by lia.
Qed.

(** [trim] does not start in the middle of a sequence. *)
Lemma trimStart_cont c r : isCont c = true -> trimStart (String c r) = String c r.
Proof.
  intros Hc. cbn [trimStart]. rewrite (isCont_not_ascii c Hc).
  destruct r as [|c1 r1]; [done|]. rewrite (decode2_of_cont c c1 Hc).
  destruct r1 as [|c2 r2]; [done|]. by rewrite (decode3_of_cont c c1 c2 Hc).
Qed.

(** How [toUpperCase] reads a string: a byte below 128, a sequence of
    two, three or four bytes, or a byte that starts no sequence. *)
Lemma toUpperCase_view s :
  s = ""
  \/ (exists c0 s1, s = String c0 s1 /\ isAsciiChar c0 = true
        /\ toUpperCase s = String (upperChar c0) (toUpperCase s1))
  \/ (exists c0 c1 s2 cp, s = String c0 (String c1 s2) /\ isAsciiChar c0 = false
        /\ decode2 c0 c1 = Some cp
        /\ toUpperCase s = encodePoints (upperPoint cp) +:+ toUpperCase s2)
  \/ (exists c0 c1 c2 s3 cp, s = String c0 (String c1 (String c2 s3))
        /\ isAsciiChar c0 = false /\ decode2 c0 c1 = None
        /\ decode3 c0 c1 c2 = Some cp
        /\ toUpperCase s = encodePoints (upperPoint cp) +:+ toUpperCase s3)
  \/ (exists c0 c1 c2 c3 s4 cp, s = String c0 (String c1 (String c2 (String c3 s4)))
        /\ isAsciiChar c0 = false /\ decode2 c0 c1 = None
        /\ decode3 c0 c1 c2 = None /\ decode4 c0 c1 c2 c3 = Some cp
        /\ toUpperCase s = encodePoints (upperPoint cp) +:+ toUpperCase s4)
  \/ (exists c0 s1, s = String c0 s1 /\ isAsciiChar c0 = false
        /\ toUpperCase s = String c0 (toUpperCase s1)).
Proof.
  destruct s as [|c0 s1]; [by left|]. right.
  destruct (isAsciiChar c0) eqn:Ha.
  { left. exists c0, s1. by rewrite toUpperCase_ascii. }
  right. cbn [toUpperCase]. rewrite Ha.
  destruct s1 as [|c1 s2]; [by (do 3 right; exists c0, "")|].
  destruct (decode2 c0 c1) as [cp|] eqn:H2; [by (left; exists c0, c1, s2, cp)|].
  right.
  destruct s2 as [|c2 s3]; [by (do 2 right; exists c0, (String c1 ""))|].
  destruct (decode3 c0 c1 c2) as [cp|] eqn:H3; [by (left; exists c0, c1, c2, s3, cp)|].
  right.
  destruct s3 as [|c3 s4];
    [by (right; exists c0, (String c1 (String c2 "")))|].
  destruct (decode4 c0 c1 c2 c3) as [cp|] eqn:H4;
    [by (left; exists c0, c1, c2, c3, s4, cp)|].
  by (right; exists c0, (String c1 (String c2 (String c3 s4)))).
Qed.

Lemma encodePoint_nonempty cp : exists c r, encodePoint cp = String c r.
Proof. unfold encodePoint. repeat case_match; by eexists _, _. Qed.

Lemma upperPoint_nonempty cp : upperPoint cp <> [].
Proof.
  unfold upperPoint.
  destruct (find _ caseSpecial) as [e|] eqn:Hf.
  - apply find_some in Hf as [Hin _].
    assert (Hall : forallb (fun e => negb (Nat.eqb (length (snd e)) 0)) caseSpecial = true)
      by (vm_compute; reflexivity).
    rewrite forallb_forall in Hall. specialize (Hall e Hin).
    by destruct (snd e).
  - destruct (find _ caseRanges) as [[[[lo hi] step] target]|]; done.
Qed.

Lemma upper_nonempty cp r :
  exists c r', encodePoints (upperPoint cp) +:+ r = String c r'.
Proof.
  destruct (upperPoint cp) as [|p l] eqn:Hp; [by apply upperPoint_nonempty in Hp|].
  cbn [encodePoints]. destruct (encodePoint_nonempty p) as (c & r' & ->).
  rewrite !append_cons. by eexists _, _.
Qed.

Lemma toUpperCase_empty s : toUpperCase s = "" -> s = "".
Proof.
  destruct (toUpperCase_view s)
    as [->|[(c0 & s1 & -> & _ & ->)|[(c0 & c1 & s2 & cp & -> & _ & _ & ->)
       |[(c0 & c1 & c2 & s3 & cp & -> & _ & _ & _ & ->)
       |[(c0 & c1 & c2 & c3 & s4 & cp & -> & _ & _ & _ & _ & ->)
       |(c0 & s1 & -> & _ & ->)]]]]]; try done.
  - by destruct (upper_nonempty cp (toUpperCase s2)) as (c & r' & ->).
  - by destruct (upper_nonempty cp (toUpperCase s3)) as (c & r' & ->).
  - by destruct (upper_nonempty cp (toUpperCase s4)) as (c & r' & ->).
Qed.

(** *** White space around a code *)

(** The upper case of a white space code point is not a plain byte. *)
Lemma white_upper_not_plain cp :
  isWhitePoint cp = true -> allChars plainChar (encodePoints (upperPoint cp)) = false.
Proof.
  unfold isWhitePoint. intros Hin%bool_decide_eq_true.
  assert (Hall : Forall (fun cp => allChars plainChar (encodePoints (upperPoint cp)) = false)
                        whiteSpacePoints)
    by (repeat constructor).
  rewrite Forall_forall in Hall. by apply Hall.
Qed.

Lemma trimStart_white cp x :
  cp ∈ whiteSpacePoints -> trimStart (encodePoint cp +:+ x) = trimStart x.
Proof.
  assert (Hall : Forall (fun cp => forall x, trimStart (encodePoint cp +:+ x) = trimStart x)
                        whiteSpacePoints)
    by (repeat constructor).
  rewrite Forall_forall in Hall. intros Hin. by apply Hall.
Qed.

Lemma append_assoc s t u : (s +:+ t) +:+ u = s +:+ (t +:+ u).
Proof. induction s as [|c r IH]; [done|]. by rewrite !append_cons, IH. Qed.

Lemma trimStart_whiteRun l x :
  whiteRun l -> trimStart (encodePoints l +:+ x) = trimStart x.
Proof.
  induction 1 as [|cp l Hcp _ IH]; [done|].
  cbn [encodePoints]. by rewrite append_assoc, trimStart_white.
Qed.

Lemma trimStart_blank l : whiteRun l -> trimStart (encodePoints l) = "".
Proof.
  intros H. by rewrite <- (append_empty_r (encodePoints l)), trimStart_whiteRun.
Qed.

(** A string whose upper case is plain bytes starts with no white space,
    whatever follows it ... *)
Lemma trimStart_upper_plain c0 s1 t :
  allChars plainChar (toUpperCase (String c0 s1)) = true ->
  trimStart (String c0 s1 +:+ t) = String c0 s1 +:+ t.
Proof.
  intros H.
  destruct (toUpperCase_view (String c0 s1))
    as [?|[(a0 & r1 & Hs & Ha & Hu)|[(a0 & a1 & r2 & cp & Hs & Ha & H2 & Hu)
       |[(a0 & a1 & a2 & r3 & cp & Hs & Ha & H2 & H3 & Hu)
       |[(a0 & a1 & a2 & a3 & r4 & cp & Hs & Ha & H2 & H3 & H4 & Hu)
       |(a0 & r1 & Hs & Ha & Hu)]]]]]; [done|..];
    rewrite Hu in H; rewrite Hs; rewrite ?append_cons.
  - cbn [allChars] in H. apply andb_prop in H as [(_ & Hw & _)%plainChar_inv _].
    rewrite isWhite_upperChar in Hw. by rewrite trimStart_ascii, Hw.
  - rewrite allChars_app in H. apply andb_prop in H as [H _].
    cbn [trimStart]. rewrite Ha, H2.
    destruct (isWhitePoint cp) eqn:Hw; [|done].
    by rewrite (white_upper_not_plain cp Hw) in H.
  - rewrite allChars_app in H. apply andb_prop in H as [H _].
    cbn [trimStart]. rewrite Ha, H2, H3.
    destruct (isWhitePoint cp) eqn:Hw; [|done].
    by rewrite (white_upper_not_plain cp Hw) in H.
  - cbn [trimStart]. by rewrite Ha, H2, H3.
  - cbn [allChars] in H. apply andb_prop in H as [(Ha' & _)%plainChar_inv _].
    congruence.
Qed.

(** ... and [trimEnd] cuts exactly the white space that follows it. *)
Lemma trimEnd_upper_plain b :
  trimStart b = "" ->
  forall n s, String.length s <= n ->
    allChars plainChar (toUpperCase s) = true -> trimEnd (s +:+ b) = s.
Proof.
  intros Hb. induction n as [|n IH]; intros s Hn H.
  { destruct s; [|simpl in Hn; lia]. rewrite append_nil.
    destruct b as [|c r]; [done|]. by rewrite trimEnd_cons, Hb. }
  destruct s as [|c0 s1].
  { rewrite append_nil. destruct b as [|c r]; [done|]. by rewrite trimEnd_cons, Hb. }
  pose proof (trimStart_upper_plain c0 s1 b H) as Hhead.
  assert (Hstep : forall c r, isCont c = true ->
                    trimEnd (String c r) = String c (trimEnd r)).
  { intros c r Hc. by rewrite trimEnd_cons, (trimStart_cont c r Hc). }
  destruct (toUpperCase_view (String c0 s1))
    as [?|[(a0 & r1 & Hs & Ha & Hu)|[(a0 & a1 & r2 & cp & Hs & Ha & H2 & Hu)
       |[(a0 & a1 & a2 & r3 & cp & Hs & Ha & H2 & H3 & Hu)
       |[(a0 & a1 & a2 & a3 & r4 & cp & Hs & Ha & H2 & H3 & H4 & Hu)
       |(a0 & r1 & Hs & Ha & Hu)]]]]]; [done|..];
    rewrite Hu in H; rewrite Hs in *; clear Hs; simpl in Hn.
  - cbn [allChars] in H. apply andb_prop in H as [_ H].
    rewrite append_cons in *. rewrite trimEnd_cons, Hhead.
    rewrite bool_decide_eq_false_2 by done. f_equal. apply IH; [lia|done].
  - rewrite allChars_app in H. apply andb_prop in H as [_ H].
    rewrite !append_cons in *. rewrite trimEnd_cons, Hhead.
    rewrite bool_decide_eq_false_2 by done. f_equal.
    rewrite (Hstep a1 _ (decode2_cont _ _ _ H2)). f_equal. apply IH; [lia|done].
  - rewrite allChars_app in H. apply andb_prop in H as [_ H].
    destruct (decode3_cont _ _ _ _ H3) as [Hc1 Hc2].
    rewrite !append_cons in *. rewrite trimEnd_cons, Hhead.
    rewrite bool_decide_eq_false_2 by done. f_equal.
    rewrite (Hstep a1 _ Hc1), (Hstep a2 _ Hc2). do 2 f_equal. apply IH; [lia|done].
  - rewrite allChars_app in H. apply andb_prop in H as [_ H].
    destruct (decode4_cont _ _ _ _ _ H4) as (Hc1 & Hc2 & Hc3).
    rewrite !append_cons in *. rewrite trimEnd_cons, Hhead.
    rewrite bool_decide_eq_false_2 by done. f_equal.
    rewrite (Hstep a1 _ Hc1), (Hstep a2 _ Hc2), (Hstep a3 _ Hc3).
    do 3 f_equal. apply IH; [lia|done].
  - cbn [allChars] in H. apply andb_prop in H as [(Ha' & _)%plainChar_inv _].
    congruence.
Qed.

Lemma trim_upper_plain s :
  allChars plainChar (toUpperCase s) = true -> trim s = s.
Proof.
  intros H. unfold trim.
  assert (Hstart : trimStart s = s).
  { destruct s as [|c0 s1]; [done|].
    pose proof (trimStart_upper_plain c0 s1 "" H) as Hh.
    by rewrite append_empty_r in Hh. }
  rewrite Hstart.
  pose proof (trimEnd_upper_plain "" eq_refl (String.length s) s (le_n _) H) as He.
  by rewrite append_empty_r in He.
Qed.

(** The letters of a plain string in any case upper-case to it. *)
Lemma sameUpToCase_upper s : forall t,
  sameUpToCase s t = true -> allChars plainChar t = true -> toUpperCase s = t.
Proof.
  induction s as [|c r IH]; intros [|d t']; cbn [sameUpToCase allChars]; try done.
  intros [Hc Hr]%andb_prop [(Ha & _ & Hl)%plainChar_inv Ht]%andb_prop.
  apply orb_prop in Hc as [->%bool_decide_eq_true|[Hu Hn%Nat.eqb_eq]%andb_prop].
  - rewrite (toUpperCase_ascii d r Ha), (IH t' Hr Ht). unfold upperChar.
    by rewrite Hl.
  - unfold isUpper in Hu. apply andb_prop in Hu as [Hlo%Nat.leb_le Hhi%Nat.leb_le].
    assert (Hac : isAsciiChar c = true).
    { unfold isAsciiChar. apply N.ltb_lt. unfold nat_of_ascii in *. lia. }
    rewrite (toUpperCase_ascii c r Hac), (IH t' Hr Ht). f_equal.
    unfold upperChar, isLower. rewrite Hn.
    rewrite (proj2 (Nat.leb_le _ _)), (proj2 (Nat.leb_le _ _)) by lia.
    cbn [andb]. replace (nat_of_ascii d + 32 - 32) with (nat_of_ascii d) by lia.
    apply ascii_nat_embedding.
Qed.

Lemma alphabet_plain ch : inAlphabet ch = true -> plainChar ch = true.
Proof.
  unfold inAlphabet. intros H%bool_decide_eq_true.
  revert ch H. apply Forall_forall. vm_compute.
  repeat constructor.
Qed.

(** The alphabet has no [0], [O], [1] or [I]. *)
Lemma alphabet_unambiguous ch :
  inAlphabet ch = true -> ch ∉ ["0"; "O"; "1"; "I"]%char.
Proof.
  intros H Hin. 
  assert (Hd : Forall (fun c => inAlphabet c = false) ["0"; "O"; "1"; "I"]%char)
    by (repeat constructor).
  rewrite Forall_forall in Hd. specialize (Hd _ Hin). congruence.
Qed.

Lemma isRoomCode_plain c : isRoomCode c = true -> allChars plainChar c = true.
Proof.
  unfold isRoomCode. intros H.
  repeat (match type of H with
          | match ?x with _ => _ end = true => destruct x; try discriminate
          end).
  apply andb_prop in H as [H Hd]. apply andb_prop in H as [H Hc].
  apply andb_prop in H as [Ha Hb].
  simpl. by rewrite !alphabet_plain.
Qed.

(** A room code is its own normal form, and is not empty. *)
Lemma isRoomCode_normal c : isRoomCode c = true -> toUpperCase (trim c) = c.
Proof. intros H. by apply normalize_plain, isRoomCode_plain. Qed.

Lemma truthyStr_Some s : s <> "" -> truthyStr (Some s) = true.
Proof. intros Hs. simpl. by apply negb_true_iff, bool_decide_eq_false. Qed.

(** A string that upper-cases to a room code has no white space to trim. *)
Lemma isRoomCode_upper_trimmed rc :
  isRoomCode (toUpperCase rc) = true -> trim rc = rc.
Proof. intros H%isRoomCode_plain. by apply trim_upper_plain. Qed.

(** A room code in any letter case, with white space around it,
    normalises to the room code. *)
Lemma normalize_padded pre post core code :
  whiteRun pre -> whiteRun post ->
  isRoomCode code = true -> sameUpToCase core code = true ->
  toUpperCase (trim (encodePoints pre +:+ core +:+ encodePoints post)) = code.
Proof.
  intros Hpre Hpost Hcode%isRoomCode_plain Hsame.
  pose proof (sameUpToCase_upper core code Hsame Hcode) as Hup.
  assert (Hplain : allChars plainChar (toUpperCase core) = true) by (by rewrite Hup).
  unfold trim. rewrite trimStart_whiteRun by done.
  destruct core as [|c0 s1];
    [by rewrite append_nil, (trimStart_blank post Hpost); subst code|].
  rewrite (trimStart_upper_plain c0 s1 _ Hplain).
  by rewrite (trimEnd_upper_plain _ (trimStart_blank post Hpost) _ _ (le_n _) Hplain).
Qed.

Lemma isRoomCode_truthy c : isRoomCode c = true -> truthyStr (Some c) = true.
Proof. by destruct c. Qed.

Lemma pickChar_alphabet r :
  exists ch, pickChar r = String ch EmptyString /\ inAlphabet ch = true.
Proof.
  unfold pickChar.
  assert (Hlt : r mod String.length chars < 32)
    by (apply Nat.mod_upper_bound; discriminate).
  destruct (r mod String.length chars) as [|i]; [by eexists|].
  do 31 (destruct i as [|i]; [by eexists|]).
  lia.
Qed.

Lemma genCode_shape rnd k :
  exists a b c d,
    genCode rnd k
    = "VALVE-" +:+ String a (String b (String c (String d EmptyString)))
    /\ Forall (fun ch => inAlphabet ch = true) [a; b; c; d].
Proof.
  unfold genCode. simpl.
  destruct (pickChar_alphabet (rnd k)) as (a & -> & Ha).
  destruct (pickChar_alphabet (rnd (S k))) as (b & -> & Hb).
  destruct (pickChar_alphabet (rnd (S (S k)))) as (c & -> & Hc).
  destruct (pickChar_alphabet (rnd (S (S (S k))))) as (d & -> & Hd).
  exists a, b, c, d. split; [done|]. by repeat constructor.
Qed.

Lemma genCode_isRoomCode rnd k : isRoomCode (genCode rnd k) = true.
Proof.
  destruct (genCode_shape rnd k) as (a & b & c & d & -> & H).
  inversion_clear H as [|? ? Ha H1]. inversion_clear H1 as [|? ? Hb H2].
  inversion_clear H2 as [|? ? Hc H3]. inversion_clear H3 as [|? ? Hd _].
  simpl. by rewrite Ha, Hb, Hc, Hd.
Qed.

(** ** [toString(36)] has fuel enough *)

Lemma natToString36_fuel fuel : forall n acc extra,
  (n < 36 ^ N.of_nat (S fuel))%N ->
  natToString36 (S fuel + extra) n acc = natToString36 (S fuel) n acc.
Proof.
  induction fuel as [|fuel IH]; intros n acc extra Hn.
  - change (36 ^ N.of_nat 1)%N with 36%N in Hn.
    cbn [natToString36 Nat.add]. by rewrite (N.div_small n 36 Hn).
  - cbn [natToString36 Nat.add]. destruct (n / 36 =? 0)%N; [done|].
    apply (IH (n / 36)%N). apply N.Div0.div_lt_upper_bound.
    rewrite <- N.pow_succ_r'. by rewrite <- Nat2N.inj_succ.
Qed.

(** The digits of [toString36] do not depend on the fuel it is given
    beyond the bit length of the number. *)
Lemma toString36_fuel_enough (n : N) extra :
  natToString36 (S (N.to_nat (N.log2 n)) + extra) n ""
  = natToString36 (S (N.to_nat (N.log2 n))) n "".
Proof.
  apply natToString36_fuel.
  rewrite Nat2N.inj_succ, N2Nat.id.
  destruct (N.eq_dec n 0%N) as [->|Hpos]; [done|].
  apply N.lt_le_trans with (2 ^ N.succ (N.log2 n))%N.
  - apply N.log2_spec. lia.
  - apply N.pow_le_mono_l. lia.
Qed.

(** The collision loop never runs out of fuel: any fuel that covers the
    remaining attempts gives the same result. *)
Lemma codeLoop_fuel rooms rnd f1 : forall f2 a,
  a < 20 -> 19 <= a + f1 -> 19 <= a + f2 ->
  codeLoop f1 rooms rnd a = codeLoop f2 rooms rnd a.
Proof.
  induction f1 as [|f1 IH]; intros f2 a Ha H1 H2.
  - assert (a = 19) as -> by lia. destruct f2 as [|f2]; [done|].
    simpl. by rewrite andb_false_r.
  - destruct f2 as [|f2].
    + assert (a = 19) as -> by lia. simpl. by rewrite andb_false_r.
    + cbn [codeLoop].
      destruct (bool_decide (is_Some (rooms !! genCode rnd (4 * a)))); [|done].
      destruct (S a <? 20)%nat eqn:Hlt; [|done]. simpl.
      apply Nat.ltb_lt in Hlt. apply IH; lia.
Qed.

(** The loop from [attempts = a]: it stops after [n] attempts in all, on
    the first candidate that is free or on the twentieth. *)
Lemma codeLoop_spec rooms rnd fuel : forall a,
  a < 20 -> 19 <= a + fuel ->
  exists n,
    codeLoop fuel rooms rnd a = (genCode rnd (4 * (n - 1)), n) /\
    a < n <= 20 /\
    (forall i, a <= i < n - 1 -> is_Some (rooms !! genCode rnd (4 * i))) /\
    (n < 20 -> rooms !! genCode rnd (4 * (n - 1)) = None).
Proof.
  induction fuel as [|fuel IH]; intros a Ha Hf.
  - assert (a = 19) as -> by lia. exists 20. simpl.
    repeat split; lia.
  - cbn [codeLoop].
    destruct (bool_decide (is_Some (rooms !! genCode rnd (4 * a)))) eqn:Hhas.
    + destruct (S a <? 20)%nat eqn:Hlt; simpl.
      * apply Nat.ltb_lt in Hlt.
        destruct (IH (S a) Hlt ltac:(lia)) as (n & Heq & Hn & Hall & Hfree).
        exists n. repeat split; try done; try lia.
        intros i Hi. destruct (decide (i = a)) as [->|Hne].
        -- by apply bool_decide_eq_true in Hhas.
        -- apply Hall. lia.
      * apply Nat.ltb_ge in Hlt. assert (a = 19) as -> by lia.
        exists 20. repeat split; lia.
    + simpl. exists (S a). replace (S a - 1) with a by lia.
      repeat split; try lia.
      intros _. apply bool_decide_eq_false in Hhas.
        by apply eq_None_not_Some.
Qed.

Lemma pickCode_isRoomCode rooms rnd : isRoomCode (pickCode rooms rnd) = true.
Proof.
  unfold pickCode.
  destruct (codeLoop_spec rooms rnd 20 0) as (n & -> & _); [lia..|].
  apply genCode_isRoomCode.
Qed.

(** ** What the handlers keep *)

Lemma isOpen_alter_fields socks (f : Conn -> Conn) h w :
  (forall c, readyState (f c) = readyState c) ->
  isOpen (alter f h socks) w = isOpen socks w.
Proof.
  intros Hf. destruct w as [k|]; [|done]. simpl.
  destruct (decide (h = k)) as [->|Hne].
  - rewrite lookup_alter_eq. destruct (socks !! k) as [c|]; simpl; [|done].
    by rewrite Hf.
  - by rewrite lookup_alter_ne.
Qed.

(** ** join_room on a stored code: the resulting state *)

Lemma join_room_found env ws pn rc s dbRoom :
  truthyStr (Some pn) = true -> rc <> "" ->
  db_rooms s !! toUpperCase (trim rc) = Some dbRoom ->
  let code := toUpperCase (trim rc) in
  let id := genId env in
  let s' := fst (handleMsg env ws (join_room (Some pn) (Some rc)) s) in
  db_rooms s' = alter (putDbPlayer id (mkDbPlayer (Some pn) emptyObject)) code (db_rooms s)
  /\ disk s' = db_rooms s'
  /\ liveRooms s'
     = alter (putLivePlayer id (mkLivePlayer (Some ws) (Some pn) emptyObject)) code
             (ensureLiveSeeded code dbRoom (liveRooms s))
  /\ sockets s'
     = alter (fun c => setPlayerId (Some id)
                         (bindConn (Some "player") (Some code) (Some pn) c))
             ws (sockets s)
  /\ snd (handleMsg env ws (join_room (Some pn) (Some rc)) s)
     = send s' (Some ws) (room_joined code (sessionName dbRoom) id) ++
       broadcastRoom s' code (players_update (playersSnapshot s' code)) None.
Proof.
  intros Hp Hr Hdb. unfold handleMsg. rewrite Hp.
  rewrite (truthyStr_Some rc) by done.
  cbn [negb orb default from_option id]. rewrite Hdb. unfold ensureLiveSeeded.
  destruct (liveRooms s !! toUpperCase (trim rc)); done.
Qed.

(** ** join_room on a code that is not stored *)

Lemma join_room_not_found_state env ws pn rc s :
  db_rooms s !! toUpperCase (trim rc) = None ->
  fst (handleMsg env ws (join_room pn (Some rc)) s) = s.
Proof.
  intros Hnone. unfold handleMsg.
  destruct (negb (truthyStr pn) || negb (truthyStr (Some rc))); [done|].
  cbn [default from_option id]. by rewrite Hnone.
Qed.

Lemma join_room_not_found_reply env ws pn rc s :
  truthyStr pn = true -> rc <> "" ->
  db_rooms s !! toUpperCase (trim rc) = None ->
  snd (handleMsg env ws (join_room pn (Some rc)) s)
  = send s (Some ws) (room_error roomNotFound).
Proof.
  intros Hp Hr Hnone. unfold handleMsg. rewrite Hp.
  rewrite (truthyStr_Some rc) by done.
  cbn [negb orb default from_option id]. by rewrite Hnone.
Qed.

Lemma ensureLiveSeeded_lookup code dbRoom live :
  exists lr, ensureLiveSeeded code dbRoom live !! code = Some lr
             /\ (forall lr0, live !! code = Some lr0 -> lr = lr0)
             /\ (live !! code = None ->
                 lr = mkLiveRoom None (restorePlayer <$> default ∅ (db_players dbRoom))).
Proof.
  unfold ensureLiveSeeded. destruct (live !! code) as [lr0|] eqn:Hl.
  - exists lr0. rewrite Hl. split; [done|]. split; [congruence|done].
  - eexists. rewrite lookup_insert_eq. split; [done|]. split; [done|done].
Qed.

Lemma ensureLiveSeeded_other code dbRoom live c :
  c <> code -> ensureLiveSeeded code dbRoom live !! c = live !! c.
Proof.
  intros Hne. unfold ensureLiveSeeded. destruct (live !! code); [done|].
  by rewrite lookup_insert_ne.
Qed.

Lemma isOpen_lookup socks ws :
  isOpen socks (Some ws) = true ->
  exists c, socks !! ws = Some c /\ readyState c = OPEN.
Proof.
  simpl. destruct (socks !! ws) as [c|]; [|done].
  intros H%bool_decide_eq_true. by exists c.
Qed.

(** reconnect on a code that is not stored after upper-casing. *)
Lemma reconnect_not_found env ws role name rc s :
  db_rooms s !! toUpperCase rc = None ->
  handleMsg env ws (reconnect role name (Some rc)) s = (s, []).
Proof.
  intros Hnone. unfold handleMsg. cbn [fmap option_fmap option_map].
  case_bool_decide; [done|]. by rewrite Hnone.
Qed.

(** reconnect on a stored code: the resulting state. *)
Lemma reconnect_found env ws role name rc s dbRoom :
  rc <> "" -> db_rooms s !! toUpperCase rc = Some dbRoom ->
  let code := toUpperCase rc in
  let id := genId env in
  let s' := fst (handleMsg env ws (reconnect role name (Some rc)) s) in
  db_rooms s' = db_rooms s
  /\ disk s' = disk s
  /\ liveRooms s'
     = (if bool_decide (role = Some "master")
        then alter (setMasterWs (Some ws)) code (ensureLiveEmpty code (liveRooms s))
        else alter (putLivePlayer id (mkLivePlayer (Some ws) name emptyObject)) code
                   (ensureLiveEmpty code (liveRooms s)))
  /\ sockets s'
     = (if bool_decide (role = Some "master")
        then alter (bindConn role (Some code) name) ws (sockets s)
        else alter (setPlayerId (Some id)) ws
                   (alter (bindConn role (Some code) name) ws (sockets s)))
  /\ snd (handleMsg env ws (reconnect role name (Some rc)) s)
     = (if bool_decide (role = Some "master")
        then send s' (Some ws) (room_created code (sessionName dbRoom) name) ++
             send s' (Some ws) (players_update (playersSnapshot s' code))
        else send s' (Some ws) (room_joined code (sessionName dbRoom) id) ++
             broadcastRoom s' code (players_update (playersSnapshot s' code)) None).
Proof.
  intros Hr Hdb. unfold handleMsg. cbn [fmap option_fmap option_map].
  rewrite bool_decide_eq_false_2 by (intros H%toUpperCase_empty; done).
  rewrite Hdb. unfold ensureLiveEmpty.
  destruct (liveRooms s !! toUpperCase rc); case_bool_decide; done.
Qed.

(** reconnect never writes the durable store or its file image. *)
Lemma reconnect_keeps_store env ws role name rc s :
  db_rooms (fst (handleMsg env ws (reconnect role name rc) s)) = db_rooms s
  /\ disk (fst (handleMsg env ws (reconnect role name rc) s)) = disk s.
Proof.
  destruct rc as [rc|]; [|done].
  destruct (decide (rc = "")) as [->|Hr]; [done|].
  destruct (db_rooms s !! toUpperCase rc) as [dbRoom|] eqn:Hdb.
  - by destruct (reconnect_found env ws role name rc s dbRoom Hr Hdb) as (? & ? & _).
  - by rewrite reconnect_not_found.
Qed.

(** ** ficha_data *)

Lemma ficha_data_active env ws fd s c code room :
  sockets s !! ws = Some c ->
  _role c = Some "player" -> _roomCode c = Some code -> code <> "" ->
  liveRooms s !! code = Some room ->
  let id := keyOfNullable (_playerId c) in
  handleMsg env ws (ficha_data fd) s
  = (mkState (alter (setDbFicha id fd) code (db_rooms s)) (disk s)
             (alter (setLiveFicha id fd) code (liveRooms s)) (sockets s),
     match masterWs room with
     | Some m => if isOpen (sockets s) (Some m)
                 then [(m, ficha_update (_playerId c) fd)] else []
     | None => []
     end).
Proof.
  intros Hc Hrole Hcode Hne Hlive. unfold handleMsg. rewrite Hc, Hrole, Hcode.
  rewrite bool_decide_eq_true_2 by done.
  rewrite (truthyStr_Some code) by done.
  cbn [negb orb default from_option id]. rewrite Hlive.
  cbn [setLive setDb sockets]. f_equal.
  destruct (masterWs room) as [m|]; [|done].
  destruct (isOpen (sockets s) (Some m)) eqn:Ho; [|done].
  unfold send. cbn [setDb setLive sockets]. by rewrite Ho.
Qed.

Lemma ficha_data_inactive env ws fd s c :
  sockets s !! ws = Some c ->
  _role c <> Some "player" \/ truthyStr (_roomCode c) = false ->
  handleMsg env ws (ficha_data fd) s = (s, []).
Proof.
  intros Hc Hor. unfold handleMsg. rewrite Hc.
  destruct Hor as [Hrole|Hcode].
  - by rewrite bool_decide_eq_false_2.
  - rewrite Hcode. by rewrite orb_true_r.
Qed.

Lemma ficha_data_room_not_live env ws fd s c :
  sockets s !! ws = Some c ->
  liveRooms s !! default "" (_roomCode c) = None ->
  handleMsg env ws (ficha_data fd) s = (s, []).
Proof.
  intros Hc Hl. unfold handleMsg. rewrite Hc, Hl. by destruct (_ || _).
Qed.

(** Without a durable record of the participant there is nothing the
    durable write changes. *)
Lemma setDbFicha_absent id v room :
  default ∅ (db_players room) !! id = None -> setDbFicha id v room = room.
Proof.
  destruct room as [mn sn ca [ps|]]; unfold setDbFicha; simpl; [|done].
  intros Hnone. by rewrite alter_id'.
Qed.

Lemma alter_setDbFicha_absent s code id v :
  durablePlayer s code id = None ->
  alter (setDbFicha id v) code (db_rooms s) = db_rooms s.
Proof.
  unfold durablePlayer. intros Hnone. apply alter_id. intros room Hroom.
  rewrite Hroom in Hnone. by apply setDbFicha_absent.
Qed.

Lemma run_app evs1 evs2 s :
  fst (run (evs1 ++ evs2) s) = fst (run evs2 (fst (run evs1 s))).
Proof.
  revert s. induction evs1 as [|ev evs1 IH]; intros s; [done|].
  simpl. destruct (step ev s) as [s1 out1]. specialize (IH s1).
  destruct (run (evs1 ++ evs2) s1), (run evs1 s1). simpl in *.
  rewrite IH. by destruct (run evs2 s0).
Qed.

(** A participant without durable record can send any number of payloads:
    the durable store, its file image and the sockets stay as they are. *)
Lemma run_fichaEvents_not_durable ws c code id fds : forall s,
  sockets s !! ws = Some c ->
  _role c = Some "player" -> _roomCode c = Some code -> code <> "" ->
  _playerId c = Some id ->
  durablePlayer s code id = None ->
  db_rooms (fst (run (fichaEvents ws fds) s)) = db_rooms s
  /\ disk (fst (run (fichaEvents ws fds) s)) = disk s
  /\ sockets (fst (run (fichaEvents ws fds) s)) = sockets s.
Proof.
  induction fds as [|[env fd] fds IH]; intros s Hc Hrole Hcode Hne Hid Hnd; [done|].
  cbn [fichaEvents map run fst snd]. fold (fichaEvents ws fds).
  assert (Hstep : exists s1 out1,
             step (EvMessage env ws (ficha_data fd)) s = (s1, out1)
             /\ db_rooms s1 = db_rooms s /\ disk s1 = disk s
             /\ sockets s1 = sockets s).
  { unfold step. destruct (isOpen (sockets s) (Some ws)); [|by eauto 6].
    destruct (liveRooms s !! code) as [room|] eqn:Hlive.
    - rewrite (ficha_data_active env ws fd s c code room) by done.
      do 2 eexists. split; [done|]. simpl. rewrite Hid. simpl.
      by rewrite alter_setDbFicha_absent.
    - rewrite (ficha_data_room_not_live env ws fd s c) by (by rewrite ?Hcode).
      by eauto 6. }
  destruct Hstep as (s1 & out1 & -> & Hd & Hk & Hs).
  destruct (IH s1) as (Hd' & Hk' & Hs').
  { by rewrite Hs. } { done. } { done. } { done. } { done. }
  { unfold durablePlayer in *. by rewrite Hd. }
  destruct (run (fichaEvents ws fds) s1) as [s2 out2]. simpl in *.
  by rewrite Hd', Hk', Hs'.
Qed.

Lemma ensureLiveEmpty_lookup code live :
  exists lr, ensureLiveEmpty code live !! code = Some lr
             /\ (forall lr0, live !! code = Some lr0 -> lr = lr0)
             /\ (live !! code = None -> lr = mkLiveRoom None ∅).
Proof.
  unfold ensureLiveEmpty. destruct (live !! code) as [lr0|] eqn:Hl.
  - exists lr0. rewrite Hl. split; [done|]. split; [congruence|done].
  - eexists. rewrite lookup_insert_eq. split; [done|]. split; [done|done].
Qed.

Lemma ensureLiveEmpty_other code live c :
  c <> code -> ensureLiveEmpty code live !! c = live !! c.
Proof.
  intros Hne. unfold ensureLiveEmpty. destruct (live !! code); [done|].
  by rewrite lookup_insert_ne.
Qed.

Lemma setLiveFicha_lookup id v room id' :
  players (setLiveFicha id v room) !! id'
  = if decide (id = id')
    then (fun p => mkLivePlayer (lp_ws p) (lp_name p) v) <$> players room !! id'
    else players room !! id'.
Proof.
  unfold setLiveFicha. simpl. rewrite lookup_alter. by case_decide; subst.
Qed.

Lemma setDbFicha_lookup id v room id' :
  default ∅ (db_players (setDbFicha id v room)) !! id'
  = if decide (id = id')
    then (fun p => mkDbPlayer (dp_name p) v) <$> default ∅ (db_players room) !! id'
    else default ∅ (db_players room) !! id'.
Proof.
  unfold setDbFicha. simpl. destruct (db_players room) as [ps|]; simpl.
  - rewrite lookup_alter. by case_decide; subst.
  - rewrite lookup_empty. by case_decide.
Qed.


(** ** Retention sweeper *)

Section Sweep.

(** One run of the sweeper works with one [cutoff]. *)
Variable cutoff : Z.

Lemma dropExpired_cons {A} (m : gmap string A) e es :
  dropExpired cutoff m (e :: es)
  = dropExpired cutoff (if expired cutoff e then delete e.1 m else m) es.
Proof. done. Qed.

Lemma foldl_sweepEntry es : forall rooms live changed,
  foldl (sweepEntry cutoff) (rooms, live, changed) es
  = (dropExpired cutoff rooms es, dropExpired cutoff live es,
     changed || existsb (expired cutoff) es).
Proof.
  induction es as [|[code room] es IH]; intros rooms live changed.
  - simpl. by rewrite orb_false_r.
  - cbn [foldl existsb]. replace (sweepEntry cutoff (rooms, live, changed) (code, room))
      with (if expired cutoff (code, room)
            then (delete code rooms, delete code live, true)
            else (rooms, live, changed)) by done.
    rewrite !dropExpired_cons.
    destruct (expired cutoff (code, room)); rewrite IH; simpl; [|done].
    by rewrite orb_true_r.
Qed.

Lemma dropExpired_lookup {A} es c : forall m : gmap string A,
  dropExpired cutoff m es !! c
  = if existsb (fun e => bool_decide (e.1 = c) && expired cutoff e) es
    then None else m !! c.
Proof.
  induction es as [|e es IH]; intros m; [done|].
  unfold dropExpired in *. cbn [foldl existsb]. rewrite IH.
  destruct (existsb _ es); [by rewrite orb_true_r|]. rewrite orb_false_r.
  destruct (expired cutoff e); [|by rewrite andb_false_r]. rewrite andb_true_r.
  case_bool_decide as Hc.
  - subst c. by rewrite lookup_delete_eq.
  - by rewrite lookup_delete_ne.
Qed.

(** Over the entries of the store itself, the test at a code is the test
    of the room stored there. *)
Lemma existsb_entries_of (rooms : gmap string DbRoom) c room :
  rooms !! c = Some room ->
  existsb (fun e => bool_decide (e.1 = c) && expired cutoff e) (map_to_list rooms)
  = (createdAt room <? cutoff)%Z.
Proof.
  intros Hc. destruct (createdAt room <? cutoff)%Z eqn:Hold.
  - apply existsb_exists. exists (c, room). split.
    + apply list_elem_of_In. by apply elem_of_map_to_list.
    + simpl. unfold expired. simpl. rewrite Hold. by rewrite bool_decide_eq_true_2.
  - apply not_true_iff_false. intros ([c' room'] & Hin & Htest)%existsb_exists.
    apply list_elem_of_In, elem_of_map_to_list in Hin.
    apply andb_prop in Htest as [Heq%bool_decide_eq_true Hexp].
    simpl in Heq. subst c'. unfold expired in Hexp. simpl in Hexp. congruence.
Qed.

Lemma existsb_expired_entries (rooms : gmap string DbRoom) c room :
  rooms !! c = Some room -> (createdAt room <? cutoff)%Z = true ->
  existsb (expired cutoff) (map_to_list rooms) = true.
Proof.
  intros Hc Hold. apply existsb_exists. exists (c, room). split; [|done].
  apply list_elem_of_In. by apply elem_of_map_to_list.
Qed.

End Sweep.

(** The sweeper, field by field. *)
Lemma retentionSweep_fields t s :
  let es := map_to_list (db_rooms s) in
  let cutoff := (t - ttl)%Z in
  db_rooms (retentionSweep t s) = dropExpired cutoff (db_rooms s) es
  /\ liveRooms (retentionSweep t s) = dropExpired cutoff (liveRooms s) es
  /\ sockets (retentionSweep t s) = sockets s
  /\ disk (retentionSweep t s)
     = if existsb (expired cutoff) es
       then dropExpired cutoff (db_rooms s) es else disk s.
Proof.
  unfold retentionSweep. rewrite foldl_sweepEntry. simpl.
  by destruct (existsb _ _).
Qed.


(** ** The stored codes are generated codes *)

(** A handler run adds at most a generated code to the store, and leaves
    the file image alone or overwrites it with the store. *)
Lemma handleMsg_store env ws msg s :
  (forall c, is_Some (db_rooms (fst (handleMsg env ws msg s)) !! c) ->
             is_Some (db_rooms s !! c) \/ isRoomCode c = true)
  /\ (disk (fst (handleMsg env ws msg s)) = disk s
      \/ disk (fst (handleMsg env ws msg s)) = db_rooms (fst (handleMsg env ws msg s))).
Proof.
  destruct msg as [mn sn|pn rc|role name rc|fd|pid| |ty].
  - unfold handleMsg. destruct (negb (truthyStr mn) || negb (truthyStr sn)).
    + split; [by left|by left].
    + cbn [fst db_rooms disk setSockets setLive saveDB setDb]. split; [|by right].
      intros c Hc. destruct (decide (pickCode (db_rooms s) (randomIndex env) = c))
        as [<-|Hne].
      * right. apply pickCode_isRoomCode.
      * left. by rewrite lookup_insert_ne in Hc.
  - destruct pn as [pn|]; [|split; by left].
    destruct rc as [rc|]; [|unfold handleMsg; rewrite orb_true_r; split; by left].
    destruct (truthyStr (Some pn)) eqn:Hp;
      [|unfold handleMsg; rewrite Hp; split; by left].
    destruct (decide (rc = "")) as [->|Hr];
      [unfold handleMsg; rewrite orb_true_r; split; by left|].
    destruct (db_rooms s !! toUpperCase (trim rc)) as [room|] eqn:Hdb.
    + destruct (join_room_found env ws pn rc s room Hp Hr Hdb) as (Hd & Hk & _).
      cbv zeta in *. split; [|by right].
      intros c Hc. left. rewrite Hd in Hc. by apply lookup_alter_is_Some in Hc.
    + rewrite (join_room_not_found_state env ws (Some pn) rc s Hdb).
      split; by left.
  - destruct (reconnect_keeps_store env ws role name rc s) as [-> ->].
    split; by left.
  - unfold handleMsg. destruct (sockets s !! ws) as [k|]; [|split; by left].
    destruct (_ || _); [split; by left|].
    destruct (liveRooms s !! _); [|split; by left].
    cbn [fst db_rooms disk setDb setLive]. split; [|by left].
    intros c Hc. left. by apply lookup_alter_is_Some in Hc.
  - unfold handleMsg. repeat case_match; subst; split; by left.
  - split; by left.
  - split; by left.
Qed.

Lemma handleDisconnect_store ws s :
  db_rooms (fst (handleDisconnect ws s)) = db_rooms s
  /\ disk (fst (handleDisconnect ws s)) = disk s.
Proof. unfold handleDisconnect. by repeat case_match. Qed.

Lemma step_codesWellFormed ev s :
  codesWellFormed s -> codesWellFormed (fst (step ev s)).
Proof.
  intros [Hdb Hdisk]. destruct ev as [ws|env ws msg|ws| |t| ]; unfold step.
  - by destruct (sockets s !! ws).
  - destruct (isOpen (sockets s) (Some ws)); [|done].
    destruct (handleMsg_store env ws msg s) as [Hadd Hfile].
    assert (Hnew : forall c, is_Some (db_rooms (fst (handleMsg env ws msg s)) !! c) ->
                             isRoomCode c = true).
    { intros c Hc. destruct (Hadd c Hc) as [Hold|Hfmt]; [by apply Hdb|done]. }
    split; [done|]. destruct Hfile as [->| ->]; done.
  - destruct (handleDisconnect_store ws
                (setSockets s (alter (setReadyState CLOSED) ws (sockets s))))
      as [Hd Hk].
    split; intros c; [rewrite Hd|rewrite Hk]; [apply Hdb|apply Hdisk].
  - split; apply Hdb.
  - destruct (retentionSweep_fields t s) as (Hd & _ & _ & Hk). cbv zeta in *.
    cbn [fst].
    assert (Hkept : forall c, is_Some (dropExpired (t - ttl) (db_rooms s)
                                         (map_to_list (db_rooms s)) !! c) ->
                              isRoomCode c = true).
    { intros c. rewrite dropExpired_lookup.
      destruct (existsb (fun e => bool_decide (e.1 = c) && expired (t - ttl) e) _);
        [intros Habs; by apply is_Some_None in Habs|apply Hdb]. }
    split; intros c; [rewrite Hd|rewrite Hk]; [apply Hkept|].
    destruct (existsb (expired (t - ttl)) _); [apply Hkept|apply Hdisk].
  - split; apply Hdisk.
Qed.

(** Started on a file of generated codes (the empty one, say), the process
    only ever stores generated codes. *)
Lemma run_codesWellFormed evs : forall s,
  codesWellFormed s -> codesWellFormed (fst (run evs s)).
Proof.
  induction evs as [|ev evs IH]; intros s Hs; [done|].
  simpl. pose proof (step_codesWellFormed ev s Hs) as H1.
  destruct (step ev s) as [s1 out1]. specialize (IH s1 H1).
  by destruct (run evs s1).
Qed.

Lemma boot_empty_codesWellFormed : codesWellFormed (boot ∅).
Proof. split; intros c [x Hx]; simpl in Hx; by rewrite lookup_empty in Hx. Qed.

(** ** A participant without durable record stays without one *)

Section Absent.

(** The participant looked at. *)
Variables (code id : string).

Local Abbreviation absent := (absentIn code id).

Lemma absent_durablePlayer s : absent (db_rooms s) <-> durablePlayer s code id = None.
Proof. unfold absentIn, durablePlayer. by destruct (db_rooms s !! code). Qed.

Lemma absent_filePlayer s : absent (disk s) <-> filePlayer s code id = None.
Proof. unfold absentIn, filePlayer. by destruct (disk s !! code). Qed.

Lemma absent_alter_setDbFicha rooms code' id' v :
  absent rooms -> absent (alter (setDbFicha id' v) code' rooms).
Proof.
  unfold absentIn. intros H. destruct (decide (code' = code)) as [->|Hne].
  - rewrite lookup_alter_eq. destruct (rooms !! code) as [r|]; [|done].
    cbn [fmap option_fmap option_map]. rewrite setDbFicha_lookup, H.
    by case_decide.
  - by rewrite lookup_alter_ne.
Qed.

Lemma absent_alter_putDbPlayer rooms code' id' p :
  id' <> id -> absent rooms -> absent (alter (putDbPlayer id' p) code' rooms).
Proof.
  unfold absentIn. intros Hid H. destruct (decide (code' = code)) as [->|Hne].
  - rewrite lookup_alter_eq. destruct (rooms !! code) as [r|]; [|done].
    cbn [fmap option_fmap option_map]. unfold putDbPlayer. simpl.
    by rewrite lookup_insert_ne.
  - by rewrite lookup_alter_ne.
Qed.

Lemma absent_insert_new rooms code' mn sn t :
  absent rooms -> absent (<[code' := mkDbRoom mn sn t (Some ∅)]> rooms).
Proof.
  unfold absentIn. intros H. destruct (decide (code' = code)) as [->|Hne].
  - by rewrite lookup_insert_eq.
  - by rewrite lookup_insert_ne.
Qed.

Lemma absent_dropExpired cutoff rooms es :
  absent rooms -> absent (dropExpired cutoff rooms es).
Proof.
  unfold absentIn. rewrite dropExpired_lookup.
  by destruct (existsb _ es).
Qed.

Lemma handleMsg_keeps_absent env ws msg s :
  notJoining id (EvMessage env ws msg) ->
  absent (db_rooms s) -> absent (disk s) ->
  absent (db_rooms (fst (handleMsg env ws msg s)))
  /\ absent (disk (fst (handleMsg env ws msg s))).
Proof.
  intros Hmsg Hdb Hdisk.
  destruct msg as [mn sn|pn rc|role name rc|fd|pid| |ty].
  - unfold handleMsg. destruct (negb (truthyStr mn) || negb (truthyStr sn)); [done|].
    cbn [fst db_rooms disk setSockets setLive saveDB setDb].
    split; by apply absent_insert_new.
  - simpl in Hmsg.
    destruct pn as [pn|]; [|done].
    destruct rc as [rc|]; [|by unfold handleMsg; rewrite orb_true_r].
    destruct (truthyStr (Some pn)) eqn:Hp; [|by unfold handleMsg; rewrite Hp].
    destruct (decide (rc = "")) as [->|Hr]; [by unfold handleMsg; rewrite orb_true_r|].
    destruct (db_rooms s !! toUpperCase (trim rc)) as [room|] eqn:Hroom.
    + destruct (join_room_found env ws pn rc s room Hp Hr Hroom) as (Hd & Hk & _).
      cbv zeta in *. rewrite Hk, Hd. split; by apply absent_alter_putDbPlayer.
    + by rewrite (join_room_not_found_state env ws (Some pn) rc s Hroom).
  - by destruct (reconnect_keeps_store env ws role name rc s) as [-> ->].
  - unfold handleMsg. destruct (sockets s !! ws) as [k|]; [|done].
    destruct (_ || _); [done|]. destruct (liveRooms s !! _); [|done].
    cbn [fst db_rooms disk setDb setLive]. split; [|done].
    by apply absent_alter_setDbFicha.
  - unfold handleMsg. by repeat case_match.
  - done.
  - done.
Qed.

Lemma step_keeps_absent ev s :
  notJoining id ev ->
  absent (db_rooms s) -> absent (disk s) ->
  absent (db_rooms (fst (step ev s))) /\ absent (disk (fst (step ev s))).
Proof.
  intros Hev Hdb Hdisk. destruct ev as [ws|env ws msg|ws| |t| ]; unfold step.
  - by destruct (sockets s !! ws).
  - destruct (isOpen (sockets s) (Some ws)); [|done].
    by apply handleMsg_keeps_absent.
  - by destruct (handleDisconnect_store ws
                   (setSockets s (alter (setReadyState CLOSED) ws (sockets s))))
      as [-> ->].
  - done.
  - destruct (retentionSweep_fields t s) as (Hd & _ & _ & Hk). cbv zeta in *.
    cbn [fst]. rewrite Hd, Hk. split; [by apply absent_dropExpired|].
    destruct (existsb (expired (t - ttl)) _); [by apply absent_dropExpired|done].
  - done.
Qed.

Lemma run_keeps_absent evs : forall s,
  Forall (notJoining id) evs ->
  absent (db_rooms s) -> absent (disk s) ->
  absent (db_rooms (fst (run evs s))) /\ absent (disk (fst (run evs s))).
Proof.
  induction evs as [|ev evs IH]; intros s Hall Hdb Hdisk; [done|].
  inversion_clear Hall as [|? ? Hev Hevs]. simpl.
  destruct (step_keeps_absent ev s Hev Hdb Hdisk) as [Hdb1 Hdisk1].
  destruct (step ev s) as [s1 out1]. specialize (IH s1 Hevs Hdb1 Hdisk1).
  by destruct (run evs s1).
Qed.

(** Whatever happens after, short of a join_room that generates the same
    id, the participant has no record in the store nor in its file. *)
Lemma run_never_durable evs s :
  Forall (notJoining id) evs ->
  durablePlayer s code id = None -> filePlayer s code id = None ->
  durablePlayer (fst (run evs s)) code id = None
  /\ filePlayer (fst (run evs s)) code id = None.
Proof.
  intros Hall Hdb%absent_durablePlayer Hdisk%absent_filePlayer.
  destruct (run_keeps_absent evs s Hall Hdb Hdisk) as [H1 H2].
  split; [by apply absent_durablePlayer|by apply absent_filePlayer].
Qed.

End Absent.

(** ** Identifier generator and create_room *)

(** C9. Every code of [genCode] is the prefix [VALVE-] followed by exactly
    four characters of the alphabet, which has none of [0], [O], [1], [I];
    the loop of create_room generates between 1 and 20 candidates, every
    rejected candidate was a stored code, a result reached before the
    twentieth attempt is not stored; the code that create_room takes is
    the first of the twenty candidates that is not stored, reached after
    as many attempts as its rank, and when all twenty candidates are
    stored the twentieth is taken all the same; create_room installs the
    new room under the code taken. *)
Theorem genCode_format_and_bounded_retry :
  (forall rnd k,
      exists a b c d,
        genCode rnd k
        = "VALVE-" +:+ String a (String b (String c (String d EmptyString)))
        /\ Forall (fun ch => inAlphabet ch = true
                             /\ ch ∉ ["0"; "O"; "1"; "I"]%char) [a; b; c; d])
  /\ (forall rooms rnd,
        exists n,
          codeLoop 20 rooms rnd 0 = (genCode rnd (4 * (n - 1)), n)
          /\ 1 <= n <= 20
          /\ (forall i, i < n - 1 -> is_Some (rooms !! genCode rnd (4 * i)))
          /\ (n < 20 -> rooms !! genCode rnd (4 * (n - 1)) = None))
  /\ (forall rooms rnd i,
        i < 20 ->
        (forall j, j < i -> is_Some (rooms !! genCode rnd (4 * j))) ->
        rooms !! genCode rnd (4 * i) = None ->
        codeLoop 20 rooms rnd 0 = (genCode rnd (4 * i), S i)
        /\ pickCode rooms rnd = genCode rnd (4 * i))
  /\ (forall rooms rnd,
        (forall i, i < 20 -> is_Some (rooms !! genCode rnd (4 * i))) ->
        pickCode rooms rnd = genCode rnd 76
        /\ is_Some (rooms !! pickCode rooms rnd))
  /\ (forall env ws mn sn s,
        truthyStr (Some mn) = true -> truthyStr (Some sn) = true ->
        db_rooms (fst (handleMsg env ws (create_room (Some mn) (Some sn)) s))
          !! pickCode (db_rooms s) (randomIndex env)
        = Some (mkDbRoom mn sn (now env) (Some ∅))).
Proof.
  split; [|split; [|split; [|split]]].
  - intros rnd k. destruct (genCode_shape rnd k) as (a & b & c & d & Heq & Hall).
    exists a, b, c, d. split; [done|].
    eapply Forall_impl; [exact Hall|]. intros ch Hch. split; [done|].
    by apply alphabet_unambiguous.
  - intros rooms rnd.
    destruct (codeLoop_spec rooms rnd 20 0) as (n & Heq & Hn & Hall & Hfree);
      [lia..|].
    exists n. repeat split; try done; try lia. intros i Hi. apply Hall. lia.
  - intros rooms rnd i Hi Htaken Hfree. unfold pickCode.
    destruct (codeLoop_spec rooms rnd 20 0) as (n & Heq & Hn & Hall & Hnone);
      [lia..|].
    assert (n = S i) as ->.
    { destruct (decide (n - 1 < i)) as [Hlt|Hge].
      - specialize (Hnone ltac:(lia)). specialize (Htaken (n - 1) Hlt).
        rewrite Hnone in Htaken. by destruct Htaken.
      - destruct (decide (i < n - 1)) as [Hlt|Hge']; [|lia].
        specialize (Hall i ltac:(lia)). rewrite Hfree in Hall. by destruct Hall. }
    rewrite Heq. by replace (S i - 1) with i by lia.
  - intros rooms rnd Hall. unfold pickCode.
    destruct (codeLoop_spec rooms rnd 20 0) as (n & Heq & Hn & _ & Hfree);
      [lia..|].
    rewrite Heq. simpl.
    destruct (decide (n = 20)) as [->|Hne].
    + split; [done|]. apply Hall. lia.
    + exfalso. specialize (Hfree ltac:(lia)).
      specialize (Hall (n - 1) ltac:(lia)). rewrite Hfree in Hall.
      by destruct Hall.
  - intros env ws mn sn s Hm Hs. unfold handleMsg. rewrite Hm, Hs. simpl.
    by rewrite lookup_insert_eq.
Qed.

(** C9, at a store that already holds [VALVE-AAAA]: when the first four
    draws spell [AAAA] and the next four [BBBB], the first candidate is
    rejected and the second taken, in two attempts; when every draw
    spells [VALVE-AAAA], all twenty candidates collide and the colliding
    code is the one taken. *)
Lemma genCode_format_and_bounded_retry_witness :
  (codeLoop 20 storedFile (fun k => if (k <? 4)%nat then 0 else 1) 0 = ("VALVE-BBBB", 2)
   /\ pickCode storedFile (fun k => if (k <? 4)%nat then 0 else 1) = "VALVE-BBBB")
  /\ (pickCode storedFile (fun _ => 0) = codeA
      /\ is_Some (storedFile !! pickCode storedFile (fun _ => 0))).
Proof.
  destruct genCode_format_and_bounded_retry as (_ & _ & Hfirst & Hlast & _).
  split.
  - apply (Hfirst storedFile (fun k => if (k <? 4)%nat then 0 else 1) 1); [lia | | reflexivity].
    intros j Hj. assert (j = 0) as -> by lia. exists storedRoom. reflexivity.
  - apply (Hlast storedFile (fun _ => 0)).
    intros i _. exists storedRoom. reflexivity.
Defined.

(** C8. A create_room message whose [masterName] or [sessionName] is absent
    or empty changes nothing (store, file image, live registry and every
    socket, so no role is bound) and sends nothing. *)
Theorem create_room_missing_field_ignored env ws mn sn s :
  mn = None \/ mn = Some "" \/ sn = None \/ sn = Some "" ->
  handleMsg env ws (create_room mn sn) s = (s, []).
Proof.
  intros [-> | [-> | [-> | ->]]]; unfold handleMsg; simpl; try done;
    by rewrite orb_true_r.
Qed.

Lemma create_room_missing_field_ignored_witness :
  handleMsg env0 1 (create_room (Some "Ana") None) afterRestart
  = (afterRestart, []).
Proof.
  apply (create_room_missing_field_ignored env0 1 (Some "Ana") None).
  right; right; left; reflexivity.
Defined.

(** ** join_room on an unknown code *)

(** C4 as worded fails on the code: a join_room message without player
    name is dropped by the guard on the required fields before the room
    is looked up, and its sender gets no [room_error]. *)
Lemma join_room_incomplete_gets_no_error :
  ~ join_unknown_as_specified env0 1 None "valve-zzzz" afterRestart.
Proof.
  intros H. destruct (H eq_refl eq_refl) as ((m & Hin) & _).
  vm_compute in Hin. by apply elem_of_nil in Hin.
Qed.

(** C4, amended. A join_room message whose normalised room code has no
    entry in the durable store leaves the whole state as it is and sends
    no [room_joined]; when the message carries a non-empty player name and
    room code and comes from an open socket, the one message sent is
    [room_error], to the sender. *)
Theorem join_room_unknown_code env ws pn rc s :
  db_rooms s !! toUpperCase (trim rc) = None ->
  fst (handleMsg env ws (join_room pn (Some rc)) s) = s
  /\ (forall h c sn id,
        (h, room_joined c sn id) ∉ snd (handleMsg env ws (join_room pn (Some rc)) s))
  /\ (truthyStr pn = true -> rc <> "" -> isOpen (sockets s) (Some ws) = true ->
      snd (handleMsg env ws (join_room pn (Some rc)) s)
      = [(ws, room_error roomNotFound)]).
Proof.
  intros Hnone. split; [by apply join_room_not_found_state|]. split.
  - intros h c sn pid. unfold handleMsg.
    destruct (negb (truthyStr pn) || negb (truthyStr (Some rc))).
    + apply not_elem_of_nil.
    + cbn [default from_option id snd]. rewrite Hnone. unfold send. cbn [snd].
      destruct (isOpen (sockets s) (Some ws)).
      * intros Hin%list_elem_of_singleton. congruence.
      * apply not_elem_of_nil.
  - intros Hp Hr Ho. rewrite join_room_not_found_reply by done.
    unfold send. by rewrite Ho.
Qed.

Lemma join_room_unknown_code_witness :
  db_rooms afterRestart !! toUpperCase (trim " valve-zzzz ") = None
  /\ snd (handleMsg env0 1 (join_room (Some "Bo") (Some " valve-zzzz ")) afterRestart)
     = [(1, room_error roomNotFound)].
Proof.
  split; [reflexivity|].
  apply (join_room_unknown_code env0 1 (Some "Bo") " valve-zzzz " afterRestart);
    [reflexivity | reflexivity | discriminate | reflexivity].
Defined.

(** ** Retention: the 48 hour rule *)

(** C7. One run of the sweeper at time [t]: a stored room whose age
    [t - createdAt] exceeds 48 hours is afterwards absent from the store,
    from its file image and from the live registry, and a join_room with
    its code (a complete message from an open socket) is answered by
    [room_error] and changes nothing; a stored room of 48 hours or less
    keeps its store entry and its live entry as they were. *)
Theorem retention_sweep_ttl t s c room :
  db_rooms s !! c = Some room ->
  ((t - createdAt room > 48 * 3600 * 1000)%Z ->
     db_rooms (retentionSweep t s) !! c = None
     /\ disk (retentionSweep t s) !! c = None
     /\ liveRooms (retentionSweep t s) !! c = None
     /\ forall env ws pn,
          truthyStr pn = true -> isRoomCode c = true ->
          isOpen (sockets (retentionSweep t s)) (Some ws) = true ->
          handleMsg env ws (join_room pn (Some c)) (retentionSweep t s)
          = (retentionSweep t s, [(ws, room_error roomNotFound)]))
  /\ ((t - createdAt room <= 48 * 3600 * 1000)%Z ->
        db_rooms (retentionSweep t s) !! c = Some room
        /\ liveRooms (retentionSweep t s) !! c = liveRooms s !! c).
Proof.
  intros Hc.
  destruct (retentionSweep_fields t s) as (Hdb & Hlive & Hsock & Hdisk).
  cbv zeta in *. split.
  - intros Hage.
    assert (Hold : (createdAt room <? t - ttl)%Z = true)
      by (apply Z.ltb_lt; unfold ttl; lia).
    assert (Hgone : db_rooms (retentionSweep t s) !! c = None).
    { rewrite Hdb, dropExpired_lookup, (existsb_entries_of _ _ _ _ Hc). by rewrite Hold. }
    split; [done|]. split.
    { rewrite Hdisk, (existsb_expired_entries _ _ _ _ Hc Hold).
      by rewrite <- Hdb. }
    split.
    { rewrite Hlive, dropExpired_lookup, (existsb_entries_of _ _ _ _ Hc). by rewrite Hold. }
    intros env ws pn Hp Hfmt Ho.
    pose proof (isRoomCode_normal _ Hfmt) as Hnorm.
    assert (Hne : c <> "") by (intros ->; discriminate).
    rewrite <- Hnorm in Hgone.
    pose proof (join_room_not_found_state env ws pn c _ Hgone) as Hst.
    pose proof (join_room_not_found_reply env ws pn c _ Hp Hne Hgone) as Hout.
    unfold send in Hout. rewrite Ho in Hout.
    destruct (handleMsg env ws (join_room pn (Some c)) (retentionSweep t s)).
    simpl in *. by subst.
  - intros Hage.
    assert (Hyoung : (createdAt room <? t - ttl)%Z = false)
      by (apply Z.ltb_ge; unfold ttl; lia).
    split.
    + rewrite Hdb, dropExpired_lookup, (existsb_entries_of _ _ _ _ Hc). by rewrite Hyoung.
    + rewrite Hlive, dropExpired_lookup, (existsb_entries_of _ _ _ _ Hc). by rewrite Hyoung.
Qed.

(** C7 on the stored room, swept 48 hours and one millisecond after its
    creation. *)
Lemma retention_sweep_ttl_witness :
  db_rooms afterRestart !! codeA = Some storedRoom
  /\ db_rooms (retentionSweep 1700172800001 afterRestart) !! codeA = None
  /\ liveRooms (retentionSweep 1700172800001 afterRestart) !! codeA = None
  /\ handleMsg env0 1 (join_room (Some "Bo") (Some codeA))
               (retentionSweep 1700172800001 afterRestart)
     = (retentionSweep 1700172800001 afterRestart, [(1, room_error roomNotFound)]).
Proof.
  assert (H : db_rooms afterRestart !! codeA = Some storedRoom) by reflexivity.
  split; [exact H|].
  destruct (retention_sweep_ttl 1700172800001 afterRestart codeA storedRoom H)
    as [Hold _].
  destruct (Hold ltac:(reflexivity)) as (Hdb & _ & Hlive & Hjoin).
  split; [exact Hdb|]. split; [exact Hlive|].
  apply Hjoin; reflexivity.
Defined.

(** ** Normalisation of the room code *)

(** C10. join_room looks the room up under [roomCode.trim().toUpperCase()]
    and works on that code from then on: when the supplied code [rc]
    normalises to a stored code, the sender is bound to the stored code,
    the new participant is entered under it in the live registry and in
    the durable store, no other room is touched, and [room_joined] names
    it.  The normal form of a generated code written in any letter case,
    with any white space before and after it, is that code.  reconnect
    looks the room up under [roomCode.toUpperCase()] only: a code that is
    not stored once upper-cased is ignored, whatever trimming would give,
    a stored one binds the socket to the upper-cased code, and in a store
    of generated codes every reconnect whose code has white space around
    it is ignored. *)
Theorem room_code_normalisation :
  (forall env ws pn rc s code room,
      truthyStr (Some pn) = true -> rc <> "" ->
      toUpperCase (trim rc) = code ->
      db_rooms s !! code = Some room ->
      isOpen (sockets s) (Some ws) = true ->
      let s' := fst (handleMsg env ws (join_room (Some pn) (Some rc)) s) in
      (exists c, sockets s' !! ws = Some c
                 /\ _roomCode c = Some code /\ _role c = Some "player"
                 /\ _playerId c = Some (genId env))
      /\ (exists lr, liveRooms s' !! code = Some lr
                     /\ players lr !! genId env
                        = Some (mkLivePlayer (Some ws) (Some pn) emptyObject))
      /\ db_rooms s' !! code
         = Some (putDbPlayer (genId env) (mkDbPlayer (Some pn) emptyObject) room)
      /\ (forall c', c' <> code ->
            db_rooms s' !! c' = db_rooms s !! c'
            /\ liveRooms s' !! c' = liveRooms s !! c')
      /\ (ws, room_joined code (sessionName room) (genId env))
           ∈ snd (handleMsg env ws (join_room (Some pn) (Some rc)) s))
  /\ (forall pre post core code,
        whiteRun pre -> whiteRun post ->
        isRoomCode code = true -> sameUpToCase core code = true ->
        toUpperCase (trim (encodePoints pre +:+ core +:+ encodePoints post)) = code)
  /\ (forall env ws role name rc s,
        db_rooms s !! toUpperCase rc = None ->
        handleMsg env ws (reconnect role name (Some rc)) s = (s, []))
  /\ (forall env ws role name rc s room,
        rc <> "" -> db_rooms s !! toUpperCase rc = Some room ->
        isOpen (sockets s) (Some ws) = true ->
        exists c,
          sockets (fst (handleMsg env ws (reconnect role name (Some rc)) s)) !! ws
          = Some c
          /\ _roomCode c = Some (toUpperCase rc))
  /\ (forall env ws role name rc s,
        codesWellFormed s -> trim rc <> rc ->
        handleMsg env ws (reconnect role name (Some rc)) s = (s, [])).
Proof.
  split; [|split; [|split; [|split]]].
  - intros env ws pn rc s code room Hp Hr Hcode Hdb Ho. subst code.
    destruct (join_room_found env ws pn rc s room Hp Hr Hdb)
      as (Hd & _ & Hl & Hs & Hout).
    cbv zeta in *. rewrite Hout.
    destruct (isOpen_lookup _ _ Ho) as (c0 & Hc0 & Hopen).
    split; [|split; [|split; [|split]]].
    + rewrite Hs, lookup_alter_eq, Hc0. simpl. by eexists.
    + destruct (ensureLiveSeeded_lookup (toUpperCase (trim rc)) room (liveRooms s))
        as (lr & Hlr & _).
      rewrite Hl, lookup_alter_eq, Hlr. simpl. eexists. split; [done|].
      simpl. by rewrite lookup_insert_eq.
    + by rewrite Hd, lookup_alter_eq, Hdb.
    + intros c' Hne. rewrite Hd, Hl, !lookup_alter_ne by done.
      by rewrite ensureLiveSeeded_other.
    + apply elem_of_app. left. unfold send.
      rewrite Hs, isOpen_alter_fields by done. rewrite Ho.
      by apply list_elem_of_singleton.
  - intros pre post core code. apply normalize_padded.
  - intros. by apply reconnect_not_found.
  - intros env ws role name rc s room Hr Hdb Ho.
    destruct (reconnect_found env ws role name rc s room Hr Hdb)
      as (_ & _ & _ & Hs & _).
    cbv zeta in Hs. rewrite Hs.
    destruct (isOpen_lookup _ _ Ho) as (c0 & Hc0 & _).
    case_bool_decide; rewrite ?lookup_alter_eq, Hc0; simpl; by eexists.
  - intros env ws role name rc s [Hwf _] Htrim. apply reconnect_not_found.
    apply eq_None_not_Some. intros Hstored. apply Htrim.
    by apply isRoomCode_upper_trimmed, Hwf.
Qed.

(** C10 at the stored room [VALVE-AAAA] and the supplied code
    [Valve-aaaa] with a no-break space and a space before it, a tab and an
    ideographic space after it: join_room joins the room; reconnect with
    [" valve-aaaa"] is ignored; and reconnect with [valve-ßß], whose upper
    case is [VALVE-SSSS], binds the socket to the room stored under that
    code. *)
Lemma room_code_normalisation_witness :
  (toUpperCase (trim (encodePoints [160; 32]%N +:+ "Valve-aaaa"
                        +:+ encodePoints [9; 12288]%N)) = codeA
   /\ db_rooms afterRestart !! codeA = Some storedRoom
   /\ (1, room_joined codeA "Campaign 1" (genId env0))
        ∈ snd (handleMsg env0 1
                 (join_room (Some "Bo")
                    (Some (encodePoints [160; 32]%N +:+ "Valve-aaaa"
                             +:+ encodePoints [9; 12288]%N)))
                 afterRestart))
  /\ (db_rooms afterRestart !! toUpperCase " valve-aaaa" = None
      /\ handleMsg env0 1 (reconnect (Some "player") (Some "Bo") (Some " valve-aaaa"))
                   afterRestart
         = (afterRestart, []))
  /\ (toUpperCase "valve-ßß" = "VALVE-SSSS"
      /\ exists c,
           sockets (fst (handleMsg env0 1
                           (reconnect (Some "master") (Some "Ana") (Some "valve-ßß"))
                           afterRestartS)) !! 1
           = Some c
           /\ _roomCode c = Some (toUpperCase "valve-ßß")).
Proof.
  destruct room_code_normalisation as (Hjoin & Hnorm & Hrec & Hbind & _).
  assert (Hcode : toUpperCase (trim (encodePoints [160; 32]%N +:+ "Valve-aaaa"
                                       +:+ encodePoints [9; 12288]%N)) = codeA).
  { apply (Hnorm [160; 32]%N [9; 12288]%N "Valve-aaaa" codeA);
      [repeat constructor; by apply (bool_decide_unpack _)
      |repeat constructor; by apply (bool_decide_unpack _)
      |reflexivity | reflexivity]. }
  split; [|split].
  - split; [exact Hcode|]. split; [reflexivity|].
    apply (Hjoin env0 1 "Bo" _ afterRestart codeA storedRoom);
      [reflexivity | discriminate | exact Hcode | reflexivity | reflexivity].
  - split; [reflexivity|].
    apply (Hrec env0 1 (Some "player") (Some "Bo") " valve-aaaa" afterRestart).
    reflexivity.
  - split; [reflexivity|].
    apply (Hbind env0 1 (Some "master") (Some "Ana") "valve-ßß" afterRestartS storedRoom);
      [discriminate | reflexivity | reflexivity].
Defined.

(** ** reconnect does not persist *)

(** C3. reconnect leaves the durable store and its file image exactly as
    they were, whatever the message; join_room on a stored code writes
    the new participant to the store and flushes it.  When reconnect as
    player creates a participant (its id has no record in the store nor
    in the file), the participant is entered in the live registry only;
    after any events that follow (payloads, flushes, sweeps, other
    clients), short of a join_room generating the same id, it still has no
    record in the store nor in the file, so that a restart starts without
    it; and after any series of ficha_data messages from its socket the
    durable store is what it was before the reconnect, which is what a
    flush and a restart then start from, with an empty live registry. *)
Theorem reconnect_player_not_persisted :
  (forall env ws role name rc s,
      db_rooms (fst (handleMsg env ws (reconnect role name rc) s)) = db_rooms s
      /\ disk (fst (handleMsg env ws (reconnect role name rc) s)) = disk s)
  /\ (forall env ws pn rc s room,
        truthyStr (Some pn) = true -> rc <> "" ->
        db_rooms s !! toUpperCase (trim rc) = Some room ->
        let s' := fst (handleMsg env ws (join_room (Some pn) (Some rc)) s) in
        durablePlayer s' (toUpperCase (trim rc)) (genId env)
        = Some (mkDbPlayer (Some pn) emptyObject)
        /\ disk s' = db_rooms s')
  /\ (forall env ws name rc s room evs,
        rc <> "" -> db_rooms s !! toUpperCase rc = Some room ->
        durablePlayer s (toUpperCase rc) (genId env) = None ->
        filePlayer s (toUpperCase rc) (genId env) = None ->
        Forall (notJoining (genId env)) evs ->
        let s1 := fst (handleMsg env ws (reconnect (Some "player") name (Some rc)) s) in
        let s2 := fst (run evs s1) in
        let s3 := fst (step EvRestart s2) in
        livePlayer s1 (toUpperCase rc) (genId env)
        = Some (mkLivePlayer (Some ws) name emptyObject)
        /\ durablePlayer s2 (toUpperCase rc) (genId env) = None
        /\ filePlayer s2 (toUpperCase rc) (genId env) = None
        /\ durablePlayer s3 (toUpperCase rc) (genId env) = None
        /\ livePlayer s3 (toUpperCase rc) (genId env) = None)
  /\ (forall env ws name rc s room fds,
        rc <> "" -> db_rooms s !! toUpperCase rc = Some room ->
        isOpen (sockets s) (Some ws) = true ->
        durablePlayer s (toUpperCase rc) (genId env) = None ->
        let s1 := fst (handleMsg env ws (reconnect (Some "player") name (Some rc)) s) in
        let s2 := fst (run (fichaEvents ws fds) s1) in
        let s3 := fst (run (fichaEvents ws fds ++ [EvFlush; EvRestart]) s1) in
        db_rooms s2 = db_rooms s
        /\ db_rooms s3 = db_rooms s
        /\ liveRooms s3 = ∅).
Proof.
  split; [|split; [|split]].
  - intros. apply reconnect_keeps_store.
  - intros env ws pn rc s room Hp Hr Hdb.
    destruct (join_room_found env ws pn rc s room Hp Hr Hdb) as (Hd & Hk & _).
    cbv zeta in *. split; [|done].
    unfold durablePlayer. rewrite Hd, lookup_alter_eq, Hdb. simpl.
    by rewrite lookup_insert_eq.
  - intros env ws name rc s room evs Hr Hdb Hnd Hnf Hevs.
    destruct (reconnect_found env ws (Some "player") name rc s room Hr Hdb)
      as (Hd & Hk & Hl & _).
    cbv zeta in *. rewrite bool_decide_eq_false_2 in Hl by done.
    set (s1 := fst (handleMsg env ws (reconnect (Some "player") name (Some rc)) s))
      in *.
    assert (Hnd1 : durablePlayer s1 (toUpperCase rc) (genId env) = None).
    { unfold durablePlayer in *. by rewrite Hd. }
    assert (Hnf1 : filePlayer s1 (toUpperCase rc) (genId env) = None).
    { unfold filePlayer in *. by rewrite Hk. }
    destruct (run_never_durable _ _ evs s1 Hevs Hnd1 Hnf1) as [Hnd2 Hnf2].
    split; [|split; [done|split; [done|split]]].
    + unfold livePlayer. rewrite Hl, lookup_alter_eq.
      destruct (ensureLiveEmpty_lookup (toUpperCase rc) (liveRooms s)) as (lr & -> & _).
      simpl. by rewrite lookup_insert_eq.
    + exact Hnf2.
    + done.
  - intros env ws name rc s room fds Hr Hdb Ho Hnd.
    destruct (reconnect_found env ws (Some "player") name rc s room Hr Hdb)
      as (Hd & Hk & Hl & Hs & _).
    cbv zeta in *. rewrite bool_decide_eq_false_2 in Hl, Hs by done.
    destruct (isOpen_lookup _ _ Ho) as (c0 & Hc0 & _).
    set (s1 := fst (handleMsg env ws (reconnect (Some "player") name (Some rc)) s))
      in *.
    assert (Hup : toUpperCase rc <> "") by (intros H%toUpperCase_empty; done).
    assert (Hc1 : sockets s1 !! ws
                  = Some (setPlayerId (Some (genId env))
                            (bindConn (Some "player") (Some (toUpperCase rc)) name c0))).
    { by rewrite Hs, !lookup_alter_eq, Hc0. }
    assert (Hnd1 : durablePlayer s1 (toUpperCase rc) (genId env) = None).
    { unfold durablePlayer in *. by rewrite Hd. }
    destruct (run_fichaEvents_not_durable ws _ (toUpperCase rc) (genId env) fds s1
                Hc1 eq_refl eq_refl Hup eq_refl Hnd1) as (Hd2 & Hk2 & _).
    split; [|split].
    + by rewrite Hd2.
    + rewrite run_app. simpl. by rewrite Hd2.
    + by rewrite run_app.
Qed.

(** C3 on the restarted process: the client reconnects as player to the
    stored room and sends a payload; the live registry has the payload,
    and the store after a flush and a restart is the stored file. *)
Lemma reconnect_player_not_persisted_witness :
  durablePlayer afterRestart codeA (genId env0) = None
  /\ livePlayer
       (fst (run (fichaEvents 1 [(env0, JNum 7)])
               (fst (handleMsg env0 1
                       (reconnect (Some "player") (Some "Cy") (Some "valve-aaaa"))
                       afterRestart))))
       codeA (genId env0)
     = Some (mkLivePlayer (Some 1) (Some "Cy") (JNum 7))
  /\ durablePlayer
       (fst (step EvRestart
               (fst (run (fichaEvents 1 [(env0, JNum 7)] ++ [EvFlush])
                       (fst (handleMsg env0 1
                               (reconnect (Some "player") (Some "Cy") (Some "valve-aaaa"))
                               afterRestart))))))
       codeA (genId env0)
     = None
  /\ db_rooms
       (fst (run (fichaEvents 1 [(env0, JNum 7)] ++ [EvFlush; EvRestart])
               (fst (handleMsg env0 1
                       (reconnect (Some "player") (Some "Cy") (Some "valve-aaaa"))
                       afterRestart))))
     = db_rooms afterRestart.
Proof.
  split; [reflexivity|]. split; [reflexivity|].
  destruct reconnect_player_not_persisted as (_ & _ & Hany & Hficha).
  split.
  - destruct (Hany env0 1 (Some "Cy") "valve-aaaa" afterRestart storedRoom
                (fichaEvents 1 [(env0, JNum 7)] ++ [EvFlush]))
      as (_ & _ & _ & Hgone & _);
      [discriminate | reflexivity | reflexivity | reflexivity
       | repeat constructor | exact Hgone].
  - apply (Hficha env0 1 (Some "Cy") "valve-aaaa" afterRestart storedRoom
             [(env0, JNum 7)]);
      [discriminate | reflexivity | reflexivity | reflexivity].
Defined.

(** ** Materialising a live entry *)

(** join_room, when it creates the live entry, restores every durable
    participant into it: each one is in the live registry and in the
    snapshot afterwards. *)
Lemma join_room_materialises_superset env ws pn rc s room id p :
  truthyStr (Some pn) = true -> rc <> "" ->
  db_rooms s !! toUpperCase (trim rc) = Some room ->
  liveRooms s !! toUpperCase (trim rc) = None ->
  durablePlayer s (toUpperCase (trim rc)) id = Some p ->
  let s' := fst (handleMsg env ws (join_room (Some pn) (Some rc)) s) in
  is_Some (livePlayer s' (toUpperCase (trim rc)) id)
  /\ is_Some (playersSnapshot s' (toUpperCase (trim rc)) !! id).
Proof.
  intros Hp Hr Hdb Hlive Hdur.
  destruct (join_room_found env ws pn rc s room Hp Hr Hdb) as (_ & _ & Hl & _).
  cbv zeta in *.
  assert (Hin : is_Some (livePlayer
                  (fst (handleMsg env ws (join_room (Some pn) (Some rc)) s))
                  (toUpperCase (trim rc)) id)).
  { unfold livePlayer. rewrite Hl, lookup_alter_eq.
    unfold ensureLiveSeeded. rewrite Hlive, lookup_insert_eq. simpl.
    destruct (decide (genId env = id)) as [->|Hne].
    - rewrite lookup_insert_eq. by eexists.
    - rewrite lookup_insert_ne by done. rewrite lookup_fmap.
      unfold durablePlayer in Hdur. rewrite Hdb in Hdur. rewrite Hdur.
      by eexists. }
  split; [done|].
  unfold playersSnapshot. unfold livePlayer in Hin.
  destruct (liveRooms (fst (handleMsg env ws (join_room (Some pn) (Some rc)) s))
              !! toUpperCase (trim rc)) as [lr|].
  - rewrite map_lookup_imap. destruct Hin as [q ->]. by eexists.
  - destruct Hin as [q Hq]. discriminate.
Qed.

(** C1 (what the code does). reconnect on a stored room without live entry
    creates the entry without restoring the durable participants: as
    master the entry has no participant at all, otherwise it has the one
    just created; no other id is in the live registry or in the presence
    snapshot, whatever the durable store holds, and the [players_update]
    sent to a reconnecting master is empty. *)
Theorem reconnect_materialises_without_participants env ws role name rc s room :
  rc <> "" ->
  db_rooms s !! toUpperCase rc = Some room ->
  liveRooms s !! toUpperCase rc = None ->
  let code := toUpperCase rc in
  let s' := fst (handleMsg env ws (reconnect role name (Some rc)) s) in
  liveRooms s' !! code
  = Some (if bool_decide (role = Some "master")
          then mkLiveRoom (Some ws) ∅
          else mkLiveRoom None
                 {[ genId env := mkLivePlayer (Some ws) name emptyObject ]})
  /\ (forall id, role = Some "master" \/ id <> genId env ->
         livePlayer s' code id = None /\ playersSnapshot s' code !! id = None)
  /\ (role = Some "master" -> isOpen (sockets s) (Some ws) = true ->
      snd (handleMsg env ws (reconnect role name (Some rc)) s)
      = [(ws, room_created code (sessionName room) name);
         (ws, players_update ∅)]).
Proof.
  intros Hr Hdb Hlive.
  destruct (reconnect_found env ws role name rc s room Hr Hdb)
    as (_ & _ & Hl & Hs & Hout).
  cbv zeta in *.
  set (s' := fst (handleMsg env ws (reconnect role name (Some rc)) s)) in *.
  assert (Hentry : liveRooms s' !! toUpperCase rc
                   = Some (if bool_decide (role = Some "master")
                           then mkLiveRoom (Some ws) ∅
                           else mkLiveRoom None
                                  {[ genId env := mkLivePlayer (Some ws) name emptyObject ]})).
  { rewrite Hl. unfold ensureLiveEmpty. rewrite Hlive.
    case_bool_decide; by rewrite lookup_alter_eq, lookup_insert_eq. }
  split; [done|]. split.
  - intros id Hid.
    assert (Hnone : livePlayer s' (toUpperCase rc) id = None).
    { unfold livePlayer. rewrite Hentry. case_bool_decide as Hm; simpl.
      - apply lookup_empty.
      - destruct Hid as [Hmaster|Hne]; [done|]. by apply lookup_singleton_ne. }
    split; [done|]. unfold playersSnapshot. unfold livePlayer in Hnone.
    destruct (liveRooms s' !! toUpperCase rc) as [lr|]; [|apply lookup_empty].
    by rewrite map_lookup_imap, Hnone.
  - intros Hmaster Ho. rewrite bool_decide_eq_true_2 in Hout, Hs, Hentry by done.
    rewrite Hout. unfold playersSnapshot. rewrite Hentry. cbn [players].
    rewrite map_imap_empty. unfold send.
    rewrite Hs, isOpen_alter_fields by done. by rewrite Ho.
Qed.

(** C1 at the failing input: the restarted process holds participant [p1]
    of [VALVE-AAAA] in its store; the master reconnects and is sent an
    empty presence snapshot. *)
Lemma reconnect_materialises_without_participants_witness :
  durablePlayer afterRestart codeA "p1" = Some storedBo
  /\ livePlayer
       (fst (handleMsg env0 1 (reconnect (Some "master") (Some "Ana") (Some codeA))
               afterRestart))
       codeA "p1" = None
  /\ playersSnapshot
       (fst (handleMsg env0 1 (reconnect (Some "master") (Some "Ana") (Some codeA))
               afterRestart))
       codeA !! "p1" = None
  /\ snd (handleMsg env0 1 (reconnect (Some "master") (Some "Ana") (Some codeA))
            afterRestart)
     = [(1, room_created codeA "Campaign 1" (Some "Ana")); (1, players_update ∅)].
Proof.
  split; [reflexivity|].
  destruct (reconnect_materialises_without_participants
              env0 1 (Some "master") (Some "Ana") codeA afterRestart storedRoom)
    as (_ & Hnone & Hout); [discriminate | reflexivity | reflexivity |].
  destruct (Hnone "p1" (or_introl eq_refl)) as [Hlive Hsnap].
  split; [exact Hlive|]. split; [exact Hsnap|].
  apply Hout; reflexivity.
Defined.

(** ** ficha_data *)

(** ficha_data in full.  For a ficha_data message from a socket whose role
    is player and that is bound to a live room: where the sender has a
    live record its payload becomes the message's [fichaData], and where
    it has a durable record likewise (name and socket are kept); no other
    participant, the file image and the sockets change; and [ficha_update]
    with the sender's id and the payload is sent to the room's master
    socket when that socket is set and open, nothing else being sent.
    From a socket that is not an active player the message changes and
    sends nothing. *)
Lemma ficha_data_write_through :
  (forall env ws fd s c code room,
      sockets s !! ws = Some c ->
      _role c = Some "player" -> _roomCode c = Some code -> code <> "" ->
      liveRooms s !! code = Some room ->
      let id := keyOfNullable (_playerId c) in
      let s' := fst (handleMsg env ws (ficha_data fd) s) in
      livePlayer s' code id
      = (fun p => mkLivePlayer (lp_ws p) (lp_name p) fd) <$> livePlayer s code id
      /\ durablePlayer s' code id
         = (fun p => mkDbPlayer (dp_name p) fd) <$> durablePlayer s code id
      /\ (forall code' id', (code', id') <> (code, id) ->
            livePlayer s' code' id' = livePlayer s code' id'
            /\ durablePlayer s' code' id' = durablePlayer s code' id')
      /\ disk s' = disk s /\ sockets s' = sockets s
      /\ snd (handleMsg env ws (ficha_data fd) s)
         = match masterWs room with
           | Some m => if isOpen (sockets s) (Some m)
                       then [(m, ficha_update (_playerId c) fd)] else []
           | None => []
           end)
  /\ (forall env ws fd s c,
        sockets s !! ws = Some c ->
        _role c <> Some "player" \/ _roomCode c = None \/ _roomCode c = Some "" ->
        handleMsg env ws (ficha_data fd) s = (s, [])).
Proof.
  split.
  - intros env ws fd s c code room Hc Hrole Hcode Hne Hlive.
    rewrite (ficha_data_active env ws fd s c code room) by done.
    cbv zeta. cbn [fst snd]. unfold livePlayer, durablePlayer.
    cbn [liveRooms db_rooms disk sockets].
    split; [|split; [|split]].
    + rewrite lookup_alter_eq, Hlive. cbn [fmap option_fmap option_map].
      rewrite setLiveFicha_lookup. by rewrite decide_True.
    + rewrite lookup_alter_eq. destruct (db_rooms s !! code) as [r|]; cbn [fmap option_fmap option_map]; [|done].
      rewrite setDbFicha_lookup. by rewrite decide_True.
    + intros code' id' Hne'. destruct (decide (code = code')) as [<-|Hc'].
      * assert (Hid : keyOfNullable (_playerId c) <> id') by congruence.
        rewrite !lookup_alter_eq, Hlive. cbn [fmap option_fmap option_map]. split.
        -- rewrite setLiveFicha_lookup. by rewrite decide_False.
        -- destruct (db_rooms s !! code) as [r|]; cbn [fmap option_fmap option_map]; [|done].
           rewrite setDbFicha_lookup. by rewrite decide_False.
      * by rewrite !lookup_alter_ne.
    + done.
  - intros env ws fd s c Hc Hor. apply (ficha_data_inactive env ws fd s c Hc).
    destruct Hor as [Hr|[Hn|He]]; [by left|right..].
    + by rewrite Hn.
    + by rewrite He.
Qed.

(** The write-through as the specification words it fails for the
    participant that the reconnect of [afterReconnect] created. *)
Lemma ficha_data_not_written_to_store :
  ~ ficha_data_as_specified env1 1 (JNum 7) afterReconnect.
Proof.
  intros H.
  destruct (H (mkConn OPEN true (Some "player") (Some codeA) (Some "Cy")
                 (Some (genId env0)))
              codeA
              (mkLiveRoom None
                 {[ genId env0 := mkLivePlayer (Some 1) (Some "Cy") emptyObject ]}))
    as (_ & Hd & _); [reflexivity..|].
  vm_compute in Hd. discriminate.
Qed.

(** C2 (what the code does). reconnect as player enters the new
    participant in the live registry only (it has no persisting step,
    where join_room has one), and the write of ficha_data to the durable
    store is guarded by the existence of the record: after a reconnect as
    player into a stored room whose store has no record under the new id,
    a ficha_data from that socket puts the payload in the live record and
    nowhere else.  The durable store has no record, hence no payload, for
    the sender, every durable record is as before the reconnect, and the
    file is unchanged. *)
Theorem ficha_data_after_reconnect_not_stored e1 e2 ws name rc fd s room c0 :
  rc <> "" ->
  db_rooms s !! toUpperCase rc = Some room ->
  sockets s !! ws = Some c0 ->
  durablePlayer s (toUpperCase rc) (genId e1) = None ->
  let code := toUpperCase rc in
  let s1 := fst (handleMsg e1 ws (reconnect (Some "player") name (Some rc)) s) in
  let s2 := fst (handleMsg e2 ws (ficha_data fd) s1) in
  livePlayer s2 code (genId e1) = Some (mkLivePlayer (Some ws) name fd)
  /\ durablePlayer s2 code (genId e1) = None
  /\ (forall code' id', durablePlayer s2 code' id' = durablePlayer s code' id')
  /\ disk s2 = disk s.
Proof.
  intros Hr Hdb Hc0 Habs. cbv zeta.
  destruct (reconnect_found e1 ws (Some "player") name rc s room Hr Hdb)
    as (Hd1 & Hk1 & Hl1 & Hs1 & _).
  cbv zeta in *. rewrite bool_decide_eq_false_2 in Hl1, Hs1 by done.
  set (s1 := fst (handleMsg e1 ws (reconnect (Some "player") name (Some rc)) s)) in *.
  assert (Hne : toUpperCase rc <> "") by (intros H%toUpperCase_empty; done).
  assert (Hsock : sockets s1 !! ws
                  = Some (setPlayerId (Some (genId e1))
                            (bindConn (Some "player") (Some (toUpperCase rc)) name c0))).
  { by rewrite Hs1, !lookup_alter_eq, Hc0. }
  destruct (ensureLiveEmpty_lookup (toUpperCase rc) (liveRooms s)) as (lr & Hlr & _).
  assert (Hlive : liveRooms s1 !! toUpperCase rc
                  = Some (putLivePlayer (genId e1)
                            (mkLivePlayer (Some ws) name emptyObject) lr)).
  { by rewrite Hl1, lookup_alter_eq, Hlr. }
  assert (Hdur : forall code' id', durablePlayer s1 code' id' = durablePlayer s code' id').
  { intros code' id'. unfold durablePlayer. by rewrite Hd1. }
  destruct ficha_data_write_through as [Hactive _].
  destruct (Hactive e2 ws fd s1 _ (toUpperCase rc) _ Hsock eq_refl eq_refl Hne Hlive)
    as (Hl2 & Hd2 & Hoth & Hk2 & _).
  cbv zeta in *. cbn [keyOfNullable _playerId setPlayerId default from_option id] in *.
  assert (Hnone : durablePlayer
                    (fst (handleMsg e2 ws (ficha_data fd) s1)) (toUpperCase rc) (genId e1)
                  = None).
  { by rewrite Hd2, Hdur, Habs. }
  split; [|split; [done|split]].
  - rewrite Hl2. unfold livePlayer. rewrite Hlive. cbn [players putLivePlayer].
    by rewrite lookup_insert_eq.
  - intros code' id'.
    destruct (decide ((code', id') = (toUpperCase rc, genId e1))) as [[= -> ->]|Hneq].
    + by rewrite Hnone, Habs.
    + destruct (Hoth code' id' Hneq) as [_ ->]. apply Hdur.
  - by rewrite Hk2.
Qed.

(** C2 at the failing input: in the restarted process the client of
    socket 1 reconnects as player Cy to [VALVE-AAAA] and sends the payload
    [{hp: 10}]; the live record holds it, the durable store has no record
    of that participant. *)
Lemma ficha_data_after_reconnect_not_stored_witness :
  livePlayer
    (fst (handleMsg env1 1 (ficha_data (JObj [("hp", JNum 10)]))
            (fst (handleMsg env0 1
                    (reconnect (Some "player") (Some "Cy") (Some codeA)) afterRestart))))
    codeA (genId env0)
  = Some (mkLivePlayer (Some 1) (Some "Cy") (JObj [("hp", JNum 10)]))
  /\ durablePlayer
       (fst (handleMsg env1 1 (ficha_data (JObj [("hp", JNum 10)]))
               (fst (handleMsg env0 1
                       (reconnect (Some "player") (Some "Cy") (Some codeA)) afterRestart))))
       codeA (genId env0)
     = None.
Proof.
  destruct (ficha_data_after_reconnect_not_stored env0 env1 1 (Some "Cy") codeA
              (JObj [("hp", JNum 10)]) afterRestart storedRoom newConn)
    as (Hl & Hd & _); [discriminate | reflexivity | reflexivity | reflexivity |].
  split; [exact Hl | exact Hd].
Defined.

(** ** request_ficha *)

Lemma request_ficha_live env ws pid s c code room :
  sockets s !! ws = Some c ->
  _role c = Some "master" -> _roomCode c = Some code -> code <> "" ->
  liveRooms s !! code = Some room ->
  let target := players room !! keyOfOptional pid ≫= lp_ws in
  handleMsg env ws (request_ficha pid) s
  = (s, if isOpen (sockets s) target
        then send s target send_ficha
        else send s (Some ws)
               (ficha_update pid (orEmptyObject (durableFicha s code (keyOfOptional pid))))).
Proof.
  intros Hc Hrole Hcode Hne Hlive. unfold handleMsg. rewrite Hc, Hrole, Hcode.
  rewrite bool_decide_eq_true_2 by done.
  rewrite (truthyStr_Some code) by done.
  cbn [negb orb default from_option id]. rewrite Hlive. cbv zeta.
  by destruct (isOpen _ _).
Qed.

Lemma request_ficha_not_live env ws pid s c :
  sockets s !! ws = Some c ->
  liveRooms s !! default "" (_roomCode c) = None ->
  handleMsg env ws (request_ficha pid) s = (s, []).
Proof.
  intros Hc Hl. unfold handleMsg. rewrite Hc, Hl. by destruct (_ || _).
Qed.

(** C6 as worded fails on the code in two places: a master whose room the
    sweeper has removed gets no answer at all, and a stored payload that
    is falsy (here the number [0]) is answered by the empty object. *)
Lemma request_ficha_unanswered_or_defaulted :
  ~ request_ficha_as_specified env1 1 (Some "p1") afterSweep
  /\ ~ request_ficha_as_specified env1 1 (Some (genId env0)) afterZeroPayload.
Proof.
  split.
  - intros H.
    specialize (H (mkConn OPEN true (Some "master") (Some codeA) (Some "Ana") None)
                  codeA eq_refl eq_refl eq_refl eq_refl ltac:(discriminate)).
    vm_compute in H. discriminate.
  - intros H.
    specialize (H (mkConn OPEN true (Some "master") (Some codeA) (Some "Ana") None)
                  codeA eq_refl eq_refl eq_refl eq_refl ltac:(discriminate)).
    vm_compute in H. discriminate.
Qed.

(** C6, amended. For a request_ficha message from an open socket in
    master-active state whose room has a live entry, the state is left as
    it is and: if the named participant has an open socket in that entry,
    the one message sent is [send_ficha], to that socket; otherwise the
    one message sent is a [ficha_update] to the requester, carrying the
    durable store's payload for that id, or the empty object when there is
    none or the stored payload is falsy.  When the room has no live entry
    the message changes and sends nothing. *)
Theorem request_ficha_live_room :
  (forall env ws pid s c code room,
      sockets s !! ws = Some c -> readyState c = OPEN ->
      _role c = Some "master" -> _roomCode c = Some code -> code <> "" ->
      liveRooms s !! code = Some room ->
      let target := livePlayer s code (keyOfOptional pid) ≫= lp_ws in
      let stored := durableFicha s code (keyOfOptional pid) in
      fst (handleMsg env ws (request_ficha pid) s) = s
      /\ (isOpen (sockets s) target = true ->
          exists h, target = Some h
                    /\ snd (handleMsg env ws (request_ficha pid) s) = [(h, send_ficha)])
      /\ (isOpen (sockets s) target = false ->
          snd (handleMsg env ws (request_ficha pid) s)
          = [(ws, ficha_update pid (if truthy stored then stored else emptyObject))]))
  /\ (forall env ws pid s c code,
        sockets s !! ws = Some c -> _roomCode c = Some code ->
        liveRooms s !! code = None ->
        handleMsg env ws (request_ficha pid) s = (s, [])).
Proof.
  split.
  - intros env ws pid s c code room Hc Hopen Hrole Hcode Hne Hlive.
    rewrite (request_ficha_live env ws pid s c code room) by done.
    cbv zeta. unfold livePlayer. rewrite Hlive. cbn [fst snd].
    split; [done|]. split.
    + intros Ho. rewrite Ho.
      destruct (players room !! keyOfOptional pid ≫= lp_ws) as [h|] eqn:Ht; [|done].
      exists h. split; [done|]. unfold send. by rewrite Ho.
    + intros Ho. rewrite Ho. unfold send.
      assert (isOpen (sockets s) (Some ws) = true) as ->; [|done].
      simpl. rewrite Hc. by apply bool_decide_eq_true.
  - intros env ws pid s c code Hc Hcode Hl.
    apply (request_ficha_not_live env ws pid s c Hc). by rewrite Hcode.
Qed.

(** C6, amended, on the two states above: the swept room, and the
    payload [0] of a disconnected participant. *)
Lemma request_ficha_live_room_witness :
  handleMsg env1 1 (request_ficha (Some "p1")) afterSweep = (afterSweep, [])
  /\ snd (handleMsg env1 1 (request_ficha (Some (genId env0))) afterZeroPayload)
     = [(1, ficha_update (Some (genId env0)) emptyObject)].
Proof.
  destruct request_ficha_live_room as [Hlive Hswept].
  split.
  - apply (Hswept env1 1 (Some "p1") afterSweep
             (mkConn OPEN true (Some "master") (Some codeA) (Some "Ana") None) codeA);
      reflexivity.
  - destruct (Hlive env1 1 (Some (genId env0)) afterZeroPayload
                (mkConn OPEN true (Some "master") (Some codeA) (Some "Ana") None)
                codeA
                (mkLiveRoom (Some 1)
                   {[ genId env0 := mkLivePlayer None (Some "Bo") (JNum 0) ]}))
      as (_ & _ & Hcached);
      [reflexivity | reflexivity | reflexivity | reflexivity | discriminate
       | reflexivity |].
    apply Hcached. reflexivity.
Defined.

(** ** Two joins under one name *)

(** At one clock reading, ids differ exactly when the random suffixes do;
    the player name plays no part in [genId]. *)
Lemma genId_same_instant e1 e2 :
  now e1 = now e2 -> (genId e1 = genId e2 <-> randomSuffix e1 = randomSuffix e2).
Proof.
  intros Hnow. unfold genId. rewrite Hnow. split.
  - intros H. by apply (inj (String.app _)) in H.
  - by intros ->.
Qed.

(** C5 as worded fails on the code: two joins in the same millisecond whose
    random suffixes coincide are given the same id, and the second
    participant replaces the first. *)
Lemma two_joins_collide :
  ~ two_joins_as_specified env0 env0 1 2 "Bo" codeA twoClients.
Proof.
  intros (code & sn & id1 & id2 & H1 & H2 & Hne & _).
  apply Hne. clear Hne.
  vm_compute in H1. vm_compute in H2.
  apply list_elem_of_In in H1, H2. simpl in H1, H2.
  destruct H1 as [H1|[H1|[]]]; [|discriminate H1].
  destruct H2 as [H2|[H2|[]]]; [|discriminate H2].
  congruence.
Qed.

(** C5, amended. Two successive join_room messages with the same player
    name on the same stored room code, from open sockets: each is answered
    by a [room_joined] whose id is [genId()] of its own run (clock reading
    and random suffix, not the name; at one clock reading the ids differ
    exactly when the suffixes do), and whenever the two ids differ the
    presence snapshot afterwards lists both participants, under that name
    and online. *)
Theorem join_twice_same_name e1 e2 ws1 ws2 pn rc s room :
  truthyStr (Some pn) = true -> rc <> "" ->
  db_rooms s !! toUpperCase (trim rc) = Some room ->
  isOpen (sockets s) (Some ws1) = true ->
  isOpen (sockets s) (Some ws2) = true ->
  let code := toUpperCase (trim rc) in
  let r1 := handleMsg e1 ws1 (join_room (Some pn) (Some rc)) s in
  let r2 := handleMsg e2 ws2 (join_room (Some pn) (Some rc)) (fst r1) in
  (ws1, room_joined code (sessionName room) (genId e1)) ∈ snd r1
  /\ (ws2, room_joined code (sessionName room) (genId e2)) ∈ snd r2
  /\ (now e1 = now e2 ->
      (genId e1 <> genId e2 <-> randomSuffix e1 <> randomSuffix e2))
  /\ (genId e1 <> genId e2 ->
      playersSnapshot (fst r2) code !! genId e1
      = Some (mkPresence (genId e1) (Some pn) true)
      /\ playersSnapshot (fst r2) code !! genId e2
         = Some (mkPresence (genId e2) (Some pn) true)).
Proof.
  intros Hp Hr Hdb Ho1 Ho2.
  destruct (join_room_found e1 ws1 pn rc s room Hp Hr Hdb)
    as (Hd1 & _ & Hl1 & Hs1 & Hout1).
  cbv zeta in *.
  set (s1 := fst (handleMsg e1 ws1 (join_room (Some pn) (Some rc)) s)) in *.
  set (code := toUpperCase (trim rc)) in *.
  set (p1 := mkLivePlayer (Some ws1) (Some pn) emptyObject) in *.
  assert (Hdb1 : db_rooms s1 !! code
                 = Some (putDbPlayer (genId e1) (mkDbPlayer (Some pn) emptyObject) room)).
  { by rewrite Hd1, lookup_alter_eq, Hdb. }
  destruct (join_room_found e2 ws2 pn rc s1 _ Hp Hr Hdb1)
    as (_ & _ & Hl2 & Hs2 & Hout2).
  cbv zeta in *. fold code in Hl2, Hs2, Hout2.
  set (s2 := fst (handleMsg e2 ws2 (join_room (Some pn) (Some rc)) s1)) in *.
  set (p2 := mkLivePlayer (Some ws2) (Some pn) emptyObject) in *.
  assert (Hopen1 : forall w, isOpen (sockets s1) w = isOpen (sockets s) w).
  { intros w. by rewrite Hs1, isOpen_alter_fields. }
  assert (Hopen2 : forall w, isOpen (sockets s2) w = isOpen (sockets s) w).
  { intros w. by rewrite Hs2, isOpen_alter_fields, Hopen1. }
  destruct (ensureLiveSeeded_lookup code room (liveRooms s)) as (lr0 & Hlr0 & _).
  assert (Hlive1 : liveRooms s1 !! code = Some (putLivePlayer (genId e1) p1 lr0)).
  { by rewrite Hl1, lookup_alter_eq, Hlr0. }
  assert (Hlive2 : liveRooms s2 !! code
                   = Some (putLivePlayer (genId e2) p2
                             (putLivePlayer (genId e1) p1 lr0))).
  { rewrite Hl2, lookup_alter_eq. unfold ensureLiveSeeded. by rewrite Hlive1, Hlive1. }
  split; [|split; [|split]].
  - rewrite Hout1. apply elem_of_app. left. unfold send.
    rewrite Hopen1, Ho1. by apply list_elem_of_singleton.
  - rewrite Hout2. apply elem_of_app. left. unfold send.
    rewrite Hopen2, Ho2. by apply list_elem_of_singleton.
  - intros Hnow. by rewrite (genId_same_instant _ _ Hnow).
  - intros Hne. unfold playersSnapshot. rewrite Hlive2.
    rewrite !map_lookup_imap. cbn [putLivePlayer players].
    rewrite lookup_insert_ne, !lookup_insert_eq by done.
    cbn [mbind option_bind]. subst p1 p2. cbn [lp_name lp_ws].
    by rewrite !Hopen2, Ho1, Ho2.
Qed.

(** C5, amended, on the restarted process with two clients that join in
    the same millisecond with different random suffixes. *)
Lemma join_twice_same_name_witness :
  genId env0 <> genId env1
  /\ playersSnapshot
       (fst (handleMsg env1 2 (join_room (Some "Bo") (Some codeA))
               (fst (handleMsg env0 1 (join_room (Some "Bo") (Some codeA)) twoClients))))
       codeA !! genId env0
     = Some (mkPresence (genId env0) (Some "Bo") true)
  /\ playersSnapshot
       (fst (handleMsg env1 2 (join_room (Some "Bo") (Some codeA))
               (fst (handleMsg env0 1 (join_room (Some "Bo") (Some codeA)) twoClients))))
       codeA !! genId env1
     = Some (mkPresence (genId env1) (Some "Bo") true).
Proof.
  assert (Hne : genId env0 <> genId env1) by discriminate.
  split; [exact Hne|].
  destruct (join_twice_same_name env0 env1 1 2 "Bo" codeA twoClients storedRoom)
    as (_ & _ & _ & Hboth);
    [reflexivity | discriminate | reflexivity | reflexivity | reflexivity |].
  exact (Hboth Hne).
Defined.

(** * Further properties of the engine *)

(** ** Who is sent what *)

Lemma elem_of_send s w data h m :
  (h, m) ∈ send s w data
  <-> w = Some h /\ m = data /\ isOpen (sockets s) (Some h) = true.
Proof.
  unfold send. destruct w as [k|].
  - destruct (isOpen (sockets s) (Some k)) eqn:Ho.
    + rewrite list_elem_of_singleton. split.
      * intros [= -> ->]. done.
      * intros ([= ->] & -> & _). done.
    + split; [by intros ?%elem_of_nil|]. intros ([= ->] & _ & Ho'). congruence.
  - split; [by intros ?%elem_of_nil|]. by intros ([=] & _).
Qed.

Lemma elem_of_sendUnlessExcluded s w ex data h m :
  (h, m) ∈ sendUnlessExcluded s w ex data
  <-> w = Some h /\ Some h <> ex /\ m = data /\ isOpen (sockets s) (Some h) = true.
Proof.
  unfold sendUnlessExcluded. case_bool_decide as Hex.
  - split; [by intros ?%elem_of_nil|]. intros (-> & Hne & _). congruence.
  - rewrite elem_of_send. split.
    + intros (-> & -> & Ho). done.
    + intros (-> & _ & -> & Ho). done.
Qed.

Lemma elem_of_broadcastRoom s code data ex h m :
  (h, m) ∈ broadcastRoom s code data ex
  <-> m = data /\ isOpen (sockets s) (Some h) = true /\ Some h <> ex
      /\ exists room, liveRooms s !! code = Some room
                      /\ (masterWs room = Some h
                          \/ exists id p, players room !! id = Some p
                                          /\ lp_ws p = Some h).
Proof.
  unfold broadcastRoom. destruct (liveRooms s !! code) as [room|].
  - rewrite elem_of_app, elem_of_sendUnlessExcluded. split.
    + intros [(Hm & Hne & -> & Ho)|Hin].
      * repeat split; try done. exists room. split; [done|by left].
      * apply list_elem_of_In, in_flat_map in Hin as ([id p] & Hp & Hin).
        apply list_elem_of_In, elem_of_map_to_list in Hp.
        apply list_elem_of_In, elem_of_sendUnlessExcluded in Hin
          as (Hw & Hne & -> & Ho).
        repeat split; try done. exists room. split; [done|]. right. by exists id, p.
    + intros (-> & Ho & Hne & room' & [= <-] & [Hm|(id & p & Hp & Hw)]).
      * by left.
      * right. apply list_elem_of_In, in_flat_map. exists (id, p). split.
        -- by apply list_elem_of_In, elem_of_map_to_list.
        -- by apply list_elem_of_In, elem_of_sendUnlessExcluded.
  - split; [by intros ?%elem_of_nil|]. by intros (_ & _ & _ & room & [=] & _).
Qed.

(** ** What a handler does to the sockets *)

Lemma alter_keeps_field {B} (proj : Conn -> B) (f : Conn -> Conn) ws
    (socks : gmap nat Conn) h :
  (forall c, proj (f c) = proj c) ->
  proj <$> alter f ws socks !! h = proj <$> socks !! h.
Proof.
  intros Hf. destruct (decide (ws = h)) as [->|Hne].
  - rewrite lookup_alter_eq. destruct (socks !! h); simpl; [|done]. by rewrite Hf.
  - by rewrite lookup_alter_ne.
Qed.

Lemma isOpen_readyState (m1 m2 : gmap nat Conn) w :
  (forall h, readyState <$> m1 !! h = readyState <$> m2 !! h) ->
  isOpen m1 w = isOpen m2 w.
Proof.
  intros H. destruct w as [h|]; [|done]. simpl. specialize (H h).
  destruct (m1 !! h), (m2 !! h); simpl in H; try done; by injection H as ->.
Qed.

(** A handler run changes the sender's socket only, and on it neither
    [readyState] nor, unless the message is a pong, the heartbeat flag. *)
Lemma handleMsg_socket_fields env ws msg s h :
  (h <> ws -> sockets (fst (handleMsg env ws msg s)) !! h = sockets s !! h)
  /\ readyState <$> sockets (fst (handleMsg env ws msg s)) !! h
     = readyState <$> sockets s !! h
  /\ (msg <> pong ->
      _alive <$> sockets (fst (handleMsg env ws msg s)) !! h
      = _alive <$> sockets s !! h).
Proof.
  assert (Halter : forall f : Conn -> Conn,
             (forall c, readyState (f c) = readyState c) ->
             (forall c, _alive (f c) = _alive c) ->
             (h <> ws -> alter f ws (sockets s) !! h = sockets s !! h)
             /\ readyState <$> alter f ws (sockets s) !! h = readyState <$> sockets s !! h
             /\ (msg <> pong ->
                 _alive <$> alter f ws (sockets s) !! h = _alive <$> sockets s !! h)).
  { intros f Hr Ha. split; [intros Hne; by rewrite lookup_alter_ne|].
    split; [by apply alter_keeps_field|]. intros _. by apply alter_keeps_field. }
  destruct msg as [mn sn|pn rc|role name rc|fd|pid| |ty].
  - unfold handleMsg. destruct (negb (truthyStr mn) || negb (truthyStr sn)); [done|].
    cbn [fst sockets setSockets setLive saveDB setDb]. by apply Halter.
  - destruct pn as [pn|]; [|done].
    destruct rc as [rc|]; [|by unfold handleMsg; rewrite orb_true_r].
    destruct (truthyStr (Some pn)) eqn:Hp; [|by unfold handleMsg; rewrite Hp].
    destruct (decide (rc = "")) as [->|Hr]; [by unfold handleMsg; rewrite orb_true_r|].
    destruct (db_rooms s !! toUpperCase (trim rc)) as [room|] eqn:Hroom.
    + destruct (join_room_found env ws pn rc s room Hp Hr Hroom) as (_ & _ & _ & Hs & _).
      cbv zeta in Hs. rewrite Hs. by apply Halter.
    + by rewrite (join_room_not_found_state env ws (Some pn) rc s Hroom).
  - destruct rc as [rc|]; [|done].
    destruct (decide (rc = "")) as [->|Hr]; [done|].
    destruct (db_rooms s !! toUpperCase rc) as [room|] eqn:Hroom.
    + destruct (reconnect_found env ws role name rc s room Hr Hroom)
        as (_ & _ & _ & Hs & _).
      cbv zeta in Hs. rewrite Hs. case_bool_decide; [by apply Halter|].
      split; [intros Hne; by rewrite !lookup_alter_ne|].
      split; [|intros _]; by rewrite !alter_keeps_field.
    + by rewrite reconnect_not_found.
  - unfold handleMsg. destruct (sockets s !! ws) as [k|]; [|done].
    destruct (_ || _); [done|]. by destruct (liveRooms s !! _).
  - unfold handleMsg. by repeat case_match.
  - cbn [handleMsg fst sockets setSockets].
    split; [intros Hne; by rewrite lookup_alter_ne|].
    split; [by apply alter_keeps_field|done].
  - done.
Qed.

Lemma handleMsg_isOpen env ws msg s w :
  isOpen (sockets (fst (handleMsg env ws msg s))) w = isOpen (sockets s) w.
Proof.
  apply isOpen_readyState. intros h.
  by destruct (handleMsg_socket_fields env ws msg s h) as (_ & ? & _).
Qed.

(** Whatever a handler run sends goes to a socket that is open. *)
Lemma handleMsg_sends_to_open env ws msg s h m :
  (h, m) ∈ snd (handleMsg env ws msg s) -> isOpen (sockets s) (Some h) = true.
Proof.
  rewrite <- (handleMsg_isOpen env ws msg s).
  destruct msg as [mn sn|pn rc|role name rc|fd|pid| |ty].
  - unfold handleMsg. destruct (negb (truthyStr mn) || negb (truthyStr sn));
      [by intros ?%elem_of_nil|].
    cbn [fst snd]. by intros (_ & _ & ?)%elem_of_send.
  - destruct pn as [pn|]; [|by intros ?%elem_of_nil].
    destruct rc as [rc|];
      [|unfold handleMsg; rewrite orb_true_r; by intros ?%elem_of_nil].
    destruct (truthyStr (Some pn)) eqn:Hp;
      [|unfold handleMsg; rewrite Hp; by intros ?%elem_of_nil].
    destruct (decide (rc = "")) as [->|Hr];
      [unfold handleMsg; rewrite orb_true_r; by intros ?%elem_of_nil|].
    destruct (db_rooms s !! toUpperCase (trim rc)) as [room|] eqn:Hroom.
    + destruct (join_room_found env ws pn rc s room Hp Hr Hroom) as (_ & _ & _ & _ & Hout).
      cbv zeta in Hout. rewrite Hout, elem_of_app.
      intros [(_ & _ & ?)%elem_of_send|(_ & ? & _)%elem_of_broadcastRoom]; done.
    + rewrite (join_room_not_found_reply env ws (Some pn) rc s Hp Hr Hroom).
      rewrite (join_room_not_found_state env ws (Some pn) rc s Hroom).
      by intros (_ & _ & ?)%elem_of_send.
  - destruct rc as [rc|]; [|by intros ?%elem_of_nil].
    destruct (decide (rc = "")) as [->|Hr]; [by intros ?%elem_of_nil|].
    destruct (db_rooms s !! toUpperCase rc) as [room|] eqn:Hroom.
    + destruct (reconnect_found env ws role name rc s room Hr Hroom)
        as (_ & _ & _ & _ & Hout).
      cbv zeta in Hout. rewrite Hout. case_bool_decide; rewrite elem_of_app.
      * intros [(_ & _ & ?)%elem_of_send|(_ & _ & ?)%elem_of_send]; done.
      * intros [(_ & _ & ?)%elem_of_send|(_ & ? & _)%elem_of_broadcastRoom]; done.
    + rewrite reconnect_not_found by done. by intros ?%elem_of_nil.
  - unfold handleMsg. destruct (sockets s !! ws) as [k|]; [|by intros ?%elem_of_nil].
    destruct (_ || _); [by intros ?%elem_of_nil|].
    destruct (liveRooms s !! _) as [room|]; [|by intros ?%elem_of_nil].
    cbn [fst snd sockets setDb setLive].
    destruct (isOpen (sockets s) (masterWs room)); [|by intros ?%elem_of_nil].
    by intros (_ & _ & ?)%elem_of_send.
  - unfold handleMsg. destruct (sockets s !! ws) as [k|]; [|by intros ?%elem_of_nil].
    destruct (_ || _); [by intros ?%elem_of_nil|].
    destruct (liveRooms s !! _) as [room|]; [|by intros ?%elem_of_nil].
    destruct (isOpen (sockets s) _); cbn [fst snd];
      by intros (_ & _ & ?)%elem_of_send.
  - by intros ?%elem_of_nil.
  - by intros ?%elem_of_nil.
Qed.

(** ** Connection close *)

Lemma isOpen_after_close socks ws h :
  isOpen (alter (setReadyState CLOSED) ws socks) (Some h) = true
  <-> h <> ws /\ isOpen socks (Some h) = true.
Proof.
  simpl. destruct (decide (ws = h)) as [->|Hne].
  - rewrite lookup_alter_eq. destruct (socks !! h); simpl; split; try done.
    + by intros [? _].
    + by intros [? _].
  - rewrite lookup_alter_ne by done. split; [intros H; split; [congruence|done]|].
    by intros [_ ?].
Qed.

Lemma handleDisconnect_master ws s c code room :
  sockets s !! ws = Some c ->
  _role c = Some "master" -> _roomCode c = Some code -> code <> "" ->
  liveRooms s !! code = Some room ->
  handleDisconnect ws s
  = (setLive s (alter (setMasterWs None) code (liveRooms s)),
     broadcastRoom (setLive s (alter (setMasterWs None) code (liveRooms s)))
                   code master_left None).
Proof.
  intros Hc Hrole Hcode Hne Hlive. unfold handleDisconnect.
  rewrite Hc, Hcode, (truthyStr_Some code Hne). cbn [negb default from_option id].
  rewrite Hlive, Hrole. by rewrite bool_decide_eq_true_2.
Qed.

Lemma handleDisconnect_player ws s c code pid room :
  sockets s !! ws = Some c ->
  _role c = Some "player" -> _roomCode c = Some code -> code <> "" ->
  _playerId c = Some pid -> pid <> "" ->
  liveRooms s !! code = Some room ->
  let s' := setLive s (alter (clearLiveWs pid) code (liveRooms s)) in
  handleDisconnect ws s
  = (s', broadcastRoom s' code (players_update (playersSnapshot s' code)) None).
Proof.
  intros Hc Hrole Hcode Hne Hid Hidne Hlive. unfold handleDisconnect.
  rewrite Hc, Hcode, (truthyStr_Some code Hne). cbn [negb default from_option id].
  rewrite Hlive, Hrole, Hid, (truthyStr_Some pid Hidne).
  rewrite bool_decide_eq_false_2 by done. rewrite bool_decide_eq_true_2 by done.
  done.
Qed.

(** The three shapes of a live registry after [handleDisconnect]. *)
Lemma handleDisconnect_live ws s :
  liveRooms (fst (handleDisconnect ws s)) = liveRooms s
  \/ (exists code, liveRooms (fst (handleDisconnect ws s))
                   = alter (setMasterWs None) code (liveRooms s))
  \/ (exists code id, liveRooms (fst (handleDisconnect ws s))
                      = alter (clearLiveWs id) code (liveRooms s)).
Proof.
  unfold handleDisconnect. destruct (sockets s !! ws) as [c|]; [|by left].
  destruct (negb _); [by left|]. destruct (liveRooms s !! _); [|by left].
  case_bool_decide; [right; left; by eexists|].
  destruct (_ && _); [right; right; by do 2 eexists|by left].
Qed.

Lemma handleDisconnect_sockets ws s :
  sockets (fst (handleDisconnect ws s)) = sockets s.
Proof. unfold handleDisconnect. by repeat case_match. Qed.

Lemma handleDisconnect_sends_to_open ws s h m :
  (h, m) ∈ snd (handleDisconnect ws s) -> isOpen (sockets s) (Some h) = true.
Proof.
  unfold handleDisconnect. destruct (sockets s !! ws) as [c|]; [|by intros ?%elem_of_nil].
  destruct (negb _); [by intros ?%elem_of_nil|].
  destruct (liveRooms s !! _); [|by intros ?%elem_of_nil].
  case_bool_decide; [by intros (_ & ? & _)%elem_of_broadcastRoom|].
  destruct (_ && _); [by intros (_ & ? & _)%elem_of_broadcastRoom|].
  by intros ?%elem_of_nil.
Qed.

Lemma clearLiveWs_lookup id room id' :
  players (clearLiveWs id room) !! id'
  = if decide (id = id')
    then (fun p => mkLivePlayer None (lp_name p) (lp_fichaData p)) <$> players room !! id'
    else players room !! id'.
Proof.
  unfold clearLiveWs. simpl. rewrite lookup_alter. by case_decide; subst.
Qed.

Lemma livePlayer_alter_clearLiveWs s code id code' id' :
  is_Some (livePlayer (setLive s (alter (clearLiveWs id) code (liveRooms s))) code' id')
  <-> is_Some (livePlayer s code' id').
Proof.
  unfold livePlayer. cbn [liveRooms setLive].
  destruct (decide (code = code')) as [->|Hne].
  - rewrite lookup_alter_eq. destruct (liveRooms s !! code') as [room|]; [|done].
    cbn [fmap option_fmap option_map]. rewrite clearLiveWs_lookup.
    case_decide; [|done]. by rewrite fmap_is_Some.
  - by rewrite lookup_alter_ne.
Qed.

Lemma livePlayer_alter_setMasterWs s w code code' id' :
  livePlayer (setLive s (alter (setMasterWs w) code (liveRooms s))) code' id'
  = livePlayer s code' id'.
Proof.
  unfold livePlayer. cbn [liveRooms setLive].
  destruct (decide (code = code')) as [->|Hne].
  - rewrite lookup_alter_eq. by destruct (liveRooms s !! code').
  - by rewrite lookup_alter_ne.
Qed.

(** X1 (close, frame). Closing a socket never changes the durable store or
    its file, changes no socket but the closing one (whose [readyState]
    becomes [CLOSED]), removes no room and no participant from the live
    registry, and sends nothing to the closing socket nor to any socket
    that is not open. *)
Theorem close_keeps_records ws s :
  db_rooms (fst (step (EvClose ws) s)) = db_rooms s
  /\ disk (fst (step (EvClose ws) s)) = disk s
  /\ sockets (fst (step (EvClose ws) s))
     = alter (setReadyState CLOSED) ws (sockets s)
  /\ (forall code, is_Some (liveRooms (fst (step (EvClose ws) s)) !! code)
                   <-> is_Some (liveRooms s !! code))
  /\ (forall code id, is_Some (livePlayer (fst (step (EvClose ws) s)) code id)
                      <-> is_Some (livePlayer s code id))
  /\ (forall h m, (h, m) ∈ snd (step (EvClose ws) s) ->
                  h <> ws /\ isOpen (sockets s) (Some h) = true).
Proof.
  cbn [step].
  set (sC := setSockets s (alter (setReadyState CLOSED) ws (sockets s))).
  destruct (handleDisconnect_store ws sC) as [Hd Hk].
  pose proof (handleDisconnect_sockets ws sC) as Hs.
  split; [done|]. split; [done|]. split; [done|].
  assert (Hplayers : forall code id,
             is_Some (livePlayer (fst (handleDisconnect ws sC)) code id)
             <-> is_Some (livePlayer s code id)).
  { intros code id.
    destruct (handleDisconnect_live ws sC) as [H|[[code' H]|(code' & id' & H)]];
      unfold livePlayer at 1; rewrite H.
    - done.
    - pose proof (livePlayer_alter_setMasterWs sC None code' code id) as E.
      unfold livePlayer at 1 in E. cbn [liveRooms setLive] in E. by rewrite E.
    - pose proof (livePlayer_alter_clearLiveWs sC code' id' code id) as E.
      unfold livePlayer at 1 in E. cbn [liveRooms setLive] in E. by rewrite E. }
  split; [|split; [done|]].
  - intros code.
    destruct (handleDisconnect_live ws sC) as [->|[[code' ->]|(code' & id' & ->)]];
      [done|..]; cbn [liveRooms sC setSockets];
      (destruct (decide (code' = code)) as [->|Hne];
       [rewrite lookup_alter_eq; by rewrite fmap_is_Some
       |by rewrite lookup_alter_ne]).
  - intros h m Hin%handleDisconnect_sends_to_open.
    by apply isOpen_after_close in Hin.
Qed.

(** X2 (close of a master socket). When a socket whose role is master and
    that is bound to a live room closes, the room's master reference is
    cleared (whichever socket it referred to), the participants stay, and
    [master_left] is sent to exactly the open sockets of the room's
    participants other than the closing one. *)
Theorem close_of_master ws s c code room :
  sockets s !! ws = Some c ->
  _role c = Some "master" -> _roomCode c = Some code -> code <> "" ->
  liveRooms s !! code = Some room ->
  liveRooms (fst (step (EvClose ws) s)) !! code
  = Some (mkLiveRoom None (players room))
  /\ (forall h m,
        (h, m) ∈ snd (step (EvClose ws) s)
        <-> m = master_left /\ h <> ws /\ isOpen (sockets s) (Some h) = true
            /\ exists id p, players room !! id = Some p /\ lp_ws p = Some h).
Proof.
  intros Hc Hrole Hcode Hne Hlive. cbn [step].
  set (sC := setSockets s (alter (setReadyState CLOSED) ws (sockets s))).
  assert (HcC : sockets sC !! ws = Some (setReadyState CLOSED c)).
  { cbn [sC sockets setSockets]. by rewrite lookup_alter_eq, Hc. }
  rewrite (handleDisconnect_master ws sC _ code room HcC Hrole Hcode Hne Hlive).
  cbn [fst snd liveRooms setLive].
  assert (Hentry : alter (setMasterWs None) code (liveRooms sC) !! code
                   = Some (mkLiveRoom None (players room))).
  { cbn [liveRooms sC setSockets]. by rewrite lookup_alter_eq, Hlive. }
  split; [done|].
  intros h m. rewrite elem_of_broadcastRoom. cbn [liveRooms sockets setLive].
  rewrite Hentry. cbn [sC sockets setSockets]. rewrite isOpen_after_close. split.
  - intros (-> & [Hh Ho] & _ & room' & [= <-] & [Hm|Hp]); [done|].
    cbn [players] in Hp. done.
  - intros (-> & Hh & Ho & Hp). split; [done|]. split; [done|]. split; [done|].
    eexists. split; [done|]. by right.
Qed.

(** X2 (close of a master socket) on a room whose master reference is
    socket 2 while the closing socket 1 is the master it superseded:
    the reference to socket 2 is cleared. *)
Lemma close_of_master_witness :
  (masterWs <$> liveRooms twoMasters !! codeA) = Some (Some 2)
  /\ (masterWs <$> liveRooms (fst (step (EvClose 1) twoMasters)) !! codeA) = Some None
  /\ (3, master_left) ∈ snd (step (EvClose 1) twoMasters).
Proof.
  split; [reflexivity|].
  destruct (close_of_master 1 twoMasters
              (mkConn OPEN true (Some "master") (Some codeA) (Some "Ana") None)
              codeA
              (mkLiveRoom (Some 2)
                 {[ genId env0 := mkLivePlayer (Some 3) (Some "Bo") emptyObject ]}))
    as [Hroom Hout]; [reflexivity | reflexivity | reflexivity | discriminate
                      | reflexivity |].
  split; [by rewrite Hroom|].
  apply Hout. split; [reflexivity|]. split; [discriminate|]. split; [reflexivity|].
  exists (genId env0), (mkLivePlayer (Some 3) (Some "Bo") emptyObject).
  split; reflexivity.
Defined.

(** X3 (close of a player socket). When a socket whose role is player and
    that is bound to a live room closes, its participant keeps its record
    in the live registry (name and payload) with the socket reference
    cleared, so that the presence snapshot lists it as offline; no other
    participant and not the master reference change; and the new
    [players_update] is sent to exactly the open sockets the room refers
    to, other than the closing one. *)
Theorem close_of_player ws s c code pid room :
  sockets s !! ws = Some c ->
  _role c = Some "player" -> _roomCode c = Some code -> code <> "" ->
  _playerId c = Some pid -> pid <> "" ->
  liveRooms s !! code = Some room ->
  let s' := fst (step (EvClose ws) s) in
  livePlayer s' code pid
  = (fun p => mkLivePlayer None (lp_name p) (lp_fichaData p)) <$> livePlayer s code pid
  /\ (forall id', id' <> pid -> livePlayer s' code id' = livePlayer s code id')
  /\ masterWs <$> liveRooms s' !! code = Some (masterWs room)
  /\ playersSnapshot s' code !! pid
     = (fun p => mkPresence pid (lp_name p) false) <$> livePlayer s code pid
  /\ (forall h m,
        (h, m) ∈ snd (step (EvClose ws) s)
        <-> m = players_update (playersSnapshot s' code)
            /\ h <> ws /\ isOpen (sockets s) (Some h) = true
            /\ (masterWs room = Some h
                \/ exists id' p, id' <> pid /\ players room !! id' = Some p
                                 /\ lp_ws p = Some h)).
Proof.
  intros Hc Hrole Hcode Hne Hid Hidne Hlive. cbn [step].
  set (sC := setSockets s (alter (setReadyState CLOSED) ws (sockets s))).
  assert (HcC : sockets sC !! ws = Some (setReadyState CLOSED c)).
  { cbn [sC sockets setSockets]. by rewrite lookup_alter_eq, Hc. }
  rewrite (handleDisconnect_player ws sC _ code pid room HcC Hrole Hcode Hne Hid Hidne Hlive).
  cbv zeta. cbn [fst snd].
  set (s' := setLive sC (alter (clearLiveWs pid) code (liveRooms sC))).
  assert (Hentry : liveRooms s' !! code = Some (clearLiveWs pid room)).
  { cbn [s' liveRooms setLive sC setSockets]. by rewrite lookup_alter_eq, Hlive. }
  assert (Hp : livePlayer s' code pid
               = (fun p => mkLivePlayer None (lp_name p) (lp_fichaData p))
                   <$> livePlayer s code pid).
  { unfold livePlayer. rewrite Hentry, Hlive, clearLiveWs_lookup. by rewrite decide_True. }
  split; [done|]. split; [|split; [|split]].
  - intros id' Hne'. unfold livePlayer. rewrite Hentry, Hlive, clearLiveWs_lookup.
    by rewrite decide_False.
  - by rewrite Hentry.
  - unfold playersSnapshot. unfold livePlayer in Hp. rewrite Hentry in *.
    rewrite map_lookup_imap, Hp. unfold livePlayer. rewrite Hlive.
    by destruct (players room !! pid).
  - intros h m. rewrite elem_of_broadcastRoom, Hentry.
    cbn [s' sockets setLive sC setSockets]. rewrite isOpen_after_close. split.
    + intros (-> & [Hh Ho] & _ & room' & [= <-] & Hwho).
      split; [done|]. split; [done|]. split; [done|].
      destruct Hwho as [Hm|(id' & p & Hp' & Hw)]; [by left|right].
      rewrite clearLiveWs_lookup in Hp'. case_decide as Hd.
      * destruct (players room !! id'); [|done]. simpl in Hp'.
        injection Hp' as <-. done.
      * by exists id', p.
    + intros (-> & Hh & Ho & Hwho). split; [done|]. split; [done|]. split; [done|].
      eexists. split; [done|].
      destruct Hwho as [Hm|(id' & p & Hne' & Hp' & Hw)]; [by left|right].
      exists id', p. rewrite clearLiveWs_lookup. by rewrite decide_False.
Qed.

(** X3 (close of a player socket) on the room above: the player on socket 3
    closes, stays listed as offline, and the master on socket 2 is told. *)
Lemma close_of_player_witness :
  playersSnapshot (fst (step (EvClose 3) twoMasters)) codeA !! genId env0
  = Some (mkPresence (genId env0) (Some "Bo") false)
  /\ (2, players_update (playersSnapshot (fst (step (EvClose 3) twoMasters)) codeA))
       ∈ snd (step (EvClose 3) twoMasters).
Proof.
  destruct (close_of_player 3 twoMasters
              (mkConn OPEN true (Some "player") (Some codeA) (Some "Bo")
                 (Some (genId env0)))
              codeA (genId env0)
              (mkLiveRoom (Some 2)
                 {[ genId env0 := mkLivePlayer (Some 3) (Some "Bo") emptyObject ]}))
    as (_ & _ & _ & Hsnap & Hout);
    [reflexivity | reflexivity | reflexivity | discriminate | reflexivity
     | discriminate | reflexivity |].
  split; [exact Hsnap|].
  apply Hout. split; [reflexivity|]. split; [discriminate|]. split; [reflexivity|].
  by left.
Defined.

(** ** Delivery *)

(** X4 (broadcast). [broadcastRoom] delivers the message, unchanged, to
    exactly the open sockets that the room's live entry refers to, as
    master or as a participant's socket, other than the excluded one; for
    a room without live entry it sends nothing. *)
Theorem broadcastRoom_recipients :
  (forall s code data ex h m,
      (h, m) ∈ broadcastRoom s code data ex
      <-> m = data /\ isOpen (sockets s) (Some h) = true /\ Some h <> ex
          /\ exists room, liveRooms s !! code = Some room
                          /\ (masterWs room = Some h
                              \/ exists id p, players room !! id = Some p
                                              /\ lp_ws p = Some h))
  /\ (forall s code data ex,
        liveRooms s !! code = None -> broadcastRoom s code data ex = []).
Proof.
  split.
  - intros. apply elem_of_broadcastRoom.
  - intros s code data ex Hnone. unfold broadcastRoom. by rewrite Hnone.
Qed.

(** X4 (broadcast) on the room with master socket 2 and a player on socket
    3: both are reached, and excluding the master leaves the player. *)
Lemma broadcastRoom_recipients_witness :
  (2, master_left) ∈ broadcastRoom twoMasters codeA master_left None
  /\ (3, master_left) ∈ broadcastRoom twoMasters codeA master_left (Some 2)
  /\ (2, master_left) ∉ broadcastRoom twoMasters codeA master_left (Some 2).
Proof.
  destruct broadcastRoom_recipients as [Hiff _].
  split; [|split].
  - apply Hiff. split; [reflexivity|]. split; [reflexivity|]. split; [discriminate|].
    eexists. split; [reflexivity|]. by left.
  - apply Hiff. split; [reflexivity|]. split; [reflexivity|]. split; [discriminate|].
    eexists. split; [reflexivity|]. right.
    exists (genId env0), (mkLivePlayer (Some 3) (Some "Bo") emptyObject).
    split; reflexivity.
  - intros Hin. apply Hiff in Hin as (_ & _ & Hne & _). by apply Hne.
Defined.

(** X5 (no message to a socket that is not open). Whatever an event makes
    the server send, it sends to sockets that are open once the event
    has been handled; in particular a closing socket is sent nothing. *)
Theorem sends_only_to_open_sockets ev s h m :
  (h, m) ∈ snd (step ev s) ->
  isOpen (sockets (fst (step ev s))) (Some h) = true.
Proof.
  destruct ev as [ws|env ws msg|ws| |t| ]; cbn [step].
  - destruct (sockets s !! ws); by intros ?%elem_of_nil.
  - destruct (isOpen (sockets s) (Some ws)); [|by intros ?%elem_of_nil].
    intros Hin. rewrite handleMsg_isOpen. by apply handleMsg_sends_to_open in Hin.
  - intros Hin. rewrite handleDisconnect_sockets.
    by apply handleDisconnect_sends_to_open in Hin.
  - by intros ?%elem_of_nil.
  - by intros ?%elem_of_nil.
  - by intros ?%elem_of_nil.
Qed.

Lemma sends_only_to_open_sockets_witness :
  (3, master_left) ∈ snd (step (EvClose 2) twoMasters)
  /\ isOpen (sockets (fst (step (EvClose 2) twoMasters))) (Some 3) = true.
Proof.
  assert (Hin : (3, master_left) ∈ snd (step (EvClose 2) twoMasters)).
  { vm_compute. apply list_elem_of_singleton. reflexivity. }
  split; [exact Hin|].
  exact (sends_only_to_open_sockets (EvClose 2) twoMasters 3 master_left Hin).
Defined.

(** X6 (sockets under a message). A message changes no socket but the
    sender's; it never changes the [readyState] of any socket, neither
    adds nor removes one, and only a pong changes a heartbeat flag. *)
Theorem message_touches_only_sender env ws msg s h :
  (h <> ws -> sockets (fst (handleMsg env ws msg s)) !! h = sockets s !! h)
  /\ readyState <$> sockets (fst (handleMsg env ws msg s)) !! h
     = readyState <$> sockets s !! h
  /\ (msg <> pong ->
      _alive <$> sockets (fst (handleMsg env ws msg s)) !! h
      = _alive <$> sockets s !! h)
  /\ (is_Some (sockets (fst (handleMsg env ws msg s)) !! h)
      <-> is_Some (sockets s !! h)).
Proof.
  destruct (handleMsg_socket_fields env ws msg s h) as (Hother & Hready & Halive).
  split; [done|]. split; [done|]. split; [done|].
  rewrite <- !(fmap_is_Some readyState). by rewrite Hready.
Qed.

Lemma message_touches_only_sender_witness :
  sockets (fst (handleMsg env1 3 (ficha_data (JNum 7)) twoMasters)) !! 2
  = sockets twoMasters !! 2
  /\ _alive <$> sockets (fst (handleMsg env1 3 (join_room (Some "Bo") (Some codeA))
                                twoMasters)) !! 3
     = _alive <$> sockets twoMasters !! 3.
Proof.
  split.
  - apply (message_touches_only_sender env1 3 (ficha_data (JNum 7)) twoMasters 2).
    discriminate.
  - apply (message_touches_only_sender env1 3 (join_room (Some "Bo") (Some codeA))
             twoMasters 3).
    discriminate.
Defined.

(** ** Creating a room, taking a room over *)

Lemma pickCode_free rooms rnd :
  (exists i, i < 20 /\ rooms !! genCode rnd (4 * i) = None) ->
  rooms !! pickCode rooms rnd = None.
Proof.
  intros (i & Hi & Hfree). unfold pickCode.
  destruct (codeLoop_spec rooms rnd 20 0) as (n & -> & Hn & Hall & Hnone); [lia..|].
  cbn [fst]. destruct (decide (n < 20)) as [Hlt|Hge]; [by apply Hnone|].
  assert (n = 20) as -> by lia.
  destruct (decide (i = 19)) as [->|Hne]; [done|].
  specialize (Hall i ltac:(lia)). rewrite Hfree in Hall. by destruct Hall.
Qed.

Lemma create_room_done env ws mn sn s :
  truthyStr (Some mn) = true -> truthyStr (Some sn) = true ->
  let code := pickCode (db_rooms s) (randomIndex env) in
  let s' := fst (handleMsg env ws (create_room (Some mn) (Some sn)) s) in
  db_rooms s' = <[code := mkDbRoom mn sn (now env) (Some ∅)]> (db_rooms s)
  /\ disk s' = db_rooms s'
  /\ liveRooms s' = <[code := mkLiveRoom (Some ws) ∅]> (liveRooms s)
  /\ sockets s'
     = alter (bindConn (Some "master") (Some code) (Some mn)) ws (sockets s)
  /\ snd (handleMsg env ws (create_room (Some mn) (Some sn)) s)
     = send s' (Some ws) (room_created code sn (Some mn)).
Proof. intros Hm Hs. unfold handleMsg. by rewrite Hm, Hs. Qed.

(** X7 (create_room). A create_room message with both names, from an open
    socket, stores a room of no participants under a code of the
    generator's format and flushes the store to the file, creates the live
    entry with the sender as master and no participants, binds the
    sender's socket as master of that code, answers with the one message
    [room_created], and touches no other room; unless all twenty
    candidate codes were taken, the code was free, so that no stored room
    is replaced. *)
Theorem create_room_creates env ws mn sn s :
  truthyStr (Some mn) = true -> truthyStr (Some sn) = true ->
  isOpen (sockets s) (Some ws) = true ->
  let code := pickCode (db_rooms s) (randomIndex env) in
  let r := handleMsg env ws (create_room (Some mn) (Some sn)) s in
  isRoomCode code = true
  /\ db_rooms (fst r) !! code = Some (mkDbRoom mn sn (now env) (Some ∅))
  /\ disk (fst r) = db_rooms (fst r)
  /\ liveRooms (fst r) !! code = Some (mkLiveRoom (Some ws) ∅)
  /\ (exists c, sockets (fst r) !! ws = Some c
                /\ _role c = Some "master" /\ _roomCode c = Some code
                /\ _name c = Some mn)
  /\ snd r = [(ws, room_created code sn (Some mn))]
  /\ (forall c', c' <> code ->
        db_rooms (fst r) !! c' = db_rooms s !! c'
        /\ liveRooms (fst r) !! c' = liveRooms s !! c')
  /\ ((exists i, i < 20 /\ db_rooms s !! genCode (randomIndex env) (4 * i) = None) ->
      db_rooms s !! code = None).
Proof.
  intros Hm Hs Ho.
  destruct (create_room_done env ws mn sn s Hm Hs) as (Hd & Hk & Hl & Hso & Hout).
  cbv zeta in *.
  destruct (isOpen_lookup _ _ Ho) as (c0 & Hc0 & Hopen).
  split; [apply pickCode_isRoomCode|].
  split; [by rewrite Hd, lookup_insert_eq|]. split; [done|].
  split; [by rewrite Hl, lookup_insert_eq|]. split.
  { rewrite Hso, lookup_alter_eq, Hc0. by eexists. }
  split.
  { rewrite Hout. unfold send. by rewrite handleMsg_isOpen, Ho. }
  split.
  { intros c' Hne. by rewrite Hd, Hl, !lookup_insert_ne. }
  apply pickCode_free.
Qed.

Lemma create_room_creates_witness :
  snd (handleMsg env0 1 (create_room (Some "Ana") (Some "Campaign 1"))
         (fst (run [EvConnection 1] (boot ∅))))
  = [(1, room_created codeA "Campaign 1" (Some "Ana"))].
Proof.
  destruct (create_room_creates env0 1 "Ana" "Campaign 1"
              (fst (run [EvConnection 1] (boot ∅))))
    as (_ & _ & _ & _ & _ & Hout & _); [reflexivity | reflexivity | reflexivity |].
  exact Hout.
Defined.

(** X8 (reconnect as master on a live room). The sender becomes the
    room's master reference in place of whichever socket was, the
    participants and the durable store stay as they are, the sender is
    sent [room_created] and then a [players_update] that lists every
    participant of the live entry with its name and whether its socket is
    open; and from then on a player's ficha_data in that room is forwarded
    to the new master only. *)
Theorem reconnect_master_supersedes env ws name rc s room lr :
  rc <> "" ->
  db_rooms s !! toUpperCase rc = Some room ->
  liveRooms s !! toUpperCase rc = Some lr ->
  isOpen (sockets s) (Some ws) = true ->
  let code := toUpperCase rc in
  let r := handleMsg env ws (reconnect (Some "master") name (Some rc)) s in
  liveRooms (fst r) !! code = Some (mkLiveRoom (Some ws) (players lr))
  /\ db_rooms (fst r) = db_rooms s
  /\ snd r = [(ws, room_created code (sessionName room) name);
              (ws, players_update (playersSnapshot (fst r) code))]
  /\ (forall id,
        playersSnapshot (fst r) code !! id
        = (fun p => mkPresence id (lp_name p) (isOpen (sockets s) (lp_ws p)))
            <$> players lr !! id)
  /\ (forall env' w fd cw,
        w <> ws -> sockets s !! w = Some cw ->
        _role cw = Some "player" -> _roomCode cw = Some code ->
        snd (handleMsg env' w (ficha_data fd) (fst r))
        = [(ws, ficha_update (_playerId cw) fd)]).
Proof.
  intros Hr Hdb Hlive Ho.
  destruct (reconnect_found env ws (Some "master") name rc s room Hr Hdb)
    as (Hd & _ & Hl & Hs & Hout).
  cbv zeta in *. rewrite bool_decide_eq_true_2 in Hl, Hs, Hout by done.
  set (s1 := fst (handleMsg env ws (reconnect (Some "master") name (Some rc)) s)) in *.
  assert (Hentry : liveRooms s1 !! toUpperCase rc
                   = Some (mkLiveRoom (Some ws) (players lr))).
  { rewrite Hl. unfold ensureLiveEmpty. by rewrite Hlive, lookup_alter_eq, Hlive. }
  assert (Hopen : forall w, isOpen (sockets s1) w = isOpen (sockets s) w).
  { intros w. apply handleMsg_isOpen. }
  split; [done|]. split; [done|]. split; [|split].
  - rewrite Hout. unfold send. by rewrite Hopen, Ho.
  - intros id. unfold playersSnapshot. rewrite Hentry, map_lookup_imap.
    cbn [players]. destruct (players lr !! id) as [p|]; [|done].
    simpl. by rewrite Hopen.
  - intros env' w fd cw Hne Hw Hrole Hcode.
    assert (Hup : toUpperCase rc <> "") by (intros H%toUpperCase_empty; done).
    assert (Hw1 : sockets s1 !! w = Some cw).
    { rewrite Hs. by rewrite lookup_alter_ne. }
    rewrite (ficha_data_active env' w fd s1 cw _ _ Hw1 Hrole Hcode Hup Hentry).
    cbn [snd masterWs]. by rewrite Hopen, Ho.
Qed.

(** X8 (reconnect as master) on the room whose master is socket 1 and whose
    player is on socket 3: socket 2 takes over and gets the player's next
    payload. *)
Lemma reconnect_master_supersedes_witness :
  (masterWs <$> liveRooms masterAndPlayer !! codeA) = Some (Some 1)
  /\ snd (handleMsg env1 3 (ficha_data (JNum 7))
            (fst (handleMsg env0 2 (reconnect (Some "master") (Some "Ana") (Some codeA))
                    masterAndPlayer)))
     = [(2, ficha_update (Some (genId env0)) (JNum 7))].
Proof.
  split; [reflexivity|].
  destruct (reconnect_master_supersedes env0 2 (Some "Ana") codeA masterAndPlayer
              (putDbPlayer (genId env0) (mkDbPlayer (Some "Bo") emptyObject) storedRoom)
              (mkLiveRoom (Some 1)
                 {[ genId env0 := mkLivePlayer (Some 3) (Some "Bo") emptyObject ]}))
    as (_ & _ & _ & _ & Hfwd);
    [discriminate | reflexivity | reflexivity | reflexivity |].
  exact (Hfwd env1 3 (JNum 7)
           (mkConn OPEN true (Some "player") (Some codeA) (Some "Bo")
              (Some (genId env0)))
           ltac:(discriminate) eq_refl eq_refl eq_refl).
Defined.

(** ** Invariants over runs *)

Lemma existsb_entries_none (rooms : gmap string DbRoom) cutoff c :
  rooms !! c = None ->
  existsb (fun e => bool_decide (e.1 = c) && expired cutoff e) (map_to_list rooms)
  = false.
Proof.
  intros Hc. apply not_true_iff_false.
  intros ([c' room'] & Hin & Htest)%existsb_exists.
  apply list_elem_of_In, elem_of_map_to_list in Hin.
  apply andb_prop in Htest as [Heq%bool_decide_eq_true _].
  simpl in Heq. subst c'. congruence.
Qed.

(** The sweeper in closed form, code by code. *)
Lemma retentionSweep_lookup t s c :
  db_rooms (retentionSweep t s) !! c
  = match db_rooms s !! c with
    | Some r => if (createdAt r <? t - ttl)%Z then None else Some r
    | None => None
    end
  /\ liveRooms (retentionSweep t s) !! c
     = match db_rooms s !! c with
       | Some r => if (createdAt r <? t - ttl)%Z then None else liveRooms s !! c
       | None => liveRooms s !! c
       end.
Proof.
  destruct (retentionSweep_fields t s) as (Hd & Hl & _). cbv zeta in *.
  rewrite Hd, Hl, !dropExpired_lookup.
  destruct (db_rooms s !! c) as [r|] eqn:Hc.
  - rewrite (existsb_entries_of _ _ _ _ Hc). by destruct (createdAt r <? t - ttl)%Z.
  - by rewrite (existsb_entries_none _ _ _ Hc).
Qed.

Lemma handleMsg_liveWithinStore env ws msg s :
  liveWithinStore s -> liveWithinStore (fst (handleMsg env ws msg s)).
Proof.
  intros Hinv. destruct msg as [mn sn|pn rc|role name rc|fd|pid| |ty].
  - destruct mn as [mn|]; [|done].
    destruct sn as [sn|]; [|by unfold handleMsg; rewrite orb_true_r].
    destruct (truthyStr (Some mn)) eqn:Hm; [|by unfold handleMsg; rewrite Hm].
    destruct (truthyStr (Some sn)) eqn:Hs;
      [|by unfold handleMsg; rewrite Hs, orb_true_r].
    destruct (create_room_done env ws mn sn s Hm Hs) as (Hd & _ & Hl & _).
    cbv zeta in *. intros c. rewrite Hd, Hl.
    rewrite !lookup_insert_is_Some. intros [?|[? ?]]; [by left|right].
    split; [done|]. by apply Hinv.
  - destruct pn as [pn|]; [|done].
    destruct rc as [rc|]; [|by unfold handleMsg; rewrite orb_true_r].
    destruct (truthyStr (Some pn)) eqn:Hp; [|by unfold handleMsg; rewrite Hp].
    destruct (decide (rc = "")) as [->|Hr]; [by unfold handleMsg; rewrite orb_true_r|].
    destruct (db_rooms s !! toUpperCase (trim rc)) as [room|] eqn:Hroom.
    + destruct (join_room_found env ws pn rc s room Hp Hr Hroom) as (Hd & _ & Hl & _).
      cbv zeta in *. intros c. rewrite Hd, Hl, !lookup_alter_is_Some.
      destruct (decide (c = toUpperCase (trim rc))) as [->|Hne]; [by rewrite Hroom|].
      rewrite ensureLiveSeeded_other by done. apply Hinv.
    + by rewrite (join_room_not_found_state env ws (Some pn) rc s Hroom).
  - destruct rc as [rc|]; [|done].
    destruct (decide (rc = "")) as [->|Hr]; [done|].
    destruct (db_rooms s !! toUpperCase rc) as [room|] eqn:Hroom.
    + destruct (reconnect_found env ws role name rc s room Hr Hroom) as (Hd & _ & Hl & _).
      cbv zeta in *. intros c. rewrite Hd, Hl.
      assert (Hkeys : is_Some (ensureLiveEmpty (toUpperCase rc) (liveRooms s) !! c) ->
                      is_Some (db_rooms s !! c)).
      { destruct (decide (c = toUpperCase rc)) as [->|Hne]; [by rewrite Hroom|].
        rewrite ensureLiveEmpty_other by done. apply Hinv. }
      case_bool_decide; by rewrite lookup_alter_is_Some.
    + by rewrite reconnect_not_found.
  - unfold handleMsg. destruct (sockets s !! ws) as [k|]; [|done].
    destruct (_ || _); [done|]. destruct (liveRooms s !! _); [|done].
    cbn [fst]. intros c. cbn [liveRooms db_rooms setDb setLive].
    rewrite !lookup_alter_is_Some. apply Hinv.
  - unfold handleMsg. by repeat case_match.
  - done.
  - done.
Qed.

Lemma step_liveWithinStore ev s :
  liveWithinStore s -> liveWithinStore (fst (step ev s)).
Proof.
  intros Hinv. destruct ev as [ws|env ws msg|ws| |t| ]; cbn [step].
  - by destruct (sockets s !! ws).
  - destruct (isOpen (sockets s) (Some ws)); [|done].
    by apply handleMsg_liveWithinStore.
  - set (sC := setSockets s (alter (setReadyState CLOSED) ws (sockets s))).
    destruct (handleDisconnect_store ws sC) as [Hd _]. intros c. rewrite Hd.
    destruct (handleDisconnect_live ws sC) as [->|[[code ->]|(code & id & ->)]];
      rewrite ?lookup_alter_is_Some; apply Hinv.
  - done.
  - intros c. cbn [fst]. destruct (retentionSweep_lookup t s c) as [-> ->].
    destruct (db_rooms s !! c) as [r|] eqn:Hc.
    + destruct (createdAt r <? t - ttl)%Z; [by intros ?%is_Some_None|by eauto].
    + intros Hl. apply Hinv in Hl. rewrite Hc in Hl. by apply is_Some_None in Hl.
  - intros c. cbn [fst boot liveRooms]. rewrite lookup_empty.
    by intros ?%is_Some_None.
Qed.

Lemma run_liveWithinStore evs : forall s,
  liveWithinStore s -> liveWithinStore (fst (run evs s)).
Proof.
  induction evs as [|ev evs IH]; intros s Hs; [done|].
  simpl. pose proof (step_liveWithinStore ev s Hs) as H1.
  destruct (step ev s) as [s1 out1]. specialize (IH s1 H1).
  by destruct (run evs s1).
Qed.

(** X9 (live rooms are stored rooms). Whatever file the process starts on
    and whatever happens, every room of the live registry has an entry in
    the durable store. *)
Theorem live_rooms_are_stored file evs c :
  is_Some (liveRooms (fst (run evs (boot file))) !! c) ->
  is_Some (db_rooms (fst (run evs (boot file))) !! c).
Proof.
  apply run_liveWithinStore. intros c'. cbn [boot liveRooms].
  rewrite lookup_empty. by intros ?%is_Some_None.
Qed.

Lemma live_rooms_are_stored_witness :
  is_Some (db_rooms twoMasters !! codeA).
Proof.
  apply (live_rooms_are_stored storedFile
           [EvConnection 1;
            EvMessage env0 1 (reconnect (Some "master") (Some "Ana") (Some codeA));
            EvConnection 2;
            EvMessage env0 2 (reconnect (Some "master") (Some "Ana") (Some codeA));
            EvConnection 3;
            EvMessage env0 3 (join_room (Some "Bo") (Some codeA))] codeA).
  vm_compute. by eexists.
Defined.

(** X10 (stored codes are generated codes). Started without a file, the
    process only ever stores codes of the generator's format, in memory
    and in the file; each of them is non-empty and is its own normal form
    under [trim] and [toUpperCase], so a join_room or reconnect that
    quotes it exactly looks up that very code. *)
Theorem stored_codes_are_generated evs c :
  is_Some (db_rooms (fst (run evs (boot ∅))) !! c)
  \/ is_Some (disk (fst (run evs (boot ∅))) !! c) ->
  isRoomCode c = true /\ c <> "" /\ toUpperCase (trim c) = c /\ toUpperCase c = c.
Proof.
  intros Hc.
  destruct (run_codesWellFormed evs (boot ∅) boot_empty_codesWellFormed)
    as [Hdb Hdisk].
  assert (Hfmt : isRoomCode c = true) by (destruct Hc; [by apply Hdb|by apply Hdisk]).
  split; [done|]. split; [by intros ->|].
  split; [by apply isRoomCode_normal|].
  by apply toUpperCase_plain, isRoomCode_plain.
Qed.

Lemma stored_codes_are_generated_witness :
  toUpperCase (trim codeA) = codeA.
Proof.
  apply (stored_codes_are_generated
           [EvConnection 1;
            EvMessage env0 1 (create_room (Some "Ana") (Some "Campaign 1"))] codeA).
  left. vm_compute. by eexists.
Defined.

(** ** Who can change a durable record *)

Lemma durablePlayer_alter_putDbPlayer s code' pid' p code pid :
  (code', pid') <> (code, pid) ->
  match alter (putDbPlayer pid' p) code' (db_rooms s) !! code with
  | Some room => default ∅ (db_players room) !! pid
  | None => None
  end = durablePlayer s code pid.
Proof.
  intros Hne. unfold durablePlayer. destruct (decide (code' = code)) as [->|Hc].
  - rewrite lookup_alter_eq. destruct (db_rooms s !! code) as [r|]; [|done].
    cbn [fmap option_fmap option_map]. unfold putDbPlayer. cbn [db_players default from_option id].
    rewrite lookup_insert_ne; [done|congruence].
  - by rewrite lookup_alter_ne.
Qed.

Lemma durablePlayer_alter_setDbFicha s code' pid' v code pid :
  (code', pid') <> (code, pid) ->
  match alter (setDbFicha pid' v) code' (db_rooms s) !! code with
  | Some room => default ∅ (db_players room) !! pid
  | None => None
  end = durablePlayer s code pid.
Proof.
  intros Hne. unfold durablePlayer. destruct (decide (code' = code)) as [->|Hc].
  - rewrite lookup_alter_eq. destruct (db_rooms s !! code) as [r|]; [|done].
    cbn [fmap option_fmap option_map]. rewrite setDbFicha_lookup.
    rewrite decide_False; [done|congruence].
  - by rewrite lookup_alter_ne.
Qed.

(** X11 (durable records). A message changes the durable record of a
    participant (its presence, name or payload) in three cases only: a
    create_room that takes the code of its room, a join_room into its room
    whose generated id is its id, and a ficha_data from a socket whose role
    is player and that is bound to its room and its id.  No message
    changes the record of another participant. *)
Theorem durable_record_changes_only_by env ws msg s code pid :
  durablePlayer (fst (handleMsg env ws msg s)) code pid <> durablePlayer s code pid ->
  recreates env msg s code \/ joinsAs env msg code pid \/ updatesOwn ws msg s code pid.
Proof.
  intros Hch. destruct msg as [mn sn|pn rc|role name rc|fd|req| |ty].
  - left. destruct mn as [mn|]; [|done].
    destruct sn as [sn|];
      [|exfalso; apply Hch; by unfold handleMsg; rewrite orb_true_r].
    destruct (truthyStr (Some mn)) eqn:Hm;
      [|exfalso; apply Hch; by unfold handleMsg; rewrite Hm].
    destruct (truthyStr (Some sn)) eqn:Hs;
      [|exfalso; apply Hch; by unfold handleMsg; rewrite Hs, orb_true_r].
    destruct (create_room_done env ws mn sn s Hm Hs) as (Hd & _).
    cbv zeta in Hd. exists (Some mn), (Some sn). split; [done|].
    destruct (decide (pickCode (db_rooms s) (randomIndex env) = code)) as [|Hne];
      [done|].
    exfalso. apply Hch. unfold durablePlayer. by rewrite Hd, lookup_insert_ne.
  - right; left. destruct pn as [pn|]; [|done].
    destruct rc as [rc|];
      [|exfalso; apply Hch; by unfold handleMsg; rewrite orb_true_r].
    destruct (truthyStr (Some pn)) eqn:Hp;
      [|exfalso; apply Hch; by unfold handleMsg; rewrite Hp].
    destruct (decide (rc = "")) as [->|Hr];
      [exfalso; apply Hch; by unfold handleMsg; rewrite orb_true_r|].
    destruct (db_rooms s !! toUpperCase (trim rc)) as [room|] eqn:Hroom.
    + destruct (join_room_found env ws pn rc s room Hp Hr Hroom) as (Hd & _).
      cbv zeta in Hd. exists (Some pn), rc. split; [done|].
      destruct (decide ((toUpperCase (trim rc), genId env) = (code, pid)))
        as [[= <- <-]|Hne]; [done|].
      exfalso. apply Hch. unfold durablePlayer at 1. rewrite Hd.
      by apply durablePlayer_alter_putDbPlayer.
    + exfalso. apply Hch.
      by rewrite (join_room_not_found_state env ws (Some pn) rc s Hroom).
  - exfalso. apply Hch. unfold durablePlayer.
    by destruct (reconnect_keeps_store env ws role name rc s) as [-> _].
  - right; right. unfold handleMsg in Hch.
    destruct (sockets s !! ws) as [c|] eqn:Hc; [|done].
    destruct (bool_decide (_role c = Some "player")) eqn:Hrole; [|done].
    apply bool_decide_eq_true in Hrole.
    destruct (_roomCode c) as [rcode|] eqn:Hcode; [|done].
    destruct (truthyStr (Some rcode)) eqn:Ht; [|done].
    cbn [negb orb default from_option id] in Hch.
    destruct (liveRooms s !! rcode) as [room|]; [|done].
    cbn [fst db_rooms setDb setLive] in Hch.
    exists fd, c. split; [done|]. split; [done|]. split; [done|].
    destruct (decide ((rcode, keyOfNullable (_playerId c)) = (code, pid)))
      as [[= <- <-]|Hne]; [done|].
    exfalso. apply Hch. unfold durablePlayer at 1. cbn [db_rooms].
    by apply durablePlayer_alter_setDbFicha.
  - exfalso. apply Hch. unfold handleMsg. by repeat case_match.
  - done.
  - done.
Qed.

(** X11 (durable records) on the player of socket 3: its payload changes the
    record of its own participant, and the message is its ficha_data. *)
Lemma durable_record_changes_only_by_witness :
  updatesOwn 3 (ficha_data (JNum 7)) twoMasters codeA (genId env0)
  \/ recreates env1 (ficha_data (JNum 7)) twoMasters codeA
  \/ joinsAs env1 (ficha_data (JNum 7)) codeA (genId env0).
Proof.
  destruct (durable_record_changes_only_by env1 3 (ficha_data (JNum 7)) twoMasters
              codeA (genId env0)) as [H|[H|H]].
  - vm_compute. discriminate.
  - right; left. exact H.
  - right; right. exact H.
  - left. exact H.
Defined.

(** ** Participant ids *)

Lemma digitValue_digit36 d : (d < 36)%N -> digitValue (digit36 d) = d.
Proof.
  intros Hd. unfold digitValue, digit36.
  destruct (d <? 10)%N eqn:Hlt.
  - apply N.ltb_lt in Hlt. rewrite N_ascii_embedding by lia.
    rewrite (proj2 (N.ltb_lt _ _)) by lia. lia.
  - apply N.ltb_ge in Hlt. rewrite N_ascii_embedding by lia.
    rewrite (proj2 (N.ltb_ge _ _)) by lia. lia.
Qed.

Lemma decodeFrom_natToString36 fuel : forall n acc,
  (n < 36 ^ N.of_nat fuel)%N ->
  decodeFrom 0 (natToString36 fuel n acc) = decodeFrom n acc.
Proof.
  induction fuel as [|fuel IH]; intros n acc Hn.
  - change (36 ^ N.of_nat 0)%N with 1%N in Hn. by replace n with 0%N by lia.
  - cbn [natToString36].
    assert (Hdigit : digitValue (digit36 (n mod 36)) = (n mod 36)%N).
    { apply digitValue_digit36. by apply N.mod_upper_bound. }
    destruct (n / 36 =? 0)%N eqn:Hq.
    + apply N.eqb_eq in Hq. cbn [decodeFrom]. rewrite Hdigit. f_equal.
      pose proof (N.div_mod n 36 ltac:(lia)). lia.
    + rewrite IH.
      * cbn [decodeFrom]. rewrite Hdigit. f_equal.
        pose proof (N.div_mod n 36 ltac:(lia)). lia.
      * apply N.Div0.div_lt_upper_bound.
        rewrite <- N.pow_succ_r'. by rewrite <- Nat2N.inj_succ.
Qed.

Lemma toString36_decode z :
  (0 <= z)%Z -> Z.of_N (decodeFrom 0 (toString36 z)) = z.
Proof.
  intros Hz. unfold toString36.
  rewrite (proj2 (Z.ltb_ge _ _)) by lia.
  rewrite decodeFrom_natToString36.
  - cbn [decodeFrom]. lia.
  - set (n := Z.to_N (Z.abs z)). rewrite Nat2N.inj_succ, N2Nat.id.
    destruct (N.eq_dec n 0%N) as [->|Hpos]; [done|].
    apply N.lt_le_trans with (2 ^ N.succ (N.log2 n))%N.
    + apply N.log2_spec. lia.
    + apply N.pow_le_mono_l. lia.
Qed.

Lemma string_length_app (a b : string) :
  String.length (a +:+ b) = String.length a + String.length b.
Proof. induction a as [|c a IH]; simpl; [done|]. by rewrite IH. Qed.

Lemma string_app_inj_length (a1 a2 s1 s2 : string) :
  a1 +:+ s1 = a2 +:+ s2 -> String.length s1 = String.length s2 ->
  a1 = a2 /\ s1 = s2.
Proof.
  revert a2. induction a1 as [|c a1 IH]; intros [|c2 a2] Heq Hlen; simpl in Heq.
  - done.
  - exfalso. apply (f_equal String.length) in Heq. simpl in Heq.
    rewrite !string_length_app in Heq. simpl in Heq. lia.
  - exfalso. apply (f_equal String.length) in Heq. simpl in Heq.
    rewrite !string_length_app in Heq. simpl in Heq. lia.
  - injection Heq as -> Heq. destruct (IH a2 Heq Hlen) as [-> ->]. done.
Qed.

(** X12 (base 36). The numeral that [toString(36)] gives for a non-negative
    integer reads back, digit by digit in base 36, as that integer; so
    different clock readings have different numerals. *)
Theorem toString36_round_trip z1 z2 :
  (0 <= z1)%Z -> (0 <= z2)%Z ->
  Z.of_N (decodeFrom 0 (toString36 z1)) = z1
  /\ (toString36 z1 = toString36 z2 -> z1 = z2).
Proof.
  intros H1 H2. split; [by apply toString36_decode|].
  intros Heq. rewrite <- (toString36_decode z1 H1), <- (toString36_decode z2 H2).
  by rewrite Heq.
Qed.

Lemma toString36_round_trip_witness :
  Z.of_N (decodeFrom 0 "loyw3v28") = 1700000000000%Z.
Proof.
  apply (toString36_round_trip 1700000000000 0); [discriminate|reflexivity].
Defined.

(** X13 (ids). Two ids generated at non-negative clock readings with random
    suffixes of the same length are equal only if the clock readings and
    the suffixes are: ids of different milliseconds never collide, and
    within a millisecond the suffix decides. *)
Theorem genId_injective e1 e2 :
  (0 <= now e1)%Z -> (0 <= now e2)%Z ->
  String.length (randomSuffix e1) = String.length (randomSuffix e2) ->
  genId e1 = genId e2 ->
  now e1 = now e2 /\ randomSuffix e1 = randomSuffix e2.
Proof.
  intros H1 H2 Hlen Heq. unfold genId in Heq.
  destruct (string_app_inj_length _ _ _ _ Heq Hlen) as [Hnum Hsuf].
  split; [|done].
  rewrite <- (toString36_decode _ H1), <- (toString36_decode _ H2).
  by rewrite Hnum.
Qed.

Lemma genId_injective_witness :
  genId env0 <> genId (mkEnv 1700000000001 (fun _ => 0) "abcde").
Proof.
  intros Heq.
  destruct (genId_injective env0 (mkEnv 1700000000001 (fun _ => 0) "abcde"))
    as [Hnow _]; [discriminate | discriminate | reflexivity | exact Heq |].
  discriminate Hnow.
Defined.

(** ** Sweeping twice *)

Lemma State_eq (a b : State) :
  db_rooms a = db_rooms b -> disk a = disk b ->
  liveRooms a = liveRooms b -> sockets a = sockets b -> a = b.
Proof. destruct a, b. simpl. by intros -> -> -> ->. Qed.

Lemma existsb_expired_iff (rooms : gmap string DbRoom) cutoff :
  existsb (expired cutoff) (map_to_list rooms) = true
  <-> exists c r, rooms !! c = Some r /\ (createdAt r < cutoff)%Z.
Proof.
  rewrite existsb_exists. split.
  - intros ([c r] & Hin & Hold). exists c, r.
    apply list_elem_of_In, elem_of_map_to_list in Hin. split; [done|].
    by apply Z.ltb_lt.
  - intros (c & r & Hc & Hold). exists (c, r). split.
    + by apply list_elem_of_In, elem_of_map_to_list.
    + by apply Z.ltb_lt.
Qed.

Lemma retentionSweep_disk t s :
  disk (retentionSweep t s)
  = if existsb (expired (t - ttl)) (map_to_list (db_rooms s))
    then db_rooms (retentionSweep t s) else disk s.
Proof.
  destruct (retentionSweep_fields t s) as (Hd & _ & _ & Hk). cbv zeta in *.
  by rewrite Hk, Hd.
Qed.

(** X14 (sweeping twice). A sweep at [t2] after a sweep at an earlier or
    equal time [t1] leaves the process in exactly the state that the sweep
    at [t2] alone would have: the store, the file, the live registry and
    the sockets.  In particular sweeping again at the same time changes
    nothing. *)
Theorem retentionSweep_absorbs t1 t2 s :
  (t1 <= t2)%Z ->
  retentionSweep t2 (retentionSweep t1 s) = retentionSweep t2 s.
Proof.
  intros Hle.
  assert (Hmono : forall r, (createdAt r <? t1 - ttl)%Z = true ->
                            (createdAt r <? t2 - ttl)%Z = true).
  { intros r H%Z.ltb_lt. apply Z.ltb_lt. lia. }
  assert (Hdb : db_rooms (retentionSweep t2 (retentionSweep t1 s))
                = db_rooms (retentionSweep t2 s)).
  { apply map_eq. intros c.
    destruct (retentionSweep_lookup t2 (retentionSweep t1 s) c) as [-> _].
    destruct (retentionSweep_lookup t2 s c) as [-> _].
    destruct (retentionSweep_lookup t1 s c) as [-> _].
    destruct (db_rooms s !! c) as [r|]; [|done].
    destruct (createdAt r <? t1 - ttl)%Z eqn:H1; [|done].
    by rewrite (Hmono r H1). }
  assert (Hlive : liveRooms (retentionSweep t2 (retentionSweep t1 s))
                  = liveRooms (retentionSweep t2 s)).
  { apply map_eq. intros c.
    destruct (retentionSweep_lookup t2 (retentionSweep t1 s) c) as [_ ->].
    destruct (retentionSweep_lookup t2 s c) as [_ ->].
    destruct (retentionSweep_lookup t1 s c) as [-> ->].
    destruct (db_rooms s !! c) as [r|]; [|done].
    destruct (createdAt r <? t1 - ttl)%Z eqn:H1; [|done].
    by rewrite (Hmono r H1). }
  apply State_eq; [done| |done|].
  - rewrite (retentionSweep_disk t2 (retentionSweep t1 s)), Hdb.
    rewrite (retentionSweep_disk t2 s), (retentionSweep_disk t1 s).
    destruct (existsb (expired (t2 - ttl)) (map_to_list (db_rooms s))) eqn:E2.
    + destruct (existsb (expired (t2 - ttl))
                  (map_to_list (db_rooms (retentionSweep t1 s)))) eqn:E21; [done|].
      apply existsb_expired_iff in E2 as (c & r & Hc & Hold).
      assert (H1 : (createdAt r <? t1 - ttl)%Z = true).
      { destruct (createdAt r <? t1 - ttl)%Z eqn:H1; [done|]. exfalso.
        apply not_true_iff_false in E21. apply E21, existsb_expired_iff.
        exists c, r. split; [|done].
        destruct (retentionSweep_lookup t1 s c) as [-> _]. by rewrite Hc, H1. }
      rewrite (proj2 (existsb_expired_iff (db_rooms s) (t1 - ttl)))
        by (exists c, r; split; [done|by apply Z.ltb_lt]).
      rewrite <- Hdb. apply map_eq. intros c'.
      destruct (retentionSweep_lookup t2 (retentionSweep t1 s) c') as [-> _].
      destruct (db_rooms (retentionSweep t1 s) !! c') as [r'|] eqn:Hc'; [|done].
      destruct (createdAt r' <? t2 - ttl)%Z eqn:H2; [|done]. exfalso.
      apply not_true_iff_false in E21. apply E21, existsb_expired_iff.
      exists c', r'. split; [done|by apply Z.ltb_lt].
    + assert (E1 : existsb (expired (t1 - ttl)) (map_to_list (db_rooms s)) = false).
      { apply not_true_iff_false. intros (c & r & Hc & Hold)%existsb_expired_iff.
        apply not_true_iff_false in E2. apply E2, existsb_expired_iff.
        exists c, r. split; [done|lia]. }
      rewrite E1.
      assert (E21 : existsb (expired (t2 - ttl))
                      (map_to_list (db_rooms (retentionSweep t1 s))) = false).
      { apply not_true_iff_false. intros (c & r & Hc & Hold)%existsb_expired_iff.
        apply not_true_iff_false in E2. apply E2, existsb_expired_iff.
        exists c, r. split; [|done].
        destruct (retentionSweep_lookup t1 s c) as [Hl _]. rewrite Hl in Hc.
        destruct (db_rooms s !! c) as [r0|]; [|done].
        destruct (createdAt r0 <? t1 - ttl)%Z; [done|]. by injection Hc as ->. }
      by rewrite E21.
  - destruct (retentionSweep_fields t2 (retentionSweep t1 s)) as (_ & _ & -> & _).
    destruct (retentionSweep_fields t2 s) as (_ & _ & -> & _).
    by destruct (retentionSweep_fields t1 s) as (_ & _ & -> & _).
Qed.

Lemma retentionSweep_absorbs_witness :
  retentionSweep 1700172800001 (retentionSweep 1700000000000 twoMasters)
  = retentionSweep 1700172800001 twoMasters.
Proof.
  apply (retentionSweep_absorbs 1700000000000 1700172800001 twoMasters).
  discriminate.
Defined.

(** ** Heartbeat *)

(** What one event, short of a restart, does to an existing socket: it
    stays in the store; its [readyState] changes only by its own close;
    its heartbeat flag changes only by its own pong, which sets it. *)
Lemma step_socket ev s ws c :
  ev <> EvRestart ->
  sockets s !! ws = Some c ->
  exists c', sockets (fst (step ev s)) !! ws = Some c'
             /\ (readyState c' = readyState c
                 \/ ev = EvClose ws /\ readyState c' = CLOSED)
             /\ (_alive c' = _alive c
                 \/ (exists env, ev = EvMessage env ws pong) /\ _alive c' = true).
Proof.
  intros Hev Hc.
  assert (Hsame : forall m : gmap nat Conn, m !! ws = Some c ->
             exists c', m !! ws = Some c'
                        /\ (readyState c' = readyState c
                            \/ ev = EvClose ws /\ readyState c' = CLOSED)
                        /\ (_alive c' = _alive c
                            \/ (exists env, ev = EvMessage env ws pong)
                               /\ _alive c' = true)).
  { intros m Hm. exists c. split; [done|]. split; by left. }
  destruct ev as [ws'|env ws' msg|ws'| |t| ]; cbn [step]; [..|done].
  - destruct (sockets s !! ws') eqn:Hw; [by apply Hsame|].
    apply Hsame. cbn [fst sockets setSockets].
    rewrite lookup_insert_ne; [done|congruence].
  - destruct (isOpen (sockets s) (Some ws')); [|by apply Hsame].
    assert (Hpong : msg = pong \/ msg <> pong)
      by (destruct msg; (by left) || (by right)).
    destruct Hpong as [->|Hmsg].
    + cbn [handleMsg fst sockets setSockets].
      destruct (decide (ws' = ws)) as [->|Hne].
      * rewrite lookup_alter_eq, Hc. eexists. split; [done|]. split; [by left|].
        right. split; [by eexists|done].
      * apply Hsame. by rewrite lookup_alter_ne.
    + destruct (handleMsg_socket_fields env ws' msg s ws) as (_ & Hr & Ha).
      specialize (Ha Hmsg). rewrite Hc in Hr, Ha.
      destruct (sockets (fst (handleMsg env ws' msg s)) !! ws) as [c'|]; [|done].
      simpl in Hr, Ha. injection Hr as Hr. injection Ha as Ha.
      exists c'. split; [done|]. split; by left.
  - rewrite handleDisconnect_sockets. cbn [sockets setSockets].
    destruct (decide (ws' = ws)) as [->|Hne].
    + rewrite lookup_alter_eq, Hc. eexists. split; [done|]. split; [|by left].
      right. done.
    + rewrite lookup_alter_ne by done. exists c. split; [done|]. split; by left.
  - by apply Hsame.
  - apply Hsame. cbn [fst]. by destruct (retentionSweep_fields t s) as (_ & _ & -> & _).
Qed.

(** A socket that a heartbeat tick would terminate, or that is not open
    any more, stays so while it sends no pong. *)
Lemma run_quiet ws evs : forall s c,
  Forall (quietFor ws) evs ->
  sockets s !! ws = Some c ->
  readyState c <> OPEN \/ _alive c = false ->
  exists c', sockets (fst (run evs s)) !! ws = Some c'
             /\ (readyState c' <> OPEN \/ _alive c' = false).
Proof.
  induction evs as [|ev evs IH]; intros s c Hall Hc Hinv;
    [exists c; by split|].
  inversion_clear Hall as [|? ? Hev Hevs].
  assert (Hnr : ev <> EvRestart) by (intros ->; done).
  destruct (step_socket ev s ws c Hnr Hc) as (c1 & Hc1 & Hr & Ha).
  assert (Hinv1 : readyState c1 <> OPEN \/ _alive c1 = false).
  { destruct Hr as [Hr|[_ Hr]]; [|left; by rewrite Hr].
    destruct Hinv as [Hinv|Hinv]; [left; by rewrite Hr|].
    destruct Ha as [Ha|[[env ->] _]]; [right; by rewrite Ha|].
    by simpl in Hev. }
  simpl. destruct (step ev s) as [s1 out1]. simpl in Hc1.
  destruct (IH s1 c1 Hevs Hc1 Hinv1) as (c' & Hc' & Hinv').
  destruct (run evs s1). exists c'. by split.
Qed.

(** An open socket whose flag is set stays open with its flag set while
    it neither closes nor the process restarts. *)
Lemma run_connected ws evs : forall s c,
  Forall (staysConnected ws) evs ->
  sockets s !! ws = Some c ->
  readyState c = OPEN -> _alive c = true ->
  exists c', sockets (fst (run evs s)) !! ws = Some c'
             /\ readyState c' = OPEN /\ _alive c' = true.
Proof.
  induction evs as [|ev evs IH]; intros s c Hall Hc Hopen Halive;
    [exists c; by split|].
  inversion_clear Hall as [|? ? Hev Hevs].
  assert (Hnr : ev <> EvRestart) by (intros ->; done).
  destruct (step_socket ev s ws c Hnr Hc) as (c1 & Hc1 & Hr & Ha).
  assert (Hopen1 : readyState c1 = OPEN).
  { destruct Hr as [Hr|[-> _]]; [by rewrite Hr|]. by simpl in Hev. }
  assert (Halive1 : _alive c1 = true).
  { destruct Ha as [Ha|[_ Ha]]; [by rewrite Ha|done]. }
  simpl. destruct (step ev s) as [s1 out1]. simpl in Hc1.
  destruct (IH s1 c1 Hevs Hc1 Hopen1 Halive1) as (c' & Hc' & H').
  destruct (run evs s1). exists c'. by split.
Qed.

(** X15 (heartbeat: eviction). A socket that sends no pong between two
    ticks of the heartbeat interval is not open after the second tick,
    whatever else happens in between short of a restart; the ticks change
    nothing but sockets. *)
Theorem keepAlive_evicts_silent_socket s ws evs :
  is_Some (sockets s !! ws) ->
  Forall (quietFor ws) evs ->
  isOpen (sockets (keepAlive (fst (run evs (keepAlive s))))) (Some ws) = false
  /\ db_rooms (keepAlive s) = db_rooms s
  /\ disk (keepAlive s) = disk s
  /\ liveRooms (keepAlive s) = liveRooms s.
Proof.
  intros [c Hc] Hall. split; [|done].
  assert (Hc1 : sockets (keepAlive s) !! ws = Some (keepAliveConn c)).
  { cbn [keepAlive sockets setSockets]. by rewrite lookup_fmap, Hc. }
  assert (Hinv1 : readyState (keepAliveConn c) <> OPEN
                  \/ _alive (keepAliveConn c) = false).
  { unfold keepAliveConn. case_bool_decide as Hcl; [left; by rewrite Hcl|].
    destruct (_alive c); simpl; [by right|by left]. }
  destruct (run_quiet ws evs _ _ Hall Hc1 Hinv1) as (c2 & Hc2 & Hinv2).
  cbn [isOpen keepAlive sockets setSockets]. rewrite lookup_fmap, Hc2. simpl.
  apply bool_decide_eq_false. unfold keepAliveConn.
  case_bool_decide as Hcl; [by rewrite Hcl|].
  destruct Hinv2 as [Hno|Hfl].
  - by destruct (_alive c2).
  - by rewrite Hfl.
Qed.

(** X15 (heartbeat: eviction) on the room with sockets 1, 2 and 3: socket 3
    sends a payload but no pong between the ticks. *)
Lemma keepAlive_evicts_silent_socket_witness :
  isOpen (sockets twoMasters) (Some 3) = true
  /\ isOpen (sockets (keepAlive
                        (fst (run [EvMessage env1 3 (ficha_data (JNum 7));
                                   EvMessage env1 2 pong]
                                  (keepAlive twoMasters)))))
            (Some 3) = false.
Proof.
  split; [reflexivity|].
  apply (keepAlive_evicts_silent_socket twoMasters 3
           [EvMessage env1 3 (ficha_data (JNum 7)); EvMessage env1 2 pong]).
  - vm_compute. by eexists.
  - repeat constructor. discriminate.
Defined.

(** X16 (heartbeat: answer). A socket that is open and sends a pong is
    still open after the next tick of the heartbeat interval, whatever
    else happens before that tick short of its own close and of a
    restart; the tick clears its flag again. *)
Theorem keepAlive_spares_answering_socket env s ws evs :
  isOpen (sockets s) (Some ws) = true ->
  Forall (staysConnected ws) evs ->
  let s1 := fst (run evs (fst (step (EvMessage env ws pong) s))) in
  isOpen (sockets (keepAlive s1)) (Some ws) = true
  /\ _alive <$> sockets (keepAlive s1) !! ws = Some false.
Proof.
  intros Ho Hall. cbv zeta. cbn [step]. rewrite Ho.
  destruct (isOpen_lookup _ _ Ho) as (c & Hc & Hopen).
  assert (Hc0 : sockets (fst (handleMsg env ws pong s)) !! ws
                = Some (setAlive true c)).
  { cbn [handleMsg fst sockets setSockets]. by rewrite lookup_alter_eq, Hc. }
  destruct (run_connected ws evs _ _ Hall Hc0 Hopen eq_refl) as (c1 & Hc1 & Hopen1 & Halive1).
  assert (Hk : sockets (keepAlive (fst (run evs (fst (handleMsg env ws pong s))))) !! ws
               = Some (setAlive false c1)).
  { cbn [keepAlive sockets setSockets]. rewrite lookup_fmap, Hc1.
    cbn [fmap option_fmap option_map]. unfold keepAliveConn.
    rewrite bool_decide_eq_false_2 by (rewrite Hopen1; done). by rewrite Halive1. }
  split; [|by rewrite Hk].
  cbn [isOpen]. rewrite Hk. by apply bool_decide_eq_true.
Qed.

Lemma keepAlive_spares_answering_socket_witness :
  isOpen (sockets (keepAlive
                     (fst (run [EvMessage env1 3 (ficha_data (JNum 7))]
                             (fst (step (EvMessage env1 3 pong)
                                     (keepAlive twoMasters)))))))
         (Some 3) = true.
Proof.
  apply (keepAlive_spares_answering_socket env1 (keepAlive twoMasters) 3
           [EvMessage env1 3 (ficha_data (JNum 7))]).
  - reflexivity.
  - repeat constructor.
Defined.

(** ** Sequences of messages *)

(** X17 (create, then join). After a create_room, a join_room from an open
    socket whose code normalises to the code just created is answered by
    [room_joined] with that code and the session name given at creation;
    the new participant is stored with an empty payload; the presence
    snapshot is that participant alone, online; and the creator's socket
    is sent that snapshot in a [players_update]. *)
Theorem create_then_join e1 ws1 mn sn e2 ws2 pn rc s :
  truthyStr (Some mn) = true -> truthyStr (Some sn) = true ->
  truthyStr (Some pn) = true ->
  isOpen (sockets s) (Some ws1) = true ->
  isOpen (sockets s) (Some ws2) = true ->
  let code := pickCode (db_rooms s) (randomIndex e1) in
  let s1 := fst (handleMsg e1 ws1 (create_room (Some mn) (Some sn)) s) in
  let r2 := handleMsg e2 ws2 (join_room (Some pn) (Some rc)) s1 in
  toUpperCase (trim rc) = code ->
  (ws2, room_joined code sn (genId e2)) ∈ snd r2
  /\ durablePlayer (fst r2) code (genId e2) = Some (mkDbPlayer (Some pn) emptyObject)
  /\ playersSnapshot (fst r2) code
     = {[ genId e2 := mkPresence (genId e2) (Some pn) true ]}
  /\ (ws1, players_update (playersSnapshot (fst r2) code)) ∈ snd r2.
Proof.
  intros Hm Hs Hp Ho1 Ho2. cbv zeta. intros Hcode.
  destruct (create_room_done e1 ws1 mn sn s Hm Hs) as (Hd1 & _ & Hl1 & _ & _).
  cbv zeta in *.
  set (s1 := fst (handleMsg e1 ws1 (create_room (Some mn) (Some sn)) s)) in *.
  set (code := pickCode (db_rooms s) (randomIndex e1)) in *.
  assert (Hr : rc <> "").
  { intros ->. pose proof (pickCode_isRoomCode (db_rooms s) (randomIndex e1)) as Hf.
    fold code in Hf. by rewrite <- Hcode in Hf. }
  assert (Hdb1 : db_rooms s1 !! toUpperCase (trim rc)
                 = Some (mkDbRoom mn sn (now e1) (Some ∅))).
  { by rewrite Hcode, Hd1, lookup_insert_eq. }
  assert (Hlive1 : liveRooms s1 !! code = Some (mkLiveRoom (Some ws1) ∅)).
  { by rewrite Hl1, lookup_insert_eq. }
  destruct (join_room_found e2 ws2 pn rc s1 _ Hp Hr Hdb1) as (Hd2 & _ & Hl2 & _ & Hout).
  cbv zeta in *. rewrite Hcode in Hd2, Hl2, Hout.
  set (s2 := fst (handleMsg e2 ws2 (join_room (Some pn) (Some rc)) s1)) in *.
  assert (Hopen : forall w, isOpen (sockets s2) w = isOpen (sockets s) w).
  { intros w. unfold s2, s1. by rewrite !handleMsg_isOpen. }
  assert (Hlive2 : liveRooms s2 !! code
                   = Some (mkLiveRoom (Some ws1)
                             (<[ genId e2 := mkLivePlayer (Some ws2) (Some pn) emptyObject ]> ∅))).
  { rewrite Hl2, lookup_alter_eq. unfold ensureLiveSeeded. by rewrite Hlive1, Hlive1. }
  assert (Hsnap : playersSnapshot s2 code
                  = {[ genId e2 := mkPresence (genId e2) (Some pn) true ]}).
  { unfold playersSnapshot. rewrite Hlive2. cbn [players].
    rewrite (map_imap_insert_Some _ _ _ _ (mkPresence (genId e2) (Some pn) true)).
    - by rewrite map_imap_empty, insert_empty.
    - cbn [lp_name lp_ws]. by rewrite Hopen, Ho2. }
  rewrite Hout. split; [|split; [|split; [done|]]].
  - apply elem_of_app. left. apply elem_of_send. by rewrite Hopen.
  - unfold durablePlayer. rewrite Hd2, lookup_alter_eq, Hd1, lookup_insert_eq.
    cbn [fmap option_fmap option_map putDbPlayer db_players default from_option id].
    by rewrite lookup_insert_eq.
  - apply elem_of_app. right. apply elem_of_broadcastRoom.
    split; [done|]. split; [by rewrite Hopen|]. split; [done|].
    eexists. split; [exact Hlive2|]. by left.
Qed.

Lemma create_then_join_witness :
  (2, room_joined codeA "Campaign 1" (genId env1))
    ∈ snd (handleMsg env1 2 (join_room (Some "Bo") (Some " valve-aaaa "))
             (fst (handleMsg env0 1 (create_room (Some "Ana") (Some "Campaign 1"))
                     twoAnonymous))).
Proof.
  destruct (create_then_join env0 1 "Ana" "Campaign 1" env1 2 "Bo" " valve-aaaa "
              twoAnonymous) as (Hjoined & _);
    [reflexivity | reflexivity | reflexivity | reflexivity | reflexivity
     | reflexivity |].
  exact Hjoined.
Defined.

(** X18 (payload served from the store). When a player with a durable
    record sends a payload and then disconnects, a request_ficha for it by
    an open master socket of the room is answered at once from the durable
    store: one [ficha_update] to the requester with the payload last sent,
    or with the empty object if that payload is falsy. *)
Theorem payload_served_after_disconnect e1 e2 w m pid fd s cw cm code lr dp :
  sockets s !! w = Some cw -> readyState cw = OPEN ->
  _role cw = Some "player" -> _roomCode cw = Some code -> code <> "" ->
  _playerId cw = Some pid -> pid <> "" ->
  sockets s !! m = Some cm -> readyState cm = OPEN -> m <> w ->
  _role cm = Some "master" -> _roomCode cm = Some code ->
  liveRooms s !! code = Some lr ->
  durablePlayer s code pid = Some dp ->
  let s1 := fst (step (EvMessage e1 w (ficha_data fd)) s) in
  let s2 := fst (step (EvClose w) s1) in
  snd (step (EvMessage e2 m (request_ficha (Some pid))) s2)
  = [(m, ficha_update (Some pid) (if truthy fd then fd else emptyObject))].
Proof.
  intros Hw Hwo Hwr Hwc Hne Hwp Hpne Hm Hmo Hmw Hmr Hmc Hlive Hdur. cbv zeta.
  assert (Ho : isOpen (sockets s) (Some w) = true).
  { simpl. rewrite Hw. by apply bool_decide_eq_true. }
  cbn [step]. rewrite Ho.
  rewrite (ficha_data_active e1 w fd s cw code lr Hw Hwr Hwc Hne Hlive).
  rewrite Hwp. cbn [fst keyOfNullable default from_option].
  set (s1 := mkState _ _ _ _).
  set (sC := setSockets s1 (alter (setReadyState CLOSED) w (sockets s1))).
  assert (HwC : sockets sC !! w = Some (setReadyState CLOSED cw)).
  { cbn [sC s1 sockets setSockets]. by rewrite lookup_alter_eq, Hw. }
  assert (Hlive1 : liveRooms sC !! code = Some (setLiveFicha pid fd lr)).
  { cbn [sC s1 liveRooms setSockets]. by rewrite lookup_alter_eq, Hlive. }
  pose proof (handleDisconnect_player w sC _ code pid _ HwC Hwr Hwc Hne Hwp Hpne Hlive1)
    as Hclose.
  cbv zeta in Hclose. rewrite Hclose. cbn [fst].
  set (s2 := setLive sC _).
  assert (Hm2 : sockets s2 !! m = Some cm).
  { cbn [s2 sC s1 sockets setLive setSockets]. by rewrite lookup_alter_ne. }
  assert (Hom : isOpen (sockets s2) (Some m) = true).
  { cbn [isOpen]. rewrite Hm2. by apply bool_decide_eq_true. }
  rewrite Hom.
  assert (Hlive2 : liveRooms s2 !! code
                   = Some (clearLiveWs pid (setLiveFicha pid fd lr))).
  { cbn [s2 liveRooms setLive]. by rewrite lookup_alter_eq, Hlive1. }
  rewrite (request_ficha_live e2 m (Some pid) s2 cm code _ Hm2 Hmr Hmc Hne Hlive2).
  cbv zeta. cbn [snd keyOfOptional default from_option].
  assert (Htarget : players (clearLiveWs pid (setLiveFicha pid fd lr)) !! pid ≫= lp_ws
                    = None).
  { rewrite clearLiveWs_lookup, decide_True by done.
    by destruct (players (setLiveFicha pid fd lr) !! pid). }
  unfold id at 1 2 3. rewrite Htarget. cbn [isOpen].
  unfold send. rewrite Hom. do 3 f_equal.
  unfold orEmptyObject.
  assert (Hstored : durableFicha s2 code pid = fd).
  { unfold durableFicha, durablePlayer in *.
    cbn [s2 sC s1 db_rooms setLive setSockets]. rewrite lookup_alter_eq.
    destruct (db_rooms s !! code) as [room|]; [|done].
    cbn [fmap option_fmap option_map]. unfold setDbFicha. cbn [db_players].
    destruct (db_players room) as [ps|];
      cbn [fmap option_fmap option_map default from_option id] in *;
      [|by rewrite lookup_empty in Hdur].
    by rewrite lookup_alter_eq, Hdur. }
  by rewrite Hstored.
Qed.

(** X18 (payload served from the store) on the room of master Ana and
    player Bo: Bo sends [{hp: 10}] and disconnects, Ana asks for it. *)
Lemma payload_served_after_disconnect_witness :
  snd (step (EvMessage env1 1 (request_ficha (Some (genId env0))))
         (fst (step (EvClose 2)
                 (fst (step (EvMessage env1 2 (ficha_data (JObj [("hp", JNum 10)])))
                         roomWithPlayer)))))
  = [(1, ficha_update (Some (genId env0)) (JObj [("hp", JNum 10)]))].
Proof.
  apply (payload_served_after_disconnect env1 env1 2 1 (genId env0)
           (JObj [("hp", JNum 10)]) roomWithPlayer
           (mkConn OPEN true (Some "player") (Some codeA) (Some "Bo") (Some (genId env0)))
           (mkConn OPEN true (Some "master") (Some codeA) (Some "Ana") None)
           codeA
           (mkLiveRoom (Some 1)
              {[ genId env0 := mkLivePlayer (Some 2) (Some "Bo") emptyObject ]})
           (mkDbPlayer (Some "Bo") emptyObject));
    try reflexivity; discriminate.
Defined.

(** ** After a restart, after a sweep *)

(** X19 (join_room restores the room). When join_room creates the live
    entry of a stored room (as after a restart), the presence snapshot
    afterwards lists the joiner, online if its socket is open, and every
    other participant of the durable store under its stored name and
    offline, and nobody else; each restored participant carries its
    stored payload, or the empty object if that is falsy. *)
Theorem join_room_restores_participants env ws pn rc s room :
  truthyStr (Some pn) = true -> rc <> "" ->
  db_rooms s !! toUpperCase (trim rc) = Some room ->
  liveRooms s !! toUpperCase (trim rc) = None ->
  let code := toUpperCase (trim rc) in
  let s' := fst (handleMsg env ws (join_room (Some pn) (Some rc)) s) in
  playersSnapshot s' code !! genId env
  = Some (mkPresence (genId env) (Some pn) (isOpen (sockets s) (Some ws)))
  /\ (forall pid, pid <> genId env ->
        playersSnapshot s' code !! pid
        = (fun p => mkPresence pid (dp_name p) false) <$> durablePlayer s code pid
        /\ livePlayer s' code pid
           = (fun p => mkLivePlayer None (dp_name p)
                         (if truthy (dp_fichaData p) then dp_fichaData p
                          else emptyObject))
               <$> durablePlayer s code pid).
Proof.
  intros Hp Hr Hdb Hlive.
  destruct (join_room_found env ws pn rc s room Hp Hr Hdb) as (_ & _ & Hl & _).
  cbv zeta in *.
  set (s' := fst (handleMsg env ws (join_room (Some pn) (Some rc)) s)) in *.
  assert (Hentry : liveRooms s' !! toUpperCase (trim rc)
                   = Some (mkLiveRoom None
                             (<[genId env := mkLivePlayer (Some ws) (Some pn) emptyObject]>
                                (restorePlayer <$> default ∅ (db_players room))))).
  { rewrite Hl, lookup_alter_eq. unfold ensureLiveSeeded.
    by rewrite Hlive, lookup_insert_eq. }
  assert (Hopen : forall w, isOpen (sockets s') w = isOpen (sockets s) w).
  { intros w. apply handleMsg_isOpen. }
  unfold playersSnapshot, livePlayer, durablePlayer. rewrite Hentry, Hdb.
  cbn [players]. split.
  - rewrite map_lookup_imap, lookup_insert_eq.
    cbn [mbind option_bind lp_ws lp_name]. by rewrite Hopen.
  - intros pid Hne. rewrite map_lookup_imap, lookup_insert_ne by done.
    rewrite lookup_fmap.
    destruct (default ∅ (db_players room) !! pid) as [p|]; [|done].
    done.
Qed.

Lemma join_room_restores_participants_witness :
  playersSnapshot
    (fst (handleMsg env0 1 (join_room (Some "Cy") (Some codeA)) afterRestart))
    codeA !! "p1"
  = Some (mkPresence "p1" (Some "Bo") false).
Proof.
  destruct (join_room_restores_participants env0 1 "Cy" codeA afterRestart storedRoom)
    as [_ Hothers]; [reflexivity | discriminate | reflexivity | reflexivity |].
  destruct (Hothers "p1") as [Hsnap _]; [discriminate|].
  exact Hsnap.
Defined.

(** X20 (sockets of a swept room). Once the sweeper has removed a room, the
    sockets still bound to its code are not told, and what they send is
    dropped: their ficha_data and request_ficha change nothing and are
    not answered, and their close changes nothing but their own
    [readyState] and is broadcast to nobody. *)
Theorem swept_room_ignores_its_sockets t s c room ws cw :
  db_rooms s !! c = Some room ->
  (t - createdAt room > 48 * 3600 * 1000)%Z ->
  sockets s !! ws = Some cw -> _roomCode cw = Some c ->
  let s' := retentionSweep t s in
  sockets s' = sockets s
  /\ (forall env fd, handleMsg env ws (ficha_data fd) s' = (s', []))
  /\ (forall env pid, handleMsg env ws (request_ficha pid) s' = (s', []))
  /\ step (EvClose ws) s'
     = (setSockets s' (alter (setReadyState CLOSED) ws (sockets s')), []).
Proof.
  intros Hc Hage Hw Hcode. cbv zeta.
  destruct (retentionSweep_fields t s) as (_ & _ & Hs & _). cbv zeta in Hs.
  destruct (retentionSweep_lookup t s c) as [_ Hl]. rewrite Hc in Hl.
  rewrite (proj2 (Z.ltb_lt _ _)) in Hl by (unfold ttl; lia).
  assert (Hw' : sockets (retentionSweep t s) !! ws = Some cw) by (by rewrite Hs).
  split; [done|]. split; [|split].
  - intros env fd. apply (ficha_data_room_not_live env ws fd _ cw Hw').
    by rewrite Hcode.
  - intros env pid. apply (request_ficha_not_live env ws pid _ cw Hw').
    by rewrite Hcode.
  - cbn [step]. unfold handleDisconnect. cbn [sockets setSockets liveRooms].
    rewrite lookup_alter_eq, Hw'. cbn [fmap option_fmap option_map setReadyState _roomCode].
    rewrite Hcode. cbn [default from_option id]. rewrite Hl.
    by destruct (negb _).
Qed.

Lemma swept_room_ignores_its_sockets_witness :
  handleMsg env1 3 (ficha_data (JNum 7)) (retentionSweep 1700172800001 twoMasters)
  = (retentionSweep 1700172800001 twoMasters, []).
Proof.
  destruct (swept_room_ignores_its_sockets 1700172800001 twoMasters codeA
              (putDbPlayer (genId env0) (mkDbPlayer (Some "Bo") emptyObject) storedRoom)
              3 (mkConn OPEN true (Some "player") (Some codeA) (Some "Bo")
                   (Some (genId env0))))
    as (_ & Hficha & _); [reflexivity | reflexivity | reflexivity | reflexivity |].
  apply Hficha.
Defined.

(** ** Records are kept *)

(** X21 (no message deletes a participant). Short of a create_room that
    takes the code of its room, no message removes a participant from
    the live registry or from the durable store. *)
Theorem messages_keep_participants env ws msg s code pid :
  ~ recreates env msg s code ->
  (is_Some (livePlayer s code pid) ->
   is_Some (livePlayer (fst (handleMsg env ws msg s)) code pid))
  /\ (is_Some (durablePlayer s code pid) ->
      is_Some (durablePlayer (fst (handleMsg env ws msg s)) code pid)).
Proof.
  intros Hnot. destruct msg as [mn sn|pn rc|role name rc|fd|req| |ty].
  - destruct mn as [mn|]; [|done].
    destruct sn as [sn|]; [|by unfold handleMsg; rewrite orb_true_r].
    destruct (truthyStr (Some mn)) eqn:Hm; [|by unfold handleMsg; rewrite Hm].
    destruct (truthyStr (Some sn)) eqn:Hs;
      [|by unfold handleMsg; rewrite Hs, orb_true_r].
    destruct (create_room_done env ws mn sn s Hm Hs) as (Hd & _ & Hl & _).
    cbv zeta in *.
    assert (Hne : pickCode (db_rooms s) (randomIndex env) <> code).
    { intros Heq. apply Hnot. by exists (Some mn), (Some sn). }
    unfold livePlayer, durablePlayer. by rewrite Hd, Hl, !lookup_insert_ne.
  - destruct pn as [pn|]; [|done].
    destruct rc as [rc|]; [|by unfold handleMsg; rewrite orb_true_r].
    destruct (truthyStr (Some pn)) eqn:Hp; [|by unfold handleMsg; rewrite Hp].
    destruct (decide (rc = "")) as [->|Hr]; [by unfold handleMsg; rewrite orb_true_r|].
    destruct (db_rooms s !! toUpperCase (trim rc)) as [room|] eqn:Hroom.
    + destruct (join_room_found env ws pn rc s room Hp Hr Hroom) as (Hd & _ & Hl & _).
      cbv zeta in *. unfold livePlayer, durablePlayer. rewrite Hd, Hl.
      destruct (decide (toUpperCase (trim rc) = code)) as [<-|Hne].
      * rewrite !lookup_alter_eq, Hroom. split.
        -- destruct (liveRooms s !! toUpperCase (trim rc)) as [lr|] eqn:Hlr;
             [|by intros ?%is_Some_None].
           unfold ensureLiveSeeded. rewrite Hlr, Hlr.
           cbn [fmap option_fmap option_map putLivePlayer players].
           intros Hin. apply lookup_insert_is_Some'. by right.
        -- cbn [fmap option_fmap option_map putDbPlayer db_players default from_option id].
           intros Hin. apply lookup_insert_is_Some'. by right.
      * rewrite !lookup_alter_ne by done. by rewrite ensureLiveSeeded_other.
    + by rewrite (join_room_not_found_state env ws (Some pn) rc s Hroom).
  - destruct rc as [rc|]; [|done].
    destruct (decide (rc = "")) as [->|Hr]; [done|].
    destruct (db_rooms s !! toUpperCase rc) as [room|] eqn:Hroom.
    + destruct (reconnect_found env ws role name rc s room Hr Hroom) as (Hd & _ & Hl & _).
      cbv zeta in *. unfold livePlayer, durablePlayer. rewrite Hd, Hl.
      split; [|done].
      destruct (decide (toUpperCase rc = code)) as [<-|Hne].
      * destruct (liveRooms s !! toUpperCase rc) as [lr|] eqn:Hlr;
          [|by intros ?%is_Some_None].
        unfold ensureLiveEmpty. rewrite Hlr.
        case_bool_decide; rewrite lookup_alter_eq, Hlr;
          cbn [fmap option_fmap option_map setMasterWs putLivePlayer players]; [done|].
        intros Hin. apply lookup_insert_is_Some'. by right.
      * case_bool_decide; rewrite lookup_alter_ne by done;
          by rewrite ensureLiveEmpty_other.
    + by rewrite reconnect_not_found.
  - unfold handleMsg. destruct (sockets s !! ws) as [k|]; [|done].
    destruct (_ || _); [done|]. destruct (liveRooms s !! _) as [lr0|]; [|done].
    cbn [fst]. unfold livePlayer, durablePlayer.
    cbn [liveRooms db_rooms setDb setLive]. split.
    + destruct (decide (default "" (_roomCode k) = code)) as [<-|Hne].
      * rewrite lookup_alter_eq. destruct (liveRooms s !! _) as [lr|]; [|done].
        cbn [fmap option_fmap option_map]. rewrite setLiveFicha_lookup.
        case_decide; [|done]. by rewrite fmap_is_Some.
      * by rewrite lookup_alter_ne.
    + destruct (decide (default "" (_roomCode k) = code)) as [<-|Hne].
      * rewrite lookup_alter_eq. destruct (db_rooms s !! _) as [r|]; [|done].
        cbn [fmap option_fmap option_map]. rewrite setDbFicha_lookup.
        case_decide; [|done]. by rewrite fmap_is_Some.
      * by rewrite lookup_alter_ne.
  - unfold handleMsg. by repeat case_match.
  - done.
  - done.
Qed.

Lemma messages_keep_participants_witness :
  is_Some (durablePlayer
             (fst (handleMsg env1 3 (join_room (Some "Cy") (Some codeA)) twoMasters))
             codeA "p1").
Proof.
  apply (messages_keep_participants env1 3 (join_room (Some "Cy") (Some codeA))
           twoMasters codeA "p1").
  - intros (mn & sn & Hmsg & _). discriminate Hmsg.
  - vm_compute. by eexists.
Defined.
